(** * sysfs: directory entries and attribute files (fs/sysfs/dir.c, fs/sysfs/file.c)

    A shallow embedding of the sysfs directory-entry tree and of the
    attribute-file buffer protocol of Linux 2.6.18, with the properties
    the specification states about them.

    Conventions.
    - [int], [size_t], [ssize_t] and [loff_t] values are integers in [Z].
      Where the code narrows a wider value to an [int] (the [ssize_t]
      results of [show] and [store] on their way through an [int], the
      [loff_t] position that [sysfs_readdir] switches on) the narrowing
      is written out ([int_wrap]), and so is the wrap-around of the
      event counter [s_event] ([atomic_inc]).
    - Error codes are returned the way the kernel returns them, as
      negated errno values.
    - A kernel object lives in a store keyed by its address ([nat]);
      a pointer is an address, and [NULL] is [None].
    - What a call into the rest of the kernel answers (an allocation, a
      dentry lookup, the creation of an inode, the fate of a copy to or
      from user memory) is an input of the function that makes the call.
    - A function returns [None] where the C code would dereference a
      null or dangling pointer or hit [BUG_ON]. *)

From Stdlib Require Import ZArith Lia.
From stdpp Require Import base option list gmap strings.

Open Scope Z_scope.

(** ** Constants *)

Definition ENOENT : Z := 2.
Definition EIO    : Z := 5.
Definition ENOMEM : Z := 12.
Definition EACCES : Z := 13.
Definition EFAULT : Z := 14.
Definition EEXIST : Z := 17.
Definition ENODEV : Z := 19.
Definition EINVAL : Z := 22.

Definition PAGE_SIZE : Z := 4096.

Definition POLLPRI : Z := 2.
Definition POLLERR : Z := 8.

Definition FMODE_READ  : Z := 1.
Definition FMODE_WRITE : Z := 2.

Definition S_IRUGO : Z := 292.   (* 0444 *)
Definition S_IWUGO : Z := 146.   (* 0222 *)
Definition S_IXUGO : Z := 73.    (* 0111 *)
Definition S_IRWXU : Z := 448.   (* 0700 *)
Definition S_IALLUGO : Z := 4095. (* 07777 *)
Definition S_IFDIR : Z := 16384.  (* 0040000 *)
Definition S_IFREG : Z := 32768.  (* 0100000 *)
Definition S_IFLNK : Z := 40960.  (* 0120000 *)

Definition DT_DIR : Z := 4.

(** An [int] has 32 bits: [int_wrap] is the conversion of a wider
    integer to [int]. [atomic_t] holds an [int]; [atomic_inc] wraps. *)
Definition int_wrap (z : Z) : Z := (z + 2 ^ 31) mod 2 ^ 32 - 2 ^ 31.
Definition atomic_inc (v : Z) : Z := int_wrap (v + 1).

(** [strcmp] as the code uses it: zero exactly on equal strings. *)
Definition strcmp (a b : string) : Z :=
  match String.compare a b with
  | Eq => 0
  | Lt => -1
  | Gt => 1
  end.

(** ** User memory

    A user buffer is known to the kernel by its address only; what the
    model keeps of it is how many of its bytes can be accessed.
    [copy_to_user] and [copy_from_user] answer the number of bytes they
    could NOT copy, zero on success. *)

Definition zeroes (n : Z) : list Byte.byte := replicate (Z.to_nat n) Byte.x00.

(** [copy_to_user buf src n] with [room] writable bytes at [buf]:
    the bytes not copied and the bytes that reached the caller. *)
Definition copy_to_user (room : Z) (src : list Byte.byte) (n : Z)
  : Z * list Byte.byte :=
  let k := Z.min n room in
  (n - k, take (Z.to_nat k) src).

(** [copy_from_user page buf n] where [ubuf] holds the readable bytes
    at [buf]: the bytes not copied and the page afterwards; the part of
    the destination that could not be filled is zeroed. *)
Definition copy_from_user (pg ubuf : list Byte.byte) (n : Z)
  : Z * list Byte.byte :=
  let k := Z.min n (Z.of_nat (length ubuf)) in
  (n - k, take (Z.to_nat k) ubuf ++ zeroes (n - k) ++ drop (Z.to_nat n) pg).

(** [get_zeroed_page]: a fresh page of zeroes, or [NULL]. *)
Definition get_zeroed_page (ok : bool) : option (list Byte.byte) :=
  if ok then Some (zeroes PAGE_SIZE) else None.

(** ** Attribute files (fs/sysfs/file.c) *)

Module File.

Section WithObject.

(** The state of the kernel object behind the attribute; only its
    [show] and [store] methods look inside. *)
Context {K : Type}.

(** [struct sysfs_ops]: [show] fills the page it is handed and answers
    a byte count or a negative error; [store] is handed the page and a
    count and may change the object. A method that is absent is [NULL]. *)
Record sysfs_ops := {
  show  : option (K → list Byte.byte → Z * list Byte.byte);
  store : option (K → list Byte.byte → Z → Z * K)
}.

(** [struct subsys_attribute]: the methods of a subsystem attribute. *)
Record subsys_attribute := {
  sattr_show  : option (K → list Byte.byte → Z * list Byte.byte);
  sattr_store : option (K → list Byte.byte → Z → Z * K)
}.

Definition subsys_attr_show (sattr : subsys_attribute)
    (s : K) (pg : list Byte.byte) : Z * list Byte.byte :=
  match sattr_show sattr with
  | Some f => f s pg
  | None => (- EIO, pg)
  end.

Definition subsys_attr_store (sattr : subsys_attribute)
    (s : K) (pg : list Byte.byte) (count : Z) : Z * K :=
  match sattr_store sattr with
  | Some f => f s pg count
  | None => (- EIO, s)
  end.

Definition subsys_sysfs_ops (sattr : subsys_attribute) : sysfs_ops :=
  {| show := Some (subsys_attr_show sattr);
     store := Some (subsys_attr_store sattr) |}.

(** [struct sysfs_buffer]. The semaphore serialises the operations on
    one buffer; the model runs them one at a time. *)
Record sysfs_buffer := {
  count : Z;
  pos : Z;
  page : option (list Byte.byte);
  ops : sysfs_ops;
  needs_read_fill : bool;
  event : Z
}.

Definition set_page (pg : option (list Byte.byte)) (b : sysfs_buffer) :=
  {| count := count b; pos := pos b; page := pg; ops := ops b;
     needs_read_fill := needs_read_fill b; event := event b |}.
Definition set_count (c : Z) (b : sysfs_buffer) :=
  {| count := c; pos := pos b; page := page b; ops := ops b;
     needs_read_fill := needs_read_fill b; event := event b |}.
Definition set_needs_read_fill (f : bool) (b : sysfs_buffer) :=
  {| count := count b; pos := pos b; page := page b; ops := ops b;
     needs_read_fill := f; event := event b |}.
Definition set_event (e : Z) (b : sysfs_buffer) :=
  {| count := count b; pos := pos b; page := page b; ops := ops b;
     needs_read_fill := needs_read_fill b; event := e |}.

(** What the methods were called with, oldest call first. *)
Inductive call :=
  | CallShow
  | CallStore (data : list Byte.byte).

(** What an open attribute file shares with the rest of the kernel: the
    object, the event counter of the attribute's [sysfs_dirent], and the
    record of the calls made to the object's methods. *)
Record world := {
  kobj : K;
  s_event : Z;
  calls : list call
}.

Definition set_kobj (k : K) (w : world) :=
  {| kobj := k; s_event := s_event w; calls := calls w |}.
Definition log (c : call) (w : world) :=
  {| kobj := kobj w; s_event := s_event w; calls := calls w ++ [c] |}.

Definition is_show (c : call) : bool :=
  match c with CallShow => true | CallStore _ => false end.
Definition is_store (c : call) : bool :=
  match c with CallShow => false | CallStore _ => true end.

(** How often [show] and [store] have been invoked. *)
Definition shows (w : world) : nat := length (filter is_show (calls w)).
Definition stores (w : world) : nat := length (filter is_store (calls w)).

(** [struct file]: the buffer is [private_data]; [f_pos] is the
    position [ppos] points at. *)
Record file := {
  private_data : sysfs_buffer;
  f_pos : Z
}.

(** [fill_read_buffer]. [page_ok] is what [get_zeroed_page] answers
    should the buffer have no page yet. A negative count of [show]
    goes through [int ret] on its way out. *)
Definition fill_read_buffer (page_ok : bool) (w : world)
    (buffer : sysfs_buffer) : option (Z * world * sysfs_buffer) :=
  let buffer :=
    match page buffer with
    | None => set_page (get_zeroed_page page_ok) buffer
    | Some _ => buffer
    end in
  match page buffer with
  | None => Some (- ENOMEM, w, buffer)
  | Some pg =>
    let buffer := set_event (s_event w) buffer in
    sh ← show (ops buffer);
    let '(cnt, pg') := sh (kobj w) pg in
    let w := log CallShow w in
    let buffer := set_needs_read_fill false (set_page (Some pg') buffer) in
    if PAGE_SIZE <? cnt then None
    else if 0 <=? cnt then Some (0, w, set_count cnt buffer)
    else Some (int_wrap cnt, w, buffer)
  end.

(** [flush_read_buffer]: the result, the bytes that reached the caller
    and the position afterwards. [room] is how many bytes of the
    caller's buffer are writable. *)
Definition flush_read_buffer (buffer : sysfs_buffer) (room : Z)
    (cnt : Z) (ppos : Z) : option (Z * list Byte.byte * Z) :=
  if count buffer <? ppos then Some (0, [], ppos)
  else
    let cnt := if count buffer - ppos <? cnt then count buffer - ppos else cnt in
    pg ← page buffer;
    let '(error, out) := copy_to_user room (drop (Z.to_nat ppos) pg) cnt in
    if error =? 0 then Some (cnt, out, ppos + cnt)
    else Some (- EFAULT, out, ppos).

(** [sysfs_read_file]: the result, the bytes that reached the caller,
    and the world and the file afterwards. *)
Definition sysfs_read_file (page_ok : bool) (room : Z) (w : world)
    (f : file) (cnt : Z) : option (Z * list Byte.byte * world * file) :=
  let buffer := private_data f in
  if needs_read_fill buffer then
    '(retval, w, buffer) ← fill_read_buffer page_ok w buffer;
    if retval =? 0 then
      '(retval, out, ppos) ← flush_read_buffer buffer room cnt (f_pos f);
      Some (retval, out, w, {| private_data := buffer; f_pos := ppos |})
    else
      Some (retval, [], w, {| private_data := buffer; f_pos := f_pos f |})
  else
    '(retval, out, ppos) ← flush_read_buffer buffer room cnt (f_pos f);
    Some (retval, out, w, {| private_data := buffer; f_pos := ppos |}).

(** [fill_write_buffer]. [ubuf] holds the readable bytes at the
    caller's address. *)
Definition fill_write_buffer (page_ok : bool) (buffer : sysfs_buffer)
    (ubuf : list Byte.byte) (cnt : Z) : Z * sysfs_buffer :=
  let buffer :=
    match page buffer with
    | None => set_page (get_zeroed_page page_ok) buffer
    | Some _ => buffer
    end in
  match page buffer with
  | None => (- ENOMEM, buffer)
  | Some pg =>
    let cnt := if PAGE_SIZE <=? cnt then PAGE_SIZE - 1 else cnt in
    let '(error, pg') := copy_from_user pg ubuf cnt in
    let buffer := set_needs_read_fill true (set_page (Some pg') buffer) in
    (if error =? 0 then cnt else - EFAULT, buffer)
  end.

(** [flush_write_buffer]: hand the page to the object's [store]. The
    function returns an [int], what [store] returns is an [ssize_t]. *)
Definition flush_write_buffer (w : world) (buffer : sysfs_buffer)
    (cnt : Z) : option (Z * world) :=
  st ← store (ops buffer);
  pg ← page buffer;
  let '(r, k) := st (kobj w) pg cnt in
  Some (int_wrap r, set_kobj k (log (CallStore (take (Z.to_nat cnt) pg)) w)).

(** [sysfs_write_file]. *)
Definition sysfs_write_file (page_ok : bool) (w : world) (f : file)
    (ubuf : list Byte.byte) (cnt : Z) : option (Z * world * file) :=
  let '(len, buffer) := fill_write_buffer page_ok (private_data f) ubuf cnt in
  '(len, w) ← (if 0 <? len then flush_write_buffer w buffer len
               else Some (len, w));
  let ppos := if 0 <? len then f_pos f + len else f_pos f in
  Some (len, w, {| private_data := buffer; f_pos := ppos |}).

(** The part of [struct kobject] that [check_perm] reads:
    [kset_ktype] is [kobj->kset->ktype->sysfs_ops] when [kobj->kset] and
    its [ktype] are set, [ktype] is [kobj->ktype->sysfs_ops] when
    [kobj->ktype] is set; either may hold [NULL]. *)
Record kobject := {
  kset_ktype : option (option sysfs_ops);
  ktype : option (option sysfs_ops)
}.

Definition has_bits (v mask : Z) : bool := negb (Z.land v mask =? 0).

(** [check_perm], which is [sysfs_open_file]: the error and the buffer
    left in [file->private_data]. [module_ok] is what [try_module_get]
    answers and [kzalloc_ok] whether the buffer could be allocated; the
    references taken and dropped on the object and the module are not
    part of the model. *)
Definition check_perm (i_mode f_mode : Z) (ko : option kobject)
    (attr : option subsys_attribute) (module_ok kzalloc_ok : bool)
  : Z * option sysfs_buffer :=
  match ko, attr with
  | Some k, Some a =>
    if negb module_ok then (- ENODEV, None)
    else
      let o :=
        match kset_ktype k with
        | Some o => o
        | None =>
          match ktype k with
          | Some o => o
          | None => Some (subsys_sysfs_ops a)
          end
        end in
      match o with
      | None => (- EACCES, None)
      | Some o =>
        if has_bits f_mode FMODE_WRITE
           && (negb (has_bits i_mode S_IWUGO) || bool_decide (store o = None))
        then (- EACCES, None)
        else if has_bits f_mode FMODE_READ
           && (negb (has_bits i_mode S_IRUGO) || bool_decide (show o = None))
        then (- EACCES, None)
        else if kzalloc_ok then
          (0, Some {| count := 0; pos := 0; page := None; ops := o;
                      needs_read_fill := true; event := 0 |})
        else (- ENOMEM, None)
      end
  | _, _ => (- EINVAL, None)
  end.

(** [sysfs_poll]: the event mask and the file afterwards. Waiting on
    the object's queue is not part of the model: a poll is the check a
    woken or a fresh caller makes. *)
Definition sysfs_poll (w : world) (f : file) : Z * file :=
  let buffer := private_data f in
  if event buffer =? s_event w then (0, f)
  else (Z.lor POLLERR POLLPRI,
        {| private_data := set_needs_read_fill true buffer;
           f_pos := f_pos f |}).

(** What [sysfs_notify] reads of a dentry: whether it has an inode, and
    its [d_fsdata], which is [NULL] or a node; for a node, whether it is
    the node of this world's attribute. *)
Record dentry_view := {
  has_inode : bool;
  fsdata : option bool
}.

(** [step_down]. [lk] is what [lookup_one_len(name, dir, strlen(name))]
    answers. *)
Definition step_down (lk : Z + dentry_view) (dir : option dentry_view)
  : option dentry_view :=
  match dir with
  | None => None
  | Some d =>
    if negb (has_inode d) then None
    else
      match lk with
      | inl _ => None
      | inr de => if negb (has_inode de) then None else Some de
      end
  end.

(** The dentry at which the walk of [sysfs_notify] ends. [k_dentry] is
    [k->dentry]; [dir] and [attr] are [None] for a [NULL] name and
    carry the answer of the lookup of the name otherwise. *)
Definition notify_walk (k_dentry : option dentry_view)
    (dir attr : option (Z + dentry_view)) : option dentry_view :=
  let de := k_dentry in
  let de := match de, dir with
            | Some _, Some lk => step_down lk de
            | _, _ => de
            end in
  match de, attr with
  | Some _, Some lk => step_down lk de
  | _, _ => de
  end.

(** [sysfs_notify]. Waking the waiters is not part of the model. *)
Definition sysfs_notify (k_dentry : option dentry_view)
    (dir attr : option (Z + dentry_view)) (w : world) : world :=
  match notify_walk k_dentry dir attr with
  | Some de =>
    match fsdata de with
    | Some true =>
      {| kobj := kobj w; s_event := atomic_inc (s_event w); calls := calls w |}
    | _ => w
    end
  | None => w
  end.

(** A run of reads on one open file, each request giving what
    [get_zeroed_page] would answer, the writable room at the caller's
    address and the count asked for; the result lists what each read
    returned and delivered. *)
Fixpoint read_seq (reqs : list (bool * Z * Z)) (w : world) (f : file)
  : option (list (Z * list Byte.byte) * world * file) :=
  match reqs with
  | [] => Some ([], w, f)
  | (page_ok, room, cnt) :: reqs =>
    '(r, out, w, f) ← sysfs_read_file page_ok room w f cnt;
    '(rs, w, f) ← read_seq reqs w f;
    Some ((r, out) :: rs, w, f)
  end.

(** A run of polls with nothing in between: the masks, and the file
    after the last one. *)
Fixpoint poll_seq (n : nat) (w : world) (f : file) : list Z * file :=
  match n with
  | O => ([], f)
  | S n =>
    let '(m, f) := sysfs_poll w f in
    let '(ms, f) := poll_seq n w f in
    (m :: ms, f)
  end.

(** The bytes of a page from offset [a] up to offset [b]. *)
Definition slice (pg : list Byte.byte) (a b : Z) : list Byte.byte :=
  take (Z.to_nat (b - a)) (drop (Z.to_nat a) pg).

(** How many bytes a read of [cnt] at position [pos] takes out of a
    page holding [c] valid bytes. *)
Definition chunk_len (c pos cnt : Z) : Z := Z.max 0 (Z.min cnt (c - pos)).

(** What a run of reads that drains a filled page returns: read by
    read, from position [pos], the chunk length and the chunk. *)
Fixpoint drained (c : Z) (pg : list Byte.byte) (pos : Z) (cnts : list Z)
  : list (Z * list Byte.byte) :=
  match cnts with
  | [] => []
  | cnt :: cnts =>
    let n := chunk_len c pos cnt in
    (n, slice pg pos (pos + n)) :: drained c pg (pos + n) cnts
  end.

(** Where such a run leaves the file position. *)
Fixpoint drain_pos (c pos : Z) (cnts : list Z) : Z :=
  match cnts with
  | [] => pos
  | cnt :: cnts => drain_pos c (pos + chunk_len c pos cnt) cnts
  end.

(** The buffer after a fill that found [c] bytes in the page [pg] while
    the event counter stood at [e]. *)
Definition filled (b : sysfs_buffer) (c : Z) (pg : list Byte.byte) (e : Z)
  : sysfs_buffer :=
  {| count := c; pos := pos b; page := Some pg; ops := ops b;
     needs_read_fill := false; event := e |}.

(** The page [show] is handed: the buffer's, or a fresh one. *)
Definition page_or_fresh (b : sysfs_buffer) : list Byte.byte :=
  from_option id (zeroes PAGE_SIZE) (page b).

(** A request that neither runs out of memory nor faults. *)
Definition serviceable (req : bool * Z * Z) : Prop :=
  req.1.1 = true ∧ 0 ≤ req.2 ≤ req.1.2.

End WithObject.

Arguments sysfs_ops : clear implicits.
Arguments subsys_attribute : clear implicits.
Arguments sysfs_buffer : clear implicits.
Arguments world : clear implicits.
Arguments file : clear implicits.
Arguments kobject : clear implicits.

(** A sample attribute for the examples: the object is the value, a
    string of bytes; [show] writes it at the start of the page and
    [store] replaces it by what was written. *)
Definition sample_show (k : list Byte.byte) (pg : list Byte.byte)
  : Z * list Byte.byte :=
  (Z.of_nat (length k), k ++ drop (length k) pg).

Definition sample_store (k : list Byte.byte) (pg : list Byte.byte) (n : Z)
  : Z * list Byte.byte :=
  (n, take (Z.to_nat n) pg).

Definition sample_ops : sysfs_ops (list Byte.byte) :=
  {| show := Some sample_show; store := Some sample_store |}.

(** An attribute whose [show] fails with [-EIO]. *)
Definition failing_ops : sysfs_ops (list Byte.byte) :=
  {| show := Some (λ _ pg, (- EIO, pg)); store := Some sample_store |}.

(** The file [check_perm] leaves behind when the object's type supplies
    [o] and the open is for reading and writing. *)
Definition sample_open (o : sysfs_ops (list Byte.byte))
  : option (file (list Byte.byte)) :=
  b ← (check_perm 420 (Z.lor FMODE_READ FMODE_WRITE)
         (Some {| kset_ktype := None; ktype := Some (Some o) |})
         (Some {| sattr_show := None; sattr_store := None |}) true true).2;
  Some {| private_data := b; f_pos := 0 |}.

Definition sample_world (v : list Byte.byte) : world (list Byte.byte) :=
  {| kobj := v; s_event := 0; calls := [] |}.

(** That file, spelled out. *)
Definition sample_file (o : sysfs_ops (list Byte.byte))
  : file (list Byte.byte) :=
  {| private_data := {| count := 0; pos := 0; page := None; ops := o;
                        needs_read_fill := true; event := 0 |};
     f_pos := 0 |}.

(** The value "42". *)
Definition forty_two : list Byte.byte := [Byte.x34; Byte.x32].

(** The dentry of the sample attribute, as [sysfs_notify] sees it. *)
Definition sample_dentry : dentry_view :=
  {| has_inode := true; fsdata := Some true |}.

(** The open file at position [p] on the buffer [b]. *)
Definition opened {K : Type} (b : sysfs_buffer K) (p : Z) : file K :=
  {| private_data := b; f_pos := p |}.

(** An object whose type supplies the sample operations, a subsystem
    (an object without type or kset), and a subsystem attribute that has
    neither method. *)
Definition typed_object : kobject (list Byte.byte) :=
  {| kset_ktype := None; ktype := Some (Some sample_ops) |}.

Definition bare_subsystem : kobject (list Byte.byte) :=
  {| kset_ktype := None; ktype := None |}.

Definition mute_attribute : subsys_attribute (list Byte.byte) :=
  {| sattr_show := None; sattr_store := None |}.

(** The sample file after a read has filled its buffer with "42". *)
Definition filled_file : file (list Byte.byte) :=
  {| private_data := filled (private_data (sample_file sample_ops)) 2
                       (forty_two ++ drop 2 (zeroes PAGE_SIZE)) 0;
     f_pos := 0 |}.

End File.

(** ** The directory-entry tree (fs/sysfs/dir.c) *)

Module Dir.

Definition SYSFS_ROOT : Z := 1.
Definition SYSFS_DIR : Z := 2.
Definition SYSFS_KOBJ_ATTR : Z := 4.
Definition SYSFS_KOBJ_BIN_ATTR : Z := 8.
Definition SYSFS_KOBJ_LINK : Z := 32.
Definition SYSFS_NOT_PINNED : Z :=
  Z.lor (Z.lor SYSFS_KOBJ_ATTR SYSFS_KOBJ_BIN_ATTR) SYSFS_KOBJ_LINK.

(** [struct attribute] (the owning module is left out) and
    [struct bin_attribute] (of which only the declared size is read). *)
Record attribute := {
  attr_name : string;
  attr_mode : Z
}.

Record bin_attribute := {
  bin_attr : attribute;
  bin_size : Z
}.

(** A [struct attribute *] points at an attribute of its own or at the
    first member of a [struct bin_attribute]. *)
Inductive attr_ptr :=
  | AttrPtr (a : attribute)
  | BinAttrPtr (b : bin_attribute).

Definition deref (p : attr_ptr) : attribute :=
  match p with
  | AttrPtr a => a
  | BinAttrPtr b => bin_attr b
  end.

(** [struct sysfs_symlink]. *)
Record sysfs_symlink := {
  link_name : string;
  target_kobj : nat
}.

(** What [s_element] points at, by the kind of the node. *)
Inductive element :=
  | Kobj (k : nat)
  | AttrEl (p : attr_ptr)
  | LinkEl (l : sysfs_symlink).

(** [struct sysfs_dirent]. [s_sibling] is the node's place in the
    [s_children] list of its parent; [s_children] lists the addresses of
    the children, first entry of the list first. *)
Record sysfs_dirent := {
  s_count : Z;
  s_children : list nat;
  s_element : option element;
  s_type : Z;
  s_mode : Z;
  s_dentry : option nat;
  s_event : Z
}.

Definition set_children (f : list nat → list nat) (sd : sysfs_dirent) :=
  {| s_count := s_count sd; s_children := f (s_children sd);
     s_element := s_element sd; s_type := s_type sd; s_mode := s_mode sd;
     s_dentry := s_dentry sd; s_event := s_event sd |}.
Definition set_count (f : Z → Z) (sd : sysfs_dirent) :=
  {| s_count := f (s_count sd); s_children := s_children sd;
     s_element := s_element sd; s_type := s_type sd; s_mode := s_mode sd;
     s_dentry := s_dentry sd; s_event := s_event sd |}.
Definition set_dentry (d : option nat) (sd : sysfs_dirent) :=
  {| s_count := s_count sd; s_children := s_children sd;
     s_element := s_element sd; s_type := s_type sd; s_mode := s_mode sd;
     s_dentry := d; s_event := s_event sd |}.
Definition set_mode_type (m t : Z) (sd : sysfs_dirent) :=
  {| s_count := s_count sd; s_children := s_children sd;
     s_element := s_element sd; s_type := t; s_mode := m;
     s_dentry := s_dentry sd; s_event := s_event sd |}.
Definition set_event (f : Z → Z) (sd : sysfs_dirent) :=
  {| s_count := s_count sd; s_children := s_children sd;
     s_element := s_element sd; s_type := s_type sd; s_mode := s_mode sd;
     s_dentry := s_dentry sd; s_event := f (s_event sd) |}.

(** The file operations an inode is given. *)
Inductive fops := DirOperations | FileOperations | BinFops.

(** [struct inode] and [struct dentry], as far as this code reads and
    writes them. The dentry cache's own bookkeeping (reference counts,
    hashing) stays with the host. *)
Record inode := {
  i_ino : Z;
  i_mode : Z;
  i_nlink : Z;
  i_size : Z;
  i_fop : option fops
}.

Record dentry := {
  d_name : string;
  d_parent : nat;
  d_inode : option inode;
  d_fsdata : option nat
}.

Definition set_fsdata (sd : option nat) (de : dentry) :=
  {| d_name := d_name de; d_parent := d_parent de; d_inode := d_inode de;
     d_fsdata := sd |}.
Definition set_inode (i : option inode) (de : dentry) :=
  {| d_name := d_name de; d_parent := d_parent de; d_inode := i;
     d_fsdata := d_fsdata de |}.
Definition set_name (n : string) (de : dentry) :=
  {| d_name := n; d_parent := d_parent de; d_inode := d_inode de;
     d_fsdata := d_fsdata de |}.
Definition set_nlink (f : Z → Z) (i : inode) :=
  {| i_ino := i_ino i; i_mode := i_mode i; i_nlink := f (i_nlink i);
     i_size := i_size i; i_fop := i_fop i |}.
Definition set_size (s : Z) (i : inode) :=
  {| i_ino := i_ino i; i_mode := i_mode i; i_nlink := i_nlink i;
     i_size := s; i_fop := i_fop i |}.
Definition set_fop (o : fops) (i : inode) :=
  {| i_ino := i_ino i; i_mode := i_mode i; i_nlink := i_nlink i;
     i_size := i_size i; i_fop := Some o |}.

(** [struct kobject], as far as this code reads and writes it. *)
Record kobject := {
  k_name : string;
  k_parent : option nat;
  k_dentry : option nat
}.

(** The objects of the three kinds, each kind keyed by address. *)
Record sysfs := {
  sds : gmap nat sysfs_dirent;
  dentries : gmap nat dentry;
  kobjs : gmap nat kobject
}.

Definition with_sds (f : gmap nat sysfs_dirent → gmap nat sysfs_dirent)
    (st : sysfs) : sysfs :=
  {| sds := f (sds st); dentries := dentries st; kobjs := kobjs st |}.
Definition with_dentries (f : gmap nat dentry → gmap nat dentry)
    (st : sysfs) : sysfs :=
  {| sds := sds st; dentries := f (dentries st); kobjs := kobjs st |}.
Definition with_kobjs (f : gmap nat kobject → gmap nat kobject)
    (st : sysfs) : sysfs :=
  {| sds := sds st; dentries := dentries st; kobjs := f (kobjs st) |}.

(** The children of a node, first entry first; none for an address
    that holds no node. *)
Definition children (st : sysfs) (p : nat) : list nat :=
  from_option s_children [] (sds st !! p).

(** *** The list primitives (include/linux/list.h)

    A [struct list_head *] is the head of some node's [s_children] or
    the [s_sibling] link of some node. The primitives are the kernel's:
    [list_add] links the new entry right AFTER the given one (so at the
    front when given the head of a list), [list_add_tail] right BEFORE
    it (so at the back when given the head), [list_del] and
    [list_del_init] unlink an entry from whatever list it is on, and
    [list_move] is [list_del] followed by [list_add]. [sysfs_readdir]
    depends on this reading: after [list_move(q, p)] it continues from
    the entry that follows [q]. *)
Inductive list_head :=
  | Head (parent : nat)
  | Sibling (sd : nat).

Fixpoint insert_after (x new : nat) (l : list nat) : list nat :=
  match l with
  | [] => []
  | y :: l' =>
    if decide (y = x) then y :: new :: l' else y :: insert_after x new l'
  end.

Fixpoint insert_before (x new : nat) (l : list nat) : list nat :=
  match l with
  | [] => []
  | y :: l' =>
    if decide (y = x) then new :: y :: l' else y :: insert_before x new l'
  end.

Definition unlink (x : nat) (l : list nat) : list nat :=
  filter (λ y, y ≠ x) l.

Definition list_del (entry : nat) (st : sysfs) : sysfs :=
  with_sds (fmap (set_children (unlink entry))) st.

Definition list_del_init := list_del.

Definition list_add (new : nat) (head : list_head) (st : sysfs) : sysfs :=
  match head with
  | Head p => with_sds (alter (set_children (cons new)) p) st
  | Sibling x => with_sds (fmap (set_children (insert_after x new))) st
  end.

Definition list_add_tail (new : nat) (head : list_head) (st : sysfs) : sysfs :=
  match head with
  | Head p => with_sds (alter (set_children (λ l, l ++ [new])) p) st
  | Sibling x => with_sds (fmap (set_children (insert_before x new))) st
  end.

Definition list_move (entry : nat) (head : list_head) (st : sysfs) : sysfs :=
  list_add entry head (list_del entry st).

(** *** Reference counts *)

(** Modelled from the spec: [sysfs_get], [sysfs_put] and
    [release_sysfs_dirent] (fs/sysfs/sysfs.h and fs/sysfs/inode.c) are
    not among the sources. Acquire and release are the increment and the
    decrement of the reference count; the node's memory is reclaimed
    when a release brings the count to zero. *)
Definition release_sysfs_dirent (sd : nat) (st : sysfs) : sysfs :=
  with_sds (delete sd) st.

Definition sysfs_get (sd : nat) (st : sysfs) : sysfs :=
  with_sds (alter (set_count (λ c, c + 1)) sd) st.

Definition sysfs_put (sd : nat) (st : sysfs) : sysfs :=
  match sds st !! sd with
  | Some node =>
    if s_count node - 1 =? 0 then release_sysfs_dirent sd st
    else with_sds (alter (set_count (λ c, c - 1)) sd) st
  | None => st
  end.

(** [sysfs_d_iput]: the tree's side of a dentry giving up its inode. *)
Definition sysfs_d_iput (d : nat) (st : sysfs) : option sysfs :=
  de ← dentries st !! d;
  match d_fsdata de with
  | Some sd =>
    node ← sds st !! sd;
    if bool_decide (s_dentry node = Some d) then
      Some (sysfs_put sd (with_sds (alter (set_dentry None) sd) st))
    else None
  | None => Some st
  end.

(** [sysfs_new_dirent]. [a] is what [kmem_cache_alloc] answers: the
    address of the new object, or [NULL]. *)
Definition sysfs_new_dirent (a : option nat) (parent_sd : nat)
    (el : option element) (st : sysfs) : option nat * sysfs :=
  match a with
  | None => (None, st)
  | Some sd =>
    let node := {| s_count := 1; s_children := []; s_element := el;
                   s_type := 0; s_mode := 0; s_dentry := None;
                   s_event := 0 |} in
    (Some sd, list_add sd (Head parent_sd) (with_sds <[sd := node]> st))
  end.

(** Modelled from the spec: [sysfs_get_name] (fs/sysfs/inode.c) is not
    among the sources. The name of a node is derived from its payload:
    the attribute's name for an attribute or a binary attribute, the
    link's name for a link; a directory, whose payload is the object,
    goes by the name of the dentry that was made for it (the object's
    name when [sysfs_create_dir] makes it). [None] is [NULL]. *)
Definition sysfs_get_name (st : sysfs) (sd : sysfs_dirent) : option string :=
  match s_element sd with
  | None => None
  | Some el =>
    if s_type sd =? SYSFS_DIR then
      d ← s_dentry sd; de ← dentries st !! d; Some (d_name de)
    else if (s_type sd =? SYSFS_KOBJ_ATTR) || (s_type sd =? SYSFS_KOBJ_BIN_ATTR) then
      match el with AttrEl p => Some (attr_name (deref p)) | _ => None end
    else if s_type sd =? SYSFS_KOBJ_LINK then
      match el with LinkEl l => Some (link_name l) | _ => None end
    else None
  end.

(** [sysfs_dirent_exist]: the loop over the children, then the function. *)
Fixpoint dirent_exist_loop (st : sysfs) (new : string) (l : list nat)
  : option Z :=
  match l with
  | [] => Some 0
  | c :: l' =>
    sd ← sds st !! c;
    match s_element sd with
    | Some _ =>
      existing ← sysfs_get_name st sd;
      if negb (strcmp existing new =? 0) then dirent_exist_loop st new l'
      else Some (- EEXIST)
    | None => dirent_exist_loop st new l'
    end
  end.

Definition sysfs_dirent_exist (st : sysfs) (parent_sd : nat) (new : string)
  : option Z :=
  psd ← sds st !! parent_sd;
  dirent_exist_loop st new (s_children psd).

(** [sysfs_make_dirent]. *)
Definition sysfs_make_dirent (a : option nat) (parent_sd : nat)
    (d : option nat) (el : element) (mode type : Z) (st : sysfs)
  : Z * sysfs :=
  match sysfs_new_dirent a parent_sd (Some el) st with
  | (None, st) => (- ENOMEM, st)
  | (Some sd, st) =>
    let st := with_sds (alter (λ n, set_dentry d (set_mode_type mode type n)) sd) st in
    match d with
    | Some d =>
      (0, with_dentries (alter (set_fsdata (Some sd)) d) (sysfs_get sd st))
    | None => (0, st)
    end
  end.

(** [sysfs_add_file]. [dir] is the directory's dentry. *)
Definition sysfs_add_file (a : option nat) (dir : nat) (attr : attr_ptr)
    (type : Z) (st : sysfs) : option (Z * sysfs) :=
  parent_sd ← dentries st !! dir ≫= d_fsdata;
  let mode := Z.lor (Z.land (attr_mode (deref attr)) S_IALLUGO) S_IFREG in
  ex ← sysfs_dirent_exist st parent_sd (attr_name (deref attr));
  if ex =? 0 then
    Some (sysfs_make_dirent a parent_sd None (AttrEl attr) mode type st)
  else Some (- EEXIST, st).

(** *** Materialisation *)

Definition init_dir (i : inode) : inode :=
  set_nlink (λ n, n + 1) (set_fop DirOperations i).

Definition init_file (i : inode) : inode :=
  set_fop FileOperations (set_size PAGE_SIZE i).

Definition init_symlink (i : inode) : inode := i.

Definition S_IRWXUGO : Z := 511. (* 0777 *)

(** Modelled from the spec: [sysfs_create] (fs/sysfs/inode.c) is not
    among the sources. It is the host's materialisation step: on request
    it binds the dentry to a file node of the given kind and permission
    bits, initialised by [init] when there is one, or it fails and
    binds nothing. [cr] is the error it answers, zero for success, and
    [ino] the number of the inode it makes. *)
Definition sysfs_create (cr ino : Z) (d : nat) (mode : Z)
    (init : option (inode → inode)) (st : sysfs) : Z * sysfs :=
  if cr =? 0 then
    let i := {| i_ino := ino; i_mode := mode; i_nlink := 1; i_size := 0;
                i_fop := None |} in
    (0, with_dentries
          (alter (set_inode (Some (from_option (λ f, f i) i init))) d) st)
  else (cr, st).

Definition inc_nlink (de : dentry) : dentry :=
  set_inode (set_nlink (λ n, n + 1) <$> d_inode de) de.

(** The mode [create_dir] gives a directory. *)
Definition dir_mode : Z := Z.lor (Z.lor (Z.lor S_IFDIR S_IRWXU) S_IRUGO) S_IXUGO.

(** [create_dir]. [lk] is what [lookup_one_len(n, p, strlen(n))]
    answers, an error or the address of a dentry; [a], [cr] and [ino]
    are the answers of [kmem_cache_alloc] and [sysfs_create]. The
    result carries the error and [*d]. *)
Definition create_dir (lk : Z + nat) (a : option nat) (cr ino : Z)
    (k : nat) (p : nat) (n : string) (st : sysfs)
  : option (Z * option nat * sysfs) :=
  let mode := dir_mode in
  match lk with
  | inr d =>
    pde ← dentries st !! p;
    parent_sd ← d_fsdata pde;
    ex ← sysfs_dirent_exist st parent_sd n;
    let '(error, st) :=
      if negb (ex =? 0) then (- EEXIST, st)
      else sysfs_make_dirent a parent_sd (Some d) (Kobj k) mode SYSFS_DIR st in
    '(error, st) ←
      (if error =? 0 then
         let '(error, st) := sysfs_create cr ino d mode (Some init_dir) st in
         if error =? 0 then
           _ ← dentries st !! p ≫= d_inode;
           Some (0, with_dentries (alter inc_nlink p) st)
         else Some (error, st)
       else Some (error, st));
    st ←
      (if negb (error =? 0) && negb (error =? - EEXIST) then
         de ← dentries st !! d;
         match d_fsdata de with
         | Some sd => Some (sysfs_put sd (list_del_init sd st))
         | None => Some st
         end
       else Some st);
    Some (error, Some d, st)
  | inl e => Some (e, None, st)
  end.

(** [sysfs_create_subdir]. *)
Definition sysfs_create_subdir (lk : Z + nat) (a : option nat) (cr ino : Z)
    (k : nat) (n : string) (st : sysfs) : option (Z * option nat * sysfs) :=
  ko ← kobjs st !! k;
  p ← k_dentry ko;
  create_dir lk a cr ino k p n st.

(** [sysfs_create_dir]. [root] is [sysfs_mount->mnt_sb->s_root], if
    sysfs is mounted. *)
Definition sysfs_create_dir (root : option nat) (lk : Z + nat)
    (a : option nat) (cr ino : Z) (kobj : nat) (st : sysfs)
  : option (Z * sysfs) :=
  ko ← kobjs st !! kobj;
  let parent :=
    match k_parent ko with
    | Some pk => Some (kobjs st !! pk ≫= k_dentry)
    | None =>
      match root with
      | Some r => Some (Some r)
      | None => None
      end
    end in
  match parent with
  | None => Some (- EFAULT, st)
  | Some parent =>
    parent ← parent;
    '(error, dentry, st) ← create_dir lk a cr ino kobj parent (k_name ko) st;
    if error =? 0 then
      Some (0, with_kobjs
                 (<[kobj := {| k_name := k_name ko; k_parent := k_parent ko;
                              k_dentry := dentry |}]>) st)
    else Some (error, st)
  end.

(** [sysfs_attach_attr] and [sysfs_attach_link]. *)
Definition sysfs_attach_attr (cr ino : Z) (sd : nat) (d : nat) (st : sysfs)
  : option (Z * sysfs) :=
  node ← sds st !! sd;
  attr ← match s_element node with Some (AttrEl p) => Some p | _ => None end;
  let bin := negb (Z.land (s_type node) SYSFS_KOBJ_BIN_ATTR =? 0) in
  let st := with_dentries (alter (set_fsdata (Some sd)) d) (sysfs_get sd st) in
  let st := with_sds (alter (set_dentry (Some d)) sd) st in
  let init := if bin then None else Some init_file in
  let '(error, st) :=
    sysfs_create cr ino d
      (Z.lor (Z.land (attr_mode (deref attr)) S_IALLUGO) S_IFREG) init st in
  if negb (error =? 0) then Some (error, sysfs_put sd st)
  else if bin then
    b ← match attr with BinAttrPtr b => Some b | AttrPtr _ => None end;
    de ← dentries st !! d;
    i ← d_inode de;
    Some (0, with_dentries
               (alter (set_inode (Some (set_fop BinFops (set_size (bin_size b) i)))) d)
               st)
  else Some (0, st).

Definition sysfs_attach_link (cr ino : Z) (sd : nat) (d : nat) (st : sysfs)
  : Z * sysfs :=
  let st := with_dentries (alter (set_fsdata (Some sd)) d) (sysfs_get sd st) in
  let st := with_sds (alter (set_dentry (Some d)) sd) st in
  let '(err, st) :=
    sysfs_create cr ino d (Z.lor S_IFLNK S_IRWXUGO) (Some init_symlink) st in
  if err =? 0 then (0, st) else (err, sysfs_put sd st).

(** [sysfs_lookup]: the loop over the children of the dentry's parent,
    then the function; the result is the error that [ERR_PTR] wraps. *)
Fixpoint lookup_loop (cr ino : Z) (d : nat) (name : string) (l : list nat)
    (st : sysfs) : option (Z * sysfs) :=
  match l with
  | [] => Some (0, st)
  | c :: l' =>
    sd ← sds st !! c;
    if negb (Z.land (s_type sd) SYSFS_NOT_PINNED =? 0) then
      nm ← sysfs_get_name st sd;
      if negb (strcmp nm name =? 0) then lookup_loop cr ino d name l' st
      else if negb (Z.land (s_type sd) SYSFS_KOBJ_LINK =? 0) then
        Some (sysfs_attach_link cr ino c d st)
      else sysfs_attach_attr cr ino c d st
    else lookup_loop cr ino d name l' st
  end.

Definition sysfs_lookup (cr ino : Z) (d : nat) (st : sysfs)
  : option (Z * sysfs) :=
  de ← dentries st !! d;
  parent_sd ← dentries st !! d_parent de ≫= d_fsdata;
  psd ← sds st !! parent_sd;
  lookup_loop cr ino d (d_name de) (s_children psd) st.

(** *** Removal *)

(** [d_delete] (the host's): a dentry that nobody else holds gives up
    its inode, which the tree learns through [sysfs_d_iput]; a dentry
    that is still held is only unhashed. [sole] tells which. *)
Definition d_delete (sole : bool) (d : nat) (st : sysfs) : option sysfs :=
  match dentries st !! d ≫= d_inode with
  | Some _ =>
    if sole then
      st ← sysfs_d_iput d st;
      Some (with_dentries (alter (set_inode None) d) st)
    else Some st
  | None => Some st
  end.

(** [remove_dir]. The link counts that [simple_rmdir] adjusts are the
    host's. *)
Definition remove_dir (sole : bool) (d : nat) (st : sysfs) : option sysfs :=
  st ← d_delete sole d st;
  de ← dentries st !! d;
  sd ← d_fsdata de;
  Some (sysfs_put sd (list_del_init sd st)).

(** *** Renaming *)

(** [sysfs_rename_dir]. [lk] is what [lookup_one_len] answers for the
    new name under the parent's dentry and [sn] what [kobject_set_name]
    answers. [d_move] gives the object's dentry the new name. *)
Definition sysfs_rename_dir (lk : Z + nat) (sn : Z) (kobj : nat)
    (new_name : string) (st : sysfs) : option (Z * sysfs) :=
  ko ← kobjs st !! kobj;
  if strcmp (k_name ko) new_name =? 0 then Some (- EINVAL, st)
  else
    match k_parent ko with
    | None => Some (- EINVAL, st)
    | Some pk =>
      parent ← kobjs st !! pk ≫= k_dentry;
      match lk with
      | inr new_dentry =>
        nd ← dentries st !! new_dentry;
        match d_inode nd with
        | None =>
          if sn =? 0 then
            d ← k_dentry ko;
            let st := with_kobjs
                        (<[kobj := {| k_name := new_name; k_parent := k_parent ko;
                                     k_dentry := k_dentry ko |}]>) st in
            Some (0, with_dentries (alter (set_name new_name) d) st)
          else Some (sn, st)
        | Some _ => Some (- EEXIST, st)
        end
      | inl _ => Some (0, st)
      end
    end.

(** *** Enumeration *)

(** [struct file] of an open directory: [private_data] is the cursor. *)
Record file := {
  f_dentry : nat;
  private_data : option nat;
  f_pos : Z
}.

Definition set_pos (pos : Z) (filp : file) : file :=
  {| f_dentry := f_dentry filp; private_data := private_data filp;
     f_pos := pos |}.

(** [sysfs_dir_open]. *)
Definition sysfs_dir_open (a : option nat) (filp : file) (st : sysfs)
  : option (Z * file * sysfs) :=
  parent_sd ← dentries st !! f_dentry filp ≫= d_fsdata;
  _ ← sds st !! parent_sd;
  let '(cursor, st) := sysfs_new_dirent a parent_sd None st in
  let filp := {| f_dentry := f_dentry filp; private_data := cursor;
                 f_pos := f_pos filp |} in
  Some (if cursor is Some _ then 0 else - ENOMEM, filp, st).

(** [sysfs_dir_close]. *)
Definition sysfs_dir_close (filp : file) (st : sysfs) : option (Z * sysfs) :=
  cursor ← private_data filp;
  _ ← sds st !! cursor;
  Some (0, release_sysfs_dirent cursor (list_del_init cursor st)).

(** [dt_type]. *)
Definition dt_type (sd : sysfs_dirent) : Z :=
  Z.land (Z.shiftr (s_mode sd) 12) 15.

(** The entries that follow [x] on a list. *)
Fixpoint after (x : nat) (l : list nat) : list nat :=
  match l with
  | [] => []
  | y :: l' => if decide (y = x) then l' else after x l'
  end.

Section Readdir.

(** The caller's [filldir] with the state [D] it collects entries in
    (name, length, offset, inode number, type); a negative answer stops
    the enumeration. [iunique] is the inode number the host hands out
    for a node that has no dentry. *)
Context {D : Type}.
Variable filldir : D → string → Z → Z → Z → Z → Z * D.
Variable iunique : nat → Z.

Definition strlen (s : string) : Z := Z.of_nat (String.length s).

(** The loop of [sysfs_readdir] over the entries that follow the
    cursor [q]. Only the cursor moves, and it moves to the entry just
    reported, so the entries still to visit are the ones that followed
    the cursor when the loop began. *)
Fixpoint readdir_loop (q : nat) (rest : list nat) (pos : Z) (dirent : D)
    (st : sysfs) : option (Z * D * sysfs) :=
  match rest with
  | [] => Some (pos, dirent, st)
  | p :: rest =>
    next ← sds st !! p;
    match s_element next with
    | None => readdir_loop q rest pos dirent st
    | Some _ =>
      name ← sysfs_get_name st next;
      let len := strlen name in
      ino ← match s_dentry next with
            | Some d => i ← dentries st !! d ≫= d_inode; Some (i_ino i)
            | None => Some (iunique p)
            end;
      let '(r, dirent) := filldir dirent name len pos ino (dt_type next) in
      if r <? 0 then Some (pos, dirent, st)
      else readdir_loop q rest (pos + 1) dirent (list_move q (Sibling p) st)
    end
  end.

(** [sysfs_readdir]: the three arms of the switch, each falling through
    to the next. The switch is on [int i = filp->f_pos], the position
    narrowed to an [int]; the first two arms report [i] as the offset
    and advance [i] along with the position, the last arm goes by the
    position itself. *)
Definition readdir_default (filp : file) (dirent : D) (st : sysfs)
  : option (Z * file * D * sysfs) :=
  parent_sd ← dentries st !! f_dentry filp ≫= d_fsdata;
  q ← private_data filp;
  let st := if f_pos filp =? 2 then list_move q (Head parent_sd) st else st in
  '(pos, dirent, st) ←
    readdir_loop q (after q (children st parent_sd)) (f_pos filp) dirent st;
  Some (0, set_pos pos filp, dirent, st).

Definition readdir_dotdot (i : Z) (filp : file) (dirent : D) (st : sysfs)
  : option (Z * file * D * sysfs) :=
  de ← dentries st !! f_dentry filp;
  ino ← dentries st !! d_parent de ≫= d_inode;
  let '(r, dirent) := filldir dirent ".." 2 i (i_ino ino) DT_DIR in
  if r <? 0 then Some (0, filp, dirent, st)
  else readdir_default (set_pos (f_pos filp + 1) filp) dirent st.

Definition readdir_dot (i : Z) (filp : file) (dirent : D) (st : sysfs)
  : option (Z * file * D * sysfs) :=
  ino ← dentries st !! f_dentry filp ≫= d_inode;
  let '(r, dirent) := filldir dirent "." 1 i (i_ino ino) DT_DIR in
  if r <? 0 then Some (0, filp, dirent, st)
  else readdir_dotdot (int_wrap (i + 1)) (set_pos (f_pos filp + 1) filp)
         dirent st.

Definition sysfs_readdir (filp : file) (dirent : D) (st : sysfs)
  : option (Z * file * D * sysfs) :=
  let i := int_wrap (f_pos filp) in
  if i =? 0 then readdir_dot i filp dirent st
  else if i =? 1 then readdir_dotdot i filp dirent st
  else readdir_default filp dirent st.

End Readdir.

(** [sysfs_dir_lseek]: the walk from the head of the list that counts
    [n] entries with a payload and answers where it stopped, then the
    function. *)
Fixpoint lseek_walk (st : sysfs) (parent_sd : nat) (n : Z) (l : list nat)
  : option list_head :=
  match l with
  | [] => Some (Head parent_sd)
  | p :: l' =>
    if n =? 0 then Some (Sibling p)
    else
      next ← sds st !! p;
      lseek_walk st parent_sd (if s_element next is Some _ then n - 1 else n) l'
  end.

Definition sysfs_dir_lseek (filp : file) (offset : Z) (origin : Z)
    (st : sysfs) : option (Z * file * sysfs) :=
  let offset := if origin =? 1 then offset + f_pos filp else offset in
  if ((origin =? 1) || (origin =? 0)) && (0 <=? offset) then
    if negb (offset =? f_pos filp) then
      let filp := set_pos offset filp in
      if 2 <=? f_pos filp then
        sd ← dentries st !! f_dentry filp ≫= d_fsdata;
        cursor ← private_data filp;
        let n := f_pos filp - 2 in
        let st := list_del cursor st in
        p ← lseek_walk st sd n (children st sd);
        Some (offset, filp, list_add_tail cursor p st)
      else Some (offset, filp, st)
    else Some (offset, filp, st)
  else Some (- EINVAL, filp, st).

(** *** Vocabulary of the properties *)

(** A node without a payload: the cursor of an open directory (or the
    root, which is nobody's child). *)
Definition payloadless (st : sysfs) (c : nat) : bool :=
  match sds st !! c with
  | Some sd => bool_decide (s_element sd = None)
  | None => false
  end.

(** The kind of a node: its payload and its type. *)
Definition kind (sd : sysfs_dirent) : option element * Z :=
  (s_element sd, s_type sd).

(** The kinds of the nodes in memory. *)
Definition kinds (st : sysfs) : gmap nat (option element * Z) :=
  kind <$> sds st.

(** A list of children without the payload-less ones, the cursors. *)
Definition skip_cursors (st : sysfs) (l : list nat) : list nat :=
  filter (λ c, payloadless st c = false) l.

(** No node without a payload is of a kind that the lookup considers:
    the attributes, binary attributes and links all have one. *)
Definition untyped_cursors (st : sysfs) : Prop :=
  ∀ c t, kinds st !! c = Some (None, t) → Z.land t SYSFS_NOT_PINNED = 0.

(** The name under which a child is visible: that of its payload. *)
Definition name_of (st : sysfs) (c : nat) : option string :=
  sd ← sds st !! c;
  _ ← s_element sd;
  sysfs_get_name st sd.

(** The names of the children that have one, in list order. *)
Definition entry_names (st : sysfs) (l : list nat) : list string :=
  omap (name_of st) l.

(** A child that the scans can digest: it is allocated, and if it has
    a payload it has a name, and an inode behind its dentry if it has a
    dentry. *)
Definition listable (st : sysfs) (c : nat) : Prop :=
  ∃ sd, sds st !! c = Some sd ∧
        (s_element sd ≠ None →
         is_Some (sysfs_get_name st sd) ∧
         ∀ d, s_dentry sd = Some d → is_Some (dentries st !! d ≫= d_inode)).

(** A child that has a name if it has a payload. *)
Definition named (st : sysfs) (c : nat) : Prop :=
  ∃ sd, sds st !! c = Some sd ∧
        (s_element sd ≠ None → is_Some (sysfs_get_name st sd)).

(** What makes a node the entry it is: payload, kind and dentry. *)
Definition ident (sd : sysfs_dirent) : option element * Z * option nat :=
  (s_element sd, s_type sd, s_dentry sd).

(** The dentries of [st'] bear the names they bore in [st]. *)
Definition names_kept (st st' : sysfs) : Prop :=
  ∀ d, d_name <$> dentries st' !! d = d_name <$> dentries st !! d.

(** Two states with the same dentries and the same nodes, the order of
    the children lists apart. *)
Definition same_nodes (st st' : sysfs) : Prop :=
  dentries st' = dentries st ∧
  ∀ c, ident <$> sds st' !! c = ident <$> sds st !! c.

(** The directory behind the dentry [dir], whose node is [p], is in
    order: [p] is allocated, its children are allocated and named, none
    of them is [p] itself, and no two of them share a name. *)
Definition unique_names (st : sysfs) (p : nat) : Prop :=
  NoDup (entry_names st (children st p)).

Definition dir_ok (dir p : nat) (st : sysfs) : Prop :=
  dentries st !! dir ≫= d_fsdata = Some p ∧
  is_Some (sds st !! p) ∧
  (∀ c, c ∈ children st p → c ≠ p ∧ named st c) ∧
  unique_names st p.

(** Modelled from the spec: [sysfs_hash_and_remove] (fs/sysfs/inode.c),
    through which files and links are removed, is not among the sources.
    remove(node) unlinks the node from its parent's children list and
    releases one reference; these are the two statements that
    [remove_dir] and the unwinding of [create_dir] spell out. *)
Definition remove (c : nat) (st : sysfs) : sysfs :=
  sysfs_put c (list_del_init c st).

(** The state in which [sysfs_make_dirent] leaves a directory node,
    allocated at [x], linked under [p] and bound to the dentry [d]; and
    the state after [sysfs_create] has given that dentry an inode. *)
Definition linked (x p d k : nat) (st : sysfs) : sysfs :=
  (sysfs_make_dirent (Some x) p (Some d) (Kobj k) dir_mode SYSFS_DIR st).2.

Definition materialised (ino : Z) (d dir : nat) (st : sysfs) : sysfs :=
  with_dentries (alter inc_nlink dir)
    (sysfs_create 0 ino d dir_mode (Some init_dir) st).2.

(** Memory that is on no list. *)
Definition unreferenced (st : sysfs) (x : nat) : Prop :=
  ∀ c sd, sds st !! c = Some sd → x ∉ s_children sd.

(** The node a failed [create_dir] leaves behind at the dentry [d]:
    unlinked, one reference left. *)
Definition leftover (d k : nat) : sysfs_dirent :=
  {| s_count := 1; s_children := []; s_element := Some (Kobj k);
     s_type := SYSFS_DIR; s_mode := dir_mode; s_dentry := Some d;
     s_event := 0 |}.

(** The operations that create and remove entries under one directory,
    with what the rest of the kernel answers them. *)
Inductive op :=
  | AddFile (a : option nat) (attr : attr_ptr) (type : Z)
  | MakeDir (lk : Z + nat) (a : option nat) (cr ino : Z) (k : nat) (n : string)
  | Remove (c : nat).

(** Memory that the allocator hands out is not in use. *)
Definition fresh (st : sysfs) (a : option nat) : Prop :=
  ∀ x, a = Some x → sds st !! x = None.

(** The dentry that a lookup of [n] under [dir] answers bears the name
    [n]; it is not [dir] itself, and it is not bound to [dir]'s node. *)
Definition looked_up (st : sysfs) (dir p : nat) (n : string) (lk : Z + nat)
  : Prop :=
  ∀ d, lk = inr d →
       d ≠ dir ∧
       ∃ de, dentries st !! d = Some de ∧ d_name de = n ∧ d_fsdata de ≠ Some p.

(** One operation under the directory whose dentry is [dir] and whose
    node is [p]: files are made by [sysfs_add_file] as attributes or
    binary attributes, directories by [create_dir], and what is removed
    is a child. *)
Inductive step (dir p : nat) : sysfs → op → sysfs → Prop :=
  | step_add_file st a attr type e st' :
      fresh st a →
      type = SYSFS_KOBJ_ATTR ∨ type = SYSFS_KOBJ_BIN_ATTR →
      sysfs_add_file a dir attr type st = Some (e, st') →
      step dir p st (AddFile a attr type) st'
  | step_make_dir st lk a cr ino k n e d st' :
      fresh st a →
      looked_up st dir p n lk →
      create_dir lk a cr ino k dir n st = Some (e, d, st') →
      step dir p st (MakeDir lk a cr ino k n) st'
  | step_remove st c :
      c ∈ children st p →
      step dir p st (Remove c) (remove c st).

Inductive steps (dir p : nat) : sysfs → list op → sysfs → Prop :=
  | steps_nil st : steps dir p st [] st
  | steps_cons st o st' os st'' :
      step dir p st o st' → steps dir p st' os st'' →
      steps dir p st (o :: os) st''.

(** Files created one after the other by [sysfs_create_file], each in
    memory given by the allocator; [None] as soon as one creation fails. *)
Fixpoint create_files (dir : nat) (specs : list (nat * attr_ptr)) (st : sysfs)
  : option sysfs :=
  match specs with
  | [] => Some st
  | (x, attr) :: specs =>
    '(e, st) ← sysfs_add_file (Some x) dir attr SYSFS_KOBJ_ATTR st;
    if e =? 0 then create_files dir specs st else None
  end.

(** From [st] to [st'] no node has changed its kind, and no node has
    appeared except at [a], when there is an [a]; the node that has
    appeared has a payload, or else neither payload nor type. *)
Definition kinds_grown (a : option nat) (st st' : sysfs) : Prop :=
  ∀ c k, kinds st' !! c = Some k →
         kinds st !! c = Some k ∨
         (a = Some c ∧ (k.1 ≠ None ∨ k = (None, 0))).

(** Any one of the operations of this file, with what the rest of the
    kernel answers it; memory that is allocated was free. *)
Inductive any_op : sysfs → sysfs → Prop :=
  | op_add_file a dir attr type st e st' :
      fresh st a →
      sysfs_add_file a dir attr type st = Some (e, st') →
      any_op st st'
  | op_create_dir lk a cr ino k p n st e d st' :
      fresh st a →
      create_dir lk a cr ino k p n st = Some (e, d, st') →
      any_op st st'
  | op_remove c st :
      any_op st (remove c st)
  | op_remove_dir sole d st st' :
      remove_dir sole d st = Some st' →
      any_op st st'
  | op_lookup cr ino d st e st' :
      sysfs_lookup cr ino d st = Some (e, st') →
      any_op st st'
  | op_rename lk sn kobj new_name st e st' :
      sysfs_rename_dir lk sn kobj new_name st = Some (e, st') →
      any_op st st'
  | op_dir_open a filp st e filp' st' :
      fresh st a →
      sysfs_dir_open a filp st = Some (e, filp', st') →
      any_op st st'
  | op_dir_close filp st e st' :
      sysfs_dir_close filp st = Some (e, st') →
      any_op st st'
  | op_readdir (D : Type) (filldir : D → string → Z → Z → Z → Z → Z * D)
      iunique filp dirent st e filp' dirent' st' :
      sysfs_readdir filldir iunique filp dirent st
        = Some (e, filp', dirent', st') →
      any_op st st'
  | op_dir_lseek filp offset origin st e filp' st' :
      sysfs_dir_lseek filp offset origin st = Some (e, filp', st') →
      any_op st st'.

(** A run of operations none of which frees the node at [c]. *)
Inductive survives (c : nat) : sysfs → sysfs → Prop :=
  | survives_refl st : survives c st st
  | survives_step st st' st'' :
      any_op st st' → is_Some (sds st' !! c) → survives c st' st'' →
      survives c st st''.

(** A run of operations. *)
Inductive run : sysfs → sysfs → Prop :=
  | run_refl st : run st st
  | run_step st st' st'' : any_op st st' → run st' st'' → run st st''.

(** What [filldir] is told about an entry. *)
Record dirent_rec := {
  de_name : string;
  de_len : Z;
  de_off : Z;
  de_ino : Z;
  de_type : Z
}.

(** A caller's [filldir] that takes every entry, and one whose buffer
    holds [room] entries and answers [-EINVAL] once it is full. *)
Definition filldir_all (buf : list dirent_rec) (name : string)
    (len off ino type : Z) : Z * list dirent_rec :=
  (0, buf ++ [{| de_name := name; de_len := len; de_off := off;
                 de_ino := ino; de_type := type |}]).

Definition filldir_room (room : nat) (buf : list dirent_rec) (name : string)
    (len off ino type : Z) : Z * list dirent_rec :=
  if decide (length buf < room)%nat then filldir_all buf name len off ino type
  else (- EINVAL, buf).

(** *** A sample tree for the examples

    The root directory: its dentry at address 0 with inode 1, its node
    at address 0, and one object at address 7 whose directory it is. *)
Definition sample_root : sysfs :=
  {| sds := {[ 0%nat := {| s_count := 1; s_children := []; s_element := None;
                           s_type := SYSFS_ROOT; s_mode := 16877;
                           s_dentry := Some 0%nat; s_event := 0 |} ]};
     dentries := {[ 0%nat := {| d_name := "/"; d_parent := 0%nat;
                                d_inode := Some {| i_ino := 1; i_mode := 16877;
                                                   i_nlink := 2; i_size := 0;
                                                   i_fop := Some DirOperations |};
                                d_fsdata := Some 0%nat |} ]};
     kobjs := {[ 7%nat := {| k_name := "/"; k_parent := None;
                             k_dentry := Some 0%nat |} ]} |}.

Definition attr_a : attr_ptr := AttrPtr {| attr_name := "a"; attr_mode := 420 |}.
Definition attr_b : attr_ptr := AttrPtr {| attr_name := "b"; attr_mode := 420 |}.

(** The root directory, opened. *)
Definition sample_dir : file :=
  {| f_dentry := 0%nat; private_data := None; f_pos := 0 |}.

(** The sample tree after a lookup of "dev" under the root has left
    the dentry [de] at address 5. *)
Definition after_lookup (de : dentry) : sysfs :=
  with_dentries <[5%nat := de]> sample_root.

Definition negative_dev : dentry :=
  {| d_name := "dev"; d_parent := 0%nat; d_inode := None; d_fsdata := None |}.

(** The root with the directories of two objects in it, "dev" (object
    8, dentry 10, node 1) and "net" (object 9, dentry 11, node 2). *)
Definition two_dirs : sysfs :=
  let dir_inode ino := {| i_ino := ino; i_mode := 16877; i_nlink := 2;
                          i_size := 0; i_fop := Some DirOperations |} in
  let dir_node d k := {| s_count := 2; s_children := [];
                         s_element := Some (Kobj k); s_type := SYSFS_DIR;
                         s_mode := 16877; s_dentry := Some d; s_event := 0 |} in
  {| sds := {[ 0%nat := {| s_count := 1; s_children := [2%nat; 1%nat];
                           s_element := None; s_type := SYSFS_ROOT;
                           s_mode := 16877; s_dentry := Some 0%nat;
                           s_event := 0 |};
               1%nat := dir_node 10%nat 8%nat;
               2%nat := dir_node 11%nat 9%nat ]};
     dentries := {[ 0%nat := {| d_name := "/"; d_parent := 0%nat;
                                d_inode := Some (dir_inode 1);
                                d_fsdata := Some 0%nat |};
                    10%nat := {| d_name := "dev"; d_parent := 0%nat;
                                 d_inode := Some (dir_inode 2);
                                 d_fsdata := Some 1%nat |};
                    11%nat := {| d_name := "net"; d_parent := 0%nat;
                                 d_inode := Some (dir_inode 3);
                                 d_fsdata := Some 2%nat |} ]};
     kobjs := {[ 7%nat := {| k_name := "/"; k_parent := None;
                             k_dentry := Some 0%nat |};
                 8%nat := {| k_name := "dev"; k_parent := Some 7%nat;
                             k_dentry := Some 10%nat |};
                 9%nat := {| k_name := "net"; k_parent := Some 7%nat;
                             k_dentry := Some 11%nat |} ]} |}.

(** The inode number the host hands out for the node at [c]. *)
Definition sample_iunique (c : nat) : Z := 100 + Z.of_nat c.

(** The root directory after "a" and then "b" have been created in it
    and it has been opened, and the file that opened it. *)
Definition two_files : option (file * sysfs) :=
  st ← create_files 0 [(1%nat, attr_a); (2%nat, attr_b)] sample_root;
  '(_, filp, st) ← sysfs_dir_open (Some 3%nat) sample_dir st;
  Some (filp, st).

(** *** Files of an object (fs/sysfs/file.c) *)

(** [sysfs_create_file]. A [NULL] object or attribute, and an object
    that has no directory, hit the [BUG_ON]. *)
Definition sysfs_create_file (a : option nat) (kobj : option nat)
    (attr : option attr_ptr) (st : sysfs) : option (Z * sysfs) :=
  k ← kobj;
  ko ← kobjs st !! k;
  dir ← k_dentry ko;
  attr ← attr;
  sysfs_add_file a dir attr SYSFS_KOBJ_ATTR st.

(** Inodes can be compared. *)
#[global] Instance fops_eq_dec : EqDecision fops.
Proof. solve_decision. Defined.

#[global] Instance inode_eq_dec : EqDecision inode.
Proof. solve_decision. Defined.

(** [sysfs_chmod_file]: the result, and what [notify_change] is asked
    for, if it is called: the dentry and the new mode. [lk] is what
    [lookup_one_len] answers for the attribute's name under the
    object's directory, and [nc] what [notify_change] answers. The
    victim counts as being in the directory when the inode of its
    parent is the directory's inode; inodes are compared as records,
    which carry the inode number. For a mode within [umode_t] the mode
    asked for is within [umode_t], too. *)
Definition sysfs_chmod_file (lk : Z + nat) (nc : Z) (kobj : nat) (mode : Z)
    (st : sysfs) : option (Z * option (nat * Z)) :=
  ko ← kobjs st !! kobj;
  dir ← k_dentry ko;
  dir_inode ← dentries st !! dir ≫= d_inode;
  match lk with
  | inr victim =>
    vde ← dentries st !! victim;
    match d_inode vde with
    | Some inode =>
      pde ← dentries st !! d_parent vde;
      if bool_decide (d_inode pde = Some dir_inode) then
        let ia_mode := Z.lor (Z.land mode S_IALLUGO)
                             (Z.land (i_mode inode) (Z.lnot S_IALLUGO)) in
        Some (nc, Some (victim, ia_mode))
      else Some (- ENOENT, None)
    | None => Some (- ENOENT, None)
    end
  | inl _ => Some (- ENOENT, None)
  end.

(** The dentry under which [sysfs_create_dir] makes the directory of an
    object: that of the parent object, or the root of the mounted sysfs
    for an object without parent. *)
Definition parent_dentry (root : option nat) (ko : kobject) (st : sysfs)
  : option nat :=
  match k_parent ko with
  | Some pk => kobjs st !! pk ≫= k_dentry
  | None => root
  end.

(** *** Removing the directory of an object *)

(** [sysfs_remove_subdir]. *)
Definition sysfs_remove_subdir : bool → nat → sysfs → option sysfs :=
  remove_dir.

(** Modelled from the spec: [sysfs_drop_dentry] (fs/sysfs/inode.c) is
    not among the sources. It drops the binding of a node to the host.
    For a node that has no dentry there is nothing to drop; the dentry
    of a node that has one is given up to the host the way [d_delete]
    gives one up. *)
Definition sysfs_drop_dentry (sole : bool) (sd : nat) (st : sysfs)
  : option sysfs :=
  node ← sds st !! sd;
  match s_dentry node with
  | Some d => d_delete sole d st
  | None => Some st
  end.

(** The loop of [sysfs_remove_dir] over the children of the directory's
    node, which unlinks and releases the attributes and links and
    passes over everything else. The loop keeps the successor of the
    entry at hand before it unlinks the entry
    ([list_for_each_entry_safe]), so it visits the children that were
    on the list when it began. [sole c] tells whether the host holds
    the only reference to the dentry of the child at [c]. *)
Fixpoint remove_dir_loop (sole : nat → bool) (l : list nat) (st : sysfs)
  : option sysfs :=
  match l with
  | [] => Some st
  | c :: l' =>
    sd ← sds st !! c;
    if bool_decide (s_element sd = None)
       || (Z.land (s_type sd) SYSFS_NOT_PINNED =? 0)
    then remove_dir_loop sole l' st
    else
      st ← sysfs_drop_dentry (sole c) c (list_del_init c st);
      remove_dir_loop sole l' (sysfs_put c st)
  end.

(** [dput] (the host's) on a dentry that [d_delete] has taken off the
    host's hash. [last] tells whether the reference dropped was the
    last one: the host then gives up the dentry's inode, which the tree
    learns through [sysfs_d_iput], and frees the dentry. *)
Definition dput (last : bool) (d : nat) (st : sysfs) : option sysfs :=
  if last then
    match dentries st !! d ≫= d_inode with
    | Some _ =>
      st ← sysfs_d_iput d st;
      Some (with_dentries (delete d) st)
    | None => Some (with_dentries (delete d) st)
    end
  else Some st.

(** [sysfs_remove_dir]. The function holds a reference of its own to
    the dentry while it runs, so the [d_delete] in [remove_dir] finds
    the dentry held by somebody else; [last] tells whether the [dput]
    at the end drops the last reference. *)
Definition sysfs_remove_dir (sole : nat → bool) (last : bool) (kobj : nat)
    (st : sysfs) : option sysfs :=
  ko ← kobjs st !! kobj;
  match k_dentry ko with
  | None => Some st
  | Some dentry =>
    _ ← dentries st !! dentry ≫= d_inode;
    parent_sd ← dentries st !! dentry ≫= d_fsdata;
    psd ← sds st !! parent_sd;
    st ← remove_dir_loop sole (s_children psd) st;
    st ← remove_dir false dentry st;
    st ← dput last dentry st;
    Some (with_kobjs
            (alter (λ ko, {| k_name := k_name ko; k_parent := k_parent ko;
                             k_dentry := None |}) kobj) st)
  end.

(** *** More vocabulary *)

(** The mode [sysfs_add_file] and [sysfs_attach_attr] derive from an
    attribute, and the node of an attribute file of the given type with
    [cnt] references and the dentry [dn]. *)
Definition file_mode (attr : attr_ptr) : Z :=
  Z.lor (Z.land (attr_mode (deref attr)) S_IALLUGO) S_IFREG.

Definition attr_node (attr : attr_ptr) (type cnt : Z) (dn : option nat)
  : sysfs_dirent :=
  {| s_count := cnt; s_children := []; s_element := Some (AttrEl attr);
     s_type := type; s_mode := file_mode attr; s_dentry := dn; s_event := 0 |}.

(** The type under which an attribute pointer may be filed: a plain
    attribute as [SYSFS_KOBJ_ATTR] or (by [sysfs_add_file]'s other
    callers) as a binary one only if it is the head of a
    [struct bin_attribute]. *)
Definition filed_as (attr : attr_ptr) (type : Z) : Prop :=
  type = SYSFS_KOBJ_ATTR ∨
  (type = SYSFS_KOBJ_BIN_ATTR ∧ ∃ b, attr = BinAttrPtr b).

(** *** Enumeration in several calls *)

(** What an enumeration of the directory whose node is [p] has to
    report: ".", "..", and the names of the children, front to back. *)
Definition listing (st : sysfs) (p : nat) : list string :=
  "." :: ".." :: entry_names st (children st p).

(** The directory behind the dentry [dir], with node [p], is open in
    [filp] with the cursor [q]: the directory and its parent have their
    inodes, the cursor is one of the children and has no payload, no
    child is on the list twice, and every child can be listed. *)
Definition enumerable (dir p q : nat) (filp : file) (st : sysfs) : Prop :=
  f_dentry filp = dir ∧ private_data filp = Some q ∧
  dentries st !! dir ≫= d_fsdata = Some p ∧
  is_Some (dentries st !! dir ≫= d_inode) ∧
  is_Some (de ← dentries st !! dir; dentries st !! d_parent de ≫= d_inode) ∧
  payloadless st q = true ∧ q ∈ children st p ∧ NoDup (children st p) ∧
  (∀ c, c ∈ children st p → listable st c).

(** The open directory stands at position [k] of its listing: [f_pos]
    is [k], and once the position is past "." and ".." the cursor
    stands in the list right before the children that are still to be
    reported. (At positions up to 2 the cursor may stand anywhere:
    [sysfs_readdir] moves it to the front when it gets to position 2.) *)
Definition cursor_at (dir p q : nat) (k : nat) (filp : file) (st : sysfs)
  : Prop :=
  enumerable dir p q filp st ∧
  f_pos filp = Z.of_nat k ∧
  ((2 < k)%nat →
   entry_names st (after q (children st p))
   = drop (k - 2) (entry_names st (children st p))).

(** From [st] to [st'] nothing has happened in the directory whose
    node is [p] but that the cursor [q] has changed its place: the
    nodes are the same, and so is the list with the cursor taken out. *)
Definition cursor_moved (p q : nat) (st st' : sysfs) : Prop :=
  same_nodes st st' ∧
  unlink q (children st' p) = unlink q (children st p).

(** An enumeration in several calls of [sysfs_readdir], each into a
    fresh buffer with room for so many entries: the entries of all
    calls in the order they were reported, and the file and the tree
    after the last call. *)
Fixpoint readdir_calls (iunique : nat → Z) (rooms : list nat) (filp : file)
    (st : sysfs) : option (list dirent_rec * file * sysfs) :=
  match rooms with
  | [] => Some ([], filp, st)
  | room :: rooms =>
    '(_, filp, buf, st) ← sysfs_readdir (filldir_room room) iunique filp [] st;
    '(bufs, filp, st) ← readdir_calls iunique rooms filp st;
    Some (buf ++ bufs, filp, st)
  end.

(** *** More samples *)

(** A negative dentry of the given name under the root. *)
Definition negative (name : string) : dentry :=
  {| d_name := name; d_parent := 0%nat; d_inode := None; d_fsdata := None |}.

(** The two sample directories after a lookup under the root has left
    the negative dentry [de] at address 5. *)
Definition two_dirs_after_lookup (de : dentry) : sysfs :=
  with_dentries <[5%nat := de]> two_dirs.

(** The sample root after a lookup of "dev", with an object "dev" at
    address 8, child of the root's object, that has no directory yet. *)
Definition with_new_object : sysfs :=
  with_kobjs <[8%nat := {| k_name := "dev"; k_parent := Some 7%nat;
                           k_dentry := None |}]>
    (after_lookup negative_dev).

(** The sample directory with its two files, opened twice: the first
    open has the cursor 3, the second the cursor 4. *)
Definition two_readers : option (file * file * sysfs) :=
  '(filp1, st) ← two_files;
  '(_, filp2, st) ← sysfs_dir_open (Some 4%nat) sample_dir st;
  Some (filp1, filp2, st).

(** The root with the directory "dev" (object 8, dentry 10, node 1) in
    it, and in "dev" the directory "net" (object 9, dentry 11,
    node 2). *)
Definition nested_dirs : sysfs :=
  let dir_inode ino := {| i_ino := ino; i_mode := 16877; i_nlink := 2;
                          i_size := 0; i_fop := Some DirOperations |} in
  let dir_node d k l := {| s_count := 2; s_children := l;
                           s_element := Some (Kobj k); s_type := SYSFS_DIR;
                           s_mode := 16877; s_dentry := Some d;
                           s_event := 0 |} in
  {| sds := {[ 0%nat := {| s_count := 1; s_children := [1%nat];
                           s_element := None; s_type := SYSFS_ROOT;
                           s_mode := 16877; s_dentry := Some 0%nat;
                           s_event := 0 |};
               1%nat := dir_node 10%nat 8%nat [2%nat];
               2%nat := dir_node 11%nat 9%nat [] ]};
     dentries := {[ 0%nat := {| d_name := "/"; d_parent := 0%nat;
                                d_inode := Some (dir_inode 1);
                                d_fsdata := Some 0%nat |};
                    10%nat := {| d_name := "dev"; d_parent := 0%nat;
                                 d_inode := Some (dir_inode 2);
                                 d_fsdata := Some 1%nat |};
                    11%nat := {| d_name := "net"; d_parent := 10%nat;
                                 d_inode := Some (dir_inode 3);
                                 d_fsdata := Some 2%nat |} ]};
     kobjs := {[ 7%nat := {| k_name := "/"; k_parent := None;
                             k_dentry := Some 0%nat |};
                 8%nat := {| k_name := "dev"; k_parent := Some 7%nat;
                             k_dentry := Some 10%nat |};
                 9%nat := {| k_name := "net"; k_parent := Some 8%nat;
                             k_dentry := Some 11%nat |} ]} |}.

(** The sample root after "a" has been created in it and a lookup has
    given the file the dentry 5. *)
Definition looked_up_file : option sysfs :=
  '(_, st) ← sysfs_add_file (Some 1%nat) 0 attr_a SYSFS_KOBJ_ATTR
               (after_lookup (negative "a"));
  '(_, st) ← sysfs_lookup 0 9 5 st;
  Some st.

(** The two sample directories with a file "a" (node 3) beside them in
    the root, which nobody has looked up. *)
Definition two_dirs_with_file : option sysfs :=
  '(_, st) ← sysfs_add_file (Some 3%nat) 0 attr_a SYSFS_KOBJ_ATTR two_dirs;
  Some st.
End Dir.

(** * Properties *)

(** ** Attribute files *)

Module FileProps.
Import File.

Section FileFacts.
Context {K : Type}.
Implicit Types (w : world K) (f : file K) (b : sysfs_buffer K).

(** A file that has just been opened awaits a fill, and has the method
    that the mode it was opened in needs. *)
Lemma open_awaits_fill i_mode f_mode ko (attr : option (subsys_attribute K))
    module_ok kzalloc_ok e b :
  check_perm i_mode f_mode ko attr module_ok kzalloc_ok = (e, Some b) →
  e = 0 ∧ needs_read_fill b = true ∧ page b = None ∧ count b = 0 ∧
  (has_bits f_mode FMODE_READ = true → is_Some (show (ops b))) ∧
  (has_bits f_mode FMODE_WRITE = true → is_Some (store (ops b))).
Proof.
  unfold check_perm. destruct ko as [k|]; [|done]. destruct attr as [a|]; [|done].
  destruct (negb module_ok); [done|].
  destruct (match kset_ktype k with Some o => o | None => _ end) as [o|]; [|done].
  destruct (has_bits f_mode FMODE_WRITE) eqn:Hw;
    destruct (has_bits f_mode FMODE_READ) eqn:Hr; simpl;
    repeat match goal with
           | |- context [negb ?x] => destruct x; simpl; try done
           | |- context [bool_decide ?P] => destruct (bool_decide_reflect P); simpl; try done
           end;
    destruct kzalloc_ok; try done; intros [= <- <-]; simpl;
    repeat split; try done; intros _;
    match goal with
    | H : ?m ≠ None |- is_Some ?m => by destruct m
    end.
Qed.

Lemma int_wrap_small z : - 2 ^ 31 ≤ z < 2 ^ 31 → int_wrap z = z.
Proof. intros H. unfold int_wrap. rewrite Z.mod_small by lia. lia. Qed.

Lemma shows_log_show w : shows (log CallShow w) = S (shows w).
Proof.
  unfold shows, log. simpl. rewrite filter_app, length_app. simpl. lia.
Qed.

Lemma stores_log_show w : stores (log CallShow w) = stores w.
Proof.
  unfold stores, log. simpl. rewrite filter_app, length_app. simpl. lia.
Qed.

Lemma copy_to_user_ok room src n :
  n ≤ room → copy_to_user room src n = (0, take (Z.to_nat n) src).
Proof.
  intros H. unfold copy_to_user. rewrite Z.min_l by lia. f_equal. lia.
Qed.

Lemma flush_read_buffer_ok b pg room cnt ppos :
  page b = Some pg → 0 ≤ cnt ≤ room → 0 ≤ ppos →
  flush_read_buffer b room cnt ppos =
    Some (chunk_len (count b) ppos cnt,
          slice pg ppos (ppos + chunk_len (count b) ppos cnt),
          ppos + chunk_len (count b) ppos cnt).
Proof.
  intros Hpg Hc Hp. unfold flush_read_buffer, chunk_len, slice.
  destruct (count b <? ppos) eqn:E.
  - apply Z.ltb_lt in E. rewrite Z.max_l by lia.
    rewrite Z.add_0_r. replace (ppos - ppos) with 0 by lia. done.
  - apply Z.ltb_ge in E. rewrite Hpg. cbn [mbind option_bind].
    set (n := if count b - ppos <? cnt then count b - ppos else cnt).
    assert (Hn : n = Z.max 0 (Z.min cnt (count b - ppos))).
    { unfold n. destruct (count b - ppos <? cnt) eqn:E2;
        [apply Z.ltb_lt in E2 | apply Z.ltb_ge in E2]; lia. }
    rewrite copy_to_user_ok by lia. simpl.
    rewrite <- Hn. replace (ppos + n - ppos) with n by lia. done.
Qed.

Lemma slice_app pg (x y z : Z) :
  0 ≤ x ≤ y → y ≤ z → slice pg x y ++ slice pg y z = slice pg x z.
Proof.
  intros Hxy Hyz. unfold slice.
  replace (Z.to_nat y) with (Z.to_nat x + Z.to_nat (y - x))%nat by lia.
  rewrite <- drop_drop, take_take_drop. f_equal. lia.
Qed.

Lemma slice_nil pg (x : Z) : slice pg x x = [].
Proof. unfold slice. by rewrite Z.sub_diag. Qed.

Lemma chunk_len_nonneg c pos cnt : 0 ≤ chunk_len c pos cnt.
Proof. unfold chunk_len. lia. Qed.

Lemma chunk_len_le c pos cnt : 0 ≤ cnt → chunk_len c pos cnt ≤ cnt.
Proof. unfold chunk_len. lia. Qed.

Lemma drain_pos_ge c pos cnts : pos ≤ drain_pos c pos cnts.
Proof.
  revert pos. induction cnts as [|cnt cnts IH]; intros pos; simpl; [lia|].
  pose proof (chunk_len_nonneg c pos cnt). specialize (IH (pos + chunk_len c pos cnt)). lia.
Qed.

Lemma drained_concat c pg pos cnts :
  0 ≤ pos →
  concat (drained c pg pos cnts).*2 = slice pg pos (drain_pos c pos cnts).
Proof.
  revert pos. induction cnts as [|cnt cnts IH]; intros pos Hpos; simpl.
  - by rewrite slice_nil.
  - pose proof (chunk_len_nonneg c pos cnt).
    rewrite IH by lia. apply slice_app; [lia|]. apply drain_pos_ge.
Qed.

(** A read from a filled buffer leaves the object alone and only moves
    the position. *)
Lemma read_filled page_ok room w f cnt pg :
  needs_read_fill (private_data f) = false →
  page (private_data f) = Some pg →
  0 ≤ cnt ≤ room → 0 ≤ f_pos f →
  let n := chunk_len (count (private_data f)) (f_pos f) cnt in
  sysfs_read_file page_ok room w f cnt =
    Some (n, slice pg (f_pos f) (f_pos f + n), w,
          {| private_data := private_data f; f_pos := f_pos f + n |}).
Proof.
  intros Hf Hpg Hc Hp n. unfold sysfs_read_file. rewrite Hf.
  rewrite (flush_read_buffer_ok _ pg) by done. done.
Qed.

(** A read that finds the buffer flagged calls [show] once, keeps what
    it answered and goes on to copy from it. *)
Lemma read_fill page_ok room w f cnt sh c pg :
  needs_read_fill (private_data f) = true →
  show (ops (private_data f)) = Some sh →
  (page (private_data f) = None → page_ok = true) →
  sh (kobj w) (page_or_fresh (private_data f)) = (c, pg) →
  0 ≤ c ≤ PAGE_SIZE →
  0 ≤ cnt ≤ room → 0 ≤ f_pos f →
  let n := chunk_len c (f_pos f) cnt in
  sysfs_read_file page_ok room w f cnt =
    Some (n, slice pg (f_pos f) (f_pos f + n), log CallShow w,
          {| private_data := filled (private_data f) c pg (s_event w);
             f_pos := f_pos f + n |}).
Proof.
  intros Hf Hsh Hok Hshow Hc Hcnt Hp n.
  unfold sysfs_read_file. rewrite Hf. unfold fill_read_buffer.
  destruct f as [b p]. simpl in *. unfold page_or_fresh in Hshow.
  destruct (page b) as [pg0|] eqn:Hpg; simpl in Hshow.
  - rewrite Hpg. simpl. rewrite Hsh. simpl. rewrite Hshow.
    destruct (PAGE_SIZE <? c) eqn:E1; [apply Z.ltb_lt in E1; lia|].
    destruct (0 <=? c) eqn:E2; [|apply Z.leb_gt in E2; lia].
    simpl.
    rewrite (flush_read_buffer_ok _ pg) by done. done.
  - rewrite (Hok eq_refl). simpl. rewrite Hsh. simpl. rewrite Hshow.
    destruct (PAGE_SIZE <? c) eqn:E1; [apply Z.ltb_lt in E1; lia|].
    destruct (0 <=? c) eqn:E2; [|apply Z.leb_gt in E2; lia].
    simpl.
    rewrite (flush_read_buffer_ok _ pg) by done. done.
Qed.

Lemma read_seq_filled reqs w f pg :
  needs_read_fill (private_data f) = false →
  page (private_data f) = Some pg →
  0 ≤ f_pos f →
  Forall serviceable reqs →
  read_seq reqs w f =
    Some (drained (count (private_data f)) pg (f_pos f) reqs.*2, w,
          {| private_data := private_data f;
             f_pos := drain_pos (count (private_data f)) (f_pos f) reqs.*2 |}).
Proof.
  revert f. induction reqs as [|[[ok room] cnt] reqs IH]; intros f Hf Hpg Hp Hall.
  - simpl. by destruct f.
  - apply Forall_cons in Hall as [[_ Hc] Hall]. simpl in Hc.
    cbn [read_seq]. rewrite (read_filled _ _ _ _ _ pg) by done.
    cbn [mbind option_bind].
    pose proof (chunk_len_nonneg (count (private_data f)) (f_pos f) cnt).
    rewrite IH; [done|done|done|simpl; lia|done].
Qed.

(** C1 (as amended). On an open attribute file whose buffer awaits a
    fill, when the page can be had and no copy to the caller faults, a
    run of reads invokes the bound show operation exactly once, in the
    first read, and not again in any later read whatever the counts
    asked for; each read copies [min(requested, count - offset)] bytes
    of the filled page (none past the end) and advances the file
    position by that amount; and the chunks put end to end are the
    bytes of the one show output between the first and the last
    position. *)
Theorem read_fills_once_then_drains w f sh c pg req reqs :
  needs_read_fill (private_data f) = true →
  show (ops (private_data f)) = Some sh →
  sh (kobj w) (page_or_fresh (private_data f)) = (c, pg) →
  0 ≤ c ≤ PAGE_SIZE →
  0 ≤ f_pos f →
  Forall serviceable (req :: reqs) →
  let cnts := (req :: reqs).*2 in
  let first := sysfs_read_file (req.1.1) (req.1.2) w f (req.2) in
  ∃ f' : file K,
    read_seq (req :: reqs) w f
      = Some (drained c pg (f_pos f) cnts, log CallShow w, f') ∧
    (∃ r out f1, first = Some (r, out, log CallShow w, f1)) ∧
    shows (log CallShow w) = S (shows w) ∧
    needs_read_fill (private_data f') = false ∧
    f_pos f' = drain_pos c (f_pos f) cnts ∧
    concat (drained c pg (f_pos f) cnts).*2 = slice pg (f_pos f) (f_pos f').
Proof.
  intros Hf Hsh Hshow Hc Hp Hall cnts first.
  destruct req as [[ok room] cnt].
  apply Forall_cons in Hall as [[Hok Hcnt] Hall]. simpl in Hok, Hcnt. subst ok.
  pose proof (read_fill true room w f cnt sh c pg Hf Hsh (λ _, eq_refl)
                Hshow Hc Hcnt Hp) as Hfirst.
  simpl in Hfirst.
  pose proof (chunk_len_nonneg c (f_pos f) cnt) as Hn.
  eexists. split; [|split; [|split; [|split; [|split]]]].
  - cbn [read_seq]. rewrite Hfirst. cbn [mbind option_bind].
    rewrite (read_seq_filled reqs _ _ pg); [|done|done|simpl; lia|done].
    simpl. reflexivity.
  - unfold first. simpl. rewrite Hfirst. eauto.
  - apply shows_log_show.
  - done.
  - done.
  - simpl. apply (drained_concat c pg (f_pos f) (cnt :: reqs.*2)). done.
Qed.

Lemma copy_from_user_ok pg ubuf n :
  0 ≤ n ≤ Z.of_nat (length ubuf) →
  copy_from_user pg ubuf n
    = (0, take (Z.to_nat n) ubuf ++ drop (Z.to_nat n) pg).
Proof.
  intros H. unfold copy_from_user. rewrite Z.min_l by lia.
  rewrite Z.sub_diag. done.
Qed.


(** The count [fill_write_buffer] copies for a request of [cnt]. *)
Lemma capped_count cnt :
  (if PAGE_SIZE <=? cnt then PAGE_SIZE - 1 else cnt) = Z.min cnt (PAGE_SIZE - 1).
Proof.
  destruct (PAGE_SIZE <=? cnt) eqn:E;
    [apply Z.leb_le in E | apply Z.leb_gt in E]; lia.
Qed.

Lemma fill_write_buffer_ok page_ok b ubuf cnt :
  (page b = None → page_ok = true) →
  0 ≤ cnt ≤ Z.of_nat (length ubuf) →
  let n := Z.min cnt (PAGE_SIZE - 1) in
  fill_write_buffer page_ok b ubuf cnt =
    (n, {| count := count b; pos := pos b;
           page := Some (take (Z.to_nat n) ubuf
                         ++ drop (Z.to_nat n) (page_or_fresh b));
           ops := ops b; needs_read_fill := true; event := event b |}).
Proof.
  intros Hok Hc n. unfold fill_write_buffer, page_or_fresh.
  rewrite capped_count. fold n.
  assert (0 ≤ n ≤ Z.of_nat (length ubuf)) by (unfold n, PAGE_SIZE; lia).
  destruct (page b) as [pg0|] eqn:Hpg.
  - rewrite Hpg. rewrite copy_from_user_ok by done. done.
  - rewrite (Hok eq_refl). cbn [get_zeroed_page set_page page from_option id].
    rewrite copy_from_user_ok by done. done.
Qed.

(** C3 (as amended). A write of [cnt] bytes whose page can be had and
    whose bytes can all be read copies the first
    [min(cnt, PAGE_SIZE - 1)] of them to the start of the page and sets
    the needs-refill flag. When that count is positive the bound store
    operation is invoked exactly once, with the page and that count,
    what it returns, a count that fits an [int], is the result of the
    write, and a positive result advances the file position by that
    amount. A write of no bytes invokes store not at all and returns
    zero. *)
Theorem write_commits_once page_ok w f ubuf cnt st r k :
  store (ops (private_data f)) = Some st →
  (page (private_data f) = None → page_ok = true) →
  0 ≤ cnt ≤ Z.of_nat (length ubuf) →
  let n := Z.min cnt (PAGE_SIZE - 1) in
  let data := take (Z.to_nat n) ubuf in
  let pg := data ++ drop (Z.to_nat n) (page_or_fresh (private_data f)) in
  let b := {| count := count (private_data f); pos := pos (private_data f);
              page := Some pg; ops := ops (private_data f);
              needs_read_fill := true; event := event (private_data f) |} in
  st (kobj w) pg n = (r, k) →
  - 2 ^ 31 ≤ r < 2 ^ 31 →
  fill_write_buffer page_ok (private_data f) ubuf cnt = (n, b) ∧
  (0 < n →
   sysfs_write_file page_ok w f ubuf cnt
     = Some (r, set_kobj k (log (CallStore data) w),
             {| private_data := b;
                f_pos := if 0 <? r then f_pos f + r else f_pos f |}) ∧
   stores (set_kobj k (log (CallStore data) w)) = S (stores w)) ∧
  (n = 0 →
   sysfs_write_file page_ok w f ubuf cnt
     = Some (0, w, {| private_data := b; f_pos := f_pos f |})).
Proof.
  intros Hst Hok Hc n data pg b Hr Hint.
  pose proof (fill_write_buffer_ok page_ok (private_data f) ubuf cnt Hok Hc) as Hfill.
  simpl in Hfill. fold n in Hfill. fold data in Hfill. fold pg in Hfill. fold b in Hfill.
  split; [done|split].
  - intros Hn. unfold sysfs_write_file. rewrite Hfill.
    assert ((0 <? n) = true) as -> by lia.
    unfold flush_write_buffer. simpl. rewrite Hst. simpl. rewrite Hr. simpl.
    rewrite (int_wrap_small r Hint).
    assert (take (Z.to_nat n) pg = data) as ->.
    { unfold pg. rewrite take_app_length'; [done|].
      unfold data. rewrite length_take. unfold n, PAGE_SIZE in *. lia. }
    split; [done|].
    unfold stores, set_kobj, log. simpl.
    rewrite filter_app, length_app. simpl. lia.
  - intros Hn. unfold sysfs_write_file. rewrite Hfill. rewrite Hn. done.
Qed.



Lemma atomic_inc_changes v : - 2 ^ 31 ≤ v < 2 ^ 31 → atomic_inc v ≠ v.
Proof.
  intros Hv. unfold atomic_inc, int_wrap.
  destruct (decide (v = 2 ^ 31 - 1)) as [->|Hne]; [done|].
  rewrite Z.mod_small by lia. lia.
Qed.

Lemma poll_seq_pending n w f :
  event (private_data f) ≠ s_event w →
  poll_seq (S n) w f =
    (replicate (S n) (Z.lor POLLERR POLLPRI),
     {| private_data := set_needs_read_fill true (private_data f);
        f_pos := f_pos f |}).
Proof.
  intros He. apply Z.eqb_neq in He.
  revert f He. induction n as [|n IH]; intros f He.
  - simpl. unfold sysfs_poll. by rewrite He.
  - change (poll_seq (S (S n)) w f) with
      (let '(m, f1) := sysfs_poll w f in
       let '(ms, f2) := poll_seq (S n) w f1 in (m :: ms, f2)).
    unfold sysfs_poll at 1. rewrite He. rewrite IH by done. done.
Qed.

(** C4 (as amended). While the buffer has seen every notification,
    poll reports nothing. After a notify on the file's node, a poll
    reports the urgent+priority condition, and so does every further
    poll with no notify in between, for as long as no read refills the
    buffer; each such poll leaves the needs-refill flag set, so that the
    next read (its page to be had) invokes show again although nothing
    was written; that read records the counter, after which poll
    reports nothing until the next notify. *)
Theorem poll_reports_until_refill w f n page_ok room cnt sh c pg
    k_dentry dir attr de :
  notify_walk k_dentry dir attr = Some de →
  fsdata de = Some true →
  event (private_data f) = s_event w →
  - 2 ^ 31 ≤ s_event w < 2 ^ 31 →
  show (ops (private_data f)) = Some sh →
  (page (private_data f) = None → page_ok = true) →
  sh (kobj w) (page_or_fresh (private_data f)) = (c, pg) →
  0 ≤ c ≤ PAGE_SIZE →
  0 ≤ cnt ≤ room → 0 ≤ f_pos f →
  let w1 := sysfs_notify k_dentry dir attr w in
  let pending := {| private_data := set_needs_read_fill true (private_data f);
                    f_pos := f_pos f |} in
  sysfs_poll w f = (0, f) ∧
  poll_seq (S n) w1 f = (replicate (S n) (Z.lor POLLERR POLLPRI), pending) ∧
  ∃ r out f2,
    sysfs_read_file page_ok room w1 pending cnt
      = Some (r, out, log CallShow w1, f2) ∧
    shows (log CallShow w1) = S (shows w1) ∧
    sysfs_poll (log CallShow w1) f2 = (0, f2).
Proof.
  intros Hwalk Hhere He Hr Hsh Hok Hshow Hc Hcnt Hp w1 pending.
  assert (Hw1 : w1 = {| kobj := kobj w; s_event := atomic_inc (s_event w);
                        calls := calls w |}).
  { unfold w1, sysfs_notify. by rewrite Hwalk, Hhere. }
  clearbody w1. subst w1.
  split; [|split].
  - unfold sysfs_poll. rewrite He, Z.eqb_refl. done.
  - apply poll_seq_pending. rewrite He. simpl.
    intros E. by apply (atomic_inc_changes (s_event w) Hr).
  - pose proof (read_fill page_ok room
                  {| kobj := kobj w; s_event := atomic_inc (s_event w);
                     calls := calls w |} pending cnt sh c pg) as Hread.
    simpl in Hread. rewrite Hread; [|done..].
    do 3 eexists. split; [reflexivity|]. split; [apply shows_log_show|].
    unfold sysfs_poll. simpl. by rewrite Z.eqb_refl.
Qed.

End FileFacts.

(** *** The properties at work on the sample attribute *)

Lemma sample_open_file o :
  is_Some (show o) → is_Some (store o) →
  sample_open o = Some (sample_file o).
Proof.
  intros [sh Hsh] [st Hst]. unfold sample_open, check_perm. simpl.
  rewrite !bool_decide_eq_false_2 by congruence. done.
Qed.

Lemma read_fills_once_then_drains_witness :
  ∃ f' : file (list Byte.byte),
    read_seq [(true, 1, 1); (true, 8, 8)] (sample_world forty_two)
             (sample_file sample_ops)
      = Some ([(1, [Byte.x34]); (1, [Byte.x32])],
              log CallShow (sample_world forty_two), f') ∧
    f_pos f' = 2.
Proof.
  destruct (read_fills_once_then_drains
              (sample_world forty_two) (sample_file sample_ops)
              sample_show 2 (forty_two ++ drop 2 (zeroes PAGE_SIZE))
              (true, 1, 1) [(true, 8, 8)])
    as (f' & H1 & _ & _ & _ & H5 & _).
  - reflexivity.
  - reflexivity.
  - reflexivity.
  - unfold PAGE_SIZE. lia.
  - simpl. lia.
  - repeat constructor; simpl; lia.
  - exists f'. split; [exact H1 | exact H5].
Defined.

(** C1 as stated fails when the page cannot be had: the first read
    returns [-ENOMEM] without invoking show, and it is the second read
    that invokes it. *)
Lemma read_without_page_skips_show :
  ∃ w1 f1 w2 f2 : _,
    sysfs_read_file false 8 (sample_world forty_two) (sample_file sample_ops) 8
      = Some (- ENOMEM, [], w1, f1) ∧
    shows w1 = 0%nat ∧
    sysfs_read_file true 8 w1 f1 8 = Some (2, forty_two, w2, f2) ∧
    shows w2 = 1%nat.
Proof.
  do 4 eexists. repeat (split; [vm_compute; reflexivity|]).
  vm_compute; reflexivity.
Qed.

(** C2. A read of a buffer that awaits its fill, with a show that
    fails with [-EIO]: the read returns the error, and the buffer is no
    longer flagged, so that the next read does not invoke show again
    and answers from the page against the old count. *)
Lemma failed_show_not_retried :
  ∃ w1 f1 w2 f2 : _,
    sysfs_read_file true 8 (sample_world forty_two) (sample_file failing_ops) 8
      = Some (- EIO, [], w1, f1) ∧
    needs_read_fill (private_data f1) = false ∧
    shows w1 = 1%nat ∧
    sysfs_read_file true 8 w1 f1 8 = Some (0, [], w2, f2) ∧
    shows w2 = 1%nat.
Proof.
  do 4 eexists. repeat (split; [vm_compute; reflexivity|]).
  vm_compute; reflexivity.
Qed.

Lemma write_commits_once_witness :
  ∃ b : sysfs_buffer (list Byte.byte),
    sysfs_write_file true (sample_world forty_two) (sample_file sample_ops)
                     [Byte.x37] 1
      = Some (1, set_kobj [Byte.x37]
                   (log (CallStore [Byte.x37]) (sample_world forty_two)),
              {| private_data := b; f_pos := 1 |}) ∧
    needs_read_fill b = true.
Proof.
  destruct (write_commits_once true
              (sample_world forty_two) (sample_file sample_ops)
              [Byte.x37] 1 sample_store 1 [Byte.x37])
    as (_ & H2 & _).
  - reflexivity.
  - reflexivity.
  - simpl. lia.
  - reflexivity.
  - lia.
  - destruct H2 as [H2 _]; [unfold PAGE_SIZE; lia|].
    eexists. split; [exact H2 | reflexivity].
Defined.

(** C3 as stated fails on two counts: a write of no bytes does not
    invoke store, and a write of a whole page copies one byte less than
    the page holds. *)
Lemma empty_write_skips_store :
  (∃ w1 f1,
     sysfs_write_file true (sample_world forty_two) (sample_file sample_ops) [] 0
       = Some (0, w1, f1) ∧
     stores w1 = 0%nat) ∧
  (fill_write_buffer true (private_data (sample_file sample_ops))
     (replicate (Z.to_nat PAGE_SIZE) Byte.x37) PAGE_SIZE).1 = PAGE_SIZE - 1.
Proof.
  split.
  - do 2 eexists. split; vm_compute; reflexivity.
  - vm_compute. reflexivity.
Qed.

Lemma poll_reports_until_refill_witness :
  let f := {| private_data := filled (private_data (sample_file sample_ops)) 2
                                (forty_two ++ drop 2 (zeroes PAGE_SIZE)) 0;
              f_pos := 2 |} in
  let w1 := sysfs_notify (Some sample_dentry) None None
              (sample_world forty_two) in
  sysfs_poll (sample_world forty_two) f = (0, f) ∧
  (poll_seq 3 w1 f).1 = [10; 10; 10] ∧
  ∃ r out f2,
    sysfs_read_file true 8 w1 (poll_seq 3 w1 f).2 8
      = Some (r, out, log CallShow w1, f2) ∧
    sysfs_poll (log CallShow w1) f2 = (0, f2).
Proof.
  intros f w1.
  destruct (poll_reports_until_refill (sample_world forty_two) f 2 true 8 8
              sample_show 2 (forty_two ++ drop 2 (zeroes PAGE_SIZE))
              (Some sample_dentry) None None sample_dentry)
    as (H1 & H2 & r & out & f2 & H3 & _ & H4).
  - reflexivity.
  - reflexivity.
  - reflexivity.
  - simpl. lia.
  - reflexivity.
  - reflexivity.
  - reflexivity.
  - unfold PAGE_SIZE. lia.
  - lia.
  - simpl. lia.
  - split; [exact H1|]. fold w1 in H2, H3, H4. rewrite H2.
    split; [reflexivity|]. exists r, out, f2. split; [exact H3 | exact H4].
Defined.

(** C4 as stated fails: after one notify, a second poll with no notify
    in between reports the condition again. *)
Lemma poll_reports_twice :
  let f := {| private_data := filled (private_data (sample_file sample_ops)) 2
                                (forty_two ++ drop 2 (zeroes PAGE_SIZE)) 0;
              f_pos := 2 |} in
  let w1 := sysfs_notify (Some sample_dentry) None None
              (sample_world forty_two) in
  ∃ f1 f2,
    sysfs_poll w1 f = (Z.lor POLLERR POLLPRI, f1) ∧
    sysfs_poll w1 f1 = (Z.lor POLLERR POLLPRI, f2).
Proof. do 2 eexists. split; reflexivity. Qed.


(** ** Opening, faults, and reads after writes *)

Section FileMore.

Context {K : Type}.

Implicit Types (w : world K) (f : file K) (b : sysfs_buffer K).

Lemma has_bits_false v mask : has_bits v mask = false ↔ Z.land v mask = 0.
Proof.
  unfold has_bits. rewrite negb_false_iff. apply Z.eqb_eq.
Qed.

Lemma open_event_zero i_mode f_mode ko (attr : option (subsys_attribute K))
    module_ok kzalloc_ok e b :
  check_perm i_mode f_mode ko attr module_ok kzalloc_ok = (e, Some b) →
  event b = 0.
Proof.
  unfold check_perm. intros H. repeat case_match; by simplify_eq.
Qed.

(** X1. An open that succeeds leaves a zeroed buffer that awaits its first
    fill. For each access mode the file is opened in, the inode carries
    a permission bit of that kind and the object's operations have the
    method; and the operations are those of the type of the object's
    kset whenever there is one, whatever type the object itself names. *)
Theorem open_grants_what_the_inode_allows i_mode f_mode k
    (a : subsys_attribute K) module_ok kzalloc_ok ob :
  check_perm i_mode f_mode (Some k) (Some a) module_ok kzalloc_ok = (0, ob) →
  ∃ b, ob = Some b ∧
    needs_read_fill b = true ∧ page b = None ∧ count b = 0 ∧ event b = 0 ∧
    (has_bits f_mode FMODE_READ = true →
     has_bits i_mode S_IRUGO = true ∧ is_Some (show (ops b))) ∧
    (has_bits f_mode FMODE_WRITE = true →
     has_bits i_mode S_IWUGO = true ∧ is_Some (store (ops b))) ∧
    (∀ o, kset_ktype k = Some o → o = Some (ops b)) ∧
    module_ok = true ∧ kzalloc_ok = true.
Proof.
  unfold check_perm. destruct module_ok; cbn [negb]; [|by intros [= ?]].
  set (o := match kset_ktype k with
            | Some o => o
            | None => match ktype k with
                      | Some o => o
                      | None => Some (subsys_sysfs_ops a)
                      end
            end).
  assert (Hk : ∀ o', kset_ktype k = Some o' → o' = o)
    by (intros o' Ho'; subst o; by rewrite Ho').
  clearbody o. destruct o as [o|]; [|by intros [= ?]].
  destruct (has_bits f_mode FMODE_WRITE) eqn:Hw; cbn [andb].
  - destruct (has_bits i_mode S_IWUGO) eqn:Hiw; cbn [negb orb];
      [|by intros [= ?]].
    destruct (bool_decide (store o = None)) eqn:Hst; [by intros [= ?]|].
    apply bool_decide_eq_false in Hst.
    destruct (has_bits f_mode FMODE_READ) eqn:Hr; cbn [andb].
    + destruct (has_bits i_mode S_IRUGO) eqn:Hir; cbn [negb orb];
        [|by intros [= ?]].
      destruct (bool_decide (show o = None)) eqn:Hsh; [by intros [= ?]|].
      apply bool_decide_eq_false in Hsh.
      destruct kzalloc_ok; [|by intros [= ?]]. intros [= <-].
      eexists. split; [done|]. simpl.
      repeat split; try done.
      * by destruct (show o).
      * by destruct (store o).
    + destruct kzalloc_ok; [|by intros [= ?]]. intros [= <-].
      eexists. split; [done|]. simpl.
      repeat split; try done. by destruct (store o).
  - destruct (has_bits f_mode FMODE_READ) eqn:Hr; cbn [andb].
    + destruct (has_bits i_mode S_IRUGO) eqn:Hir; cbn [negb orb];
        [|by intros [= ?]].
      destruct (bool_decide (show o = None)) eqn:Hsh; [by intros [= ?]|].
      apply bool_decide_eq_false in Hsh.
      destruct kzalloc_ok; [|by intros [= ?]]. intros [= <-].
      eexists. split; [done|]. simpl.
      repeat split; try done. by destruct (show o).
    + destruct kzalloc_ok; [|by intros [= ?]]. intros [= <-].
      eexists. split; [done|]. simpl. repeat split; done.
Qed.

(** X2. An open either succeeds and leaves a buffer, or answers one of four
    errors and leaves none: [-EINVAL] exactly when the object or the
    attribute is missing, and otherwise [-ENODEV] whenever the module
    cannot be pinned, before any permission is looked at. *)
Theorem open_fails_without_a_buffer i_mode f_mode ko
    (attr : option (subsys_attribute K)) module_ok kzalloc_ok :
  let r := check_perm i_mode f_mode ko attr module_ok kzalloc_ok in
  ((r.1 = 0 ∧ is_Some r.2) ∨
   (r.2 = None ∧ r.1 ∈ [- EINVAL; - ENODEV; - EACCES; - ENOMEM])) ∧
  (r.1 = - EINVAL ↔ ko = None ∨ attr = None) ∧
  (is_Some ko → is_Some attr → module_ok = false → r.1 = - ENODEV).
Proof.
  cbv zeta. unfold check_perm.
  destruct ko as [k|], attr as [a|];
    try (split; [right; split; [done|set_solver]|];
         split; [split; [by auto|done]|]; by intros [? ?] [? ?]).
  - destruct module_ok; cbn [negb].
    2:{ split; [right; split; [done|set_solver]|].
        split; [|done]. split; [done|]. by intros [?|?]. }
    match goal with
    | |- context [match ?x with Some _ => _ | None => (- EACCES, None) end] =>
        destruct x as [o|]
    end.
    2:{ split; [right; split; [done|set_solver]|].
        split; [|done]. split; [done|]. by intros [?|?]. }
    destruct (has_bits f_mode FMODE_WRITE
              && (negb (has_bits i_mode S_IWUGO) || bool_decide (store o = None))).
    { split; [right; split; [done|set_solver]|].
      split; [|done]. split; [done|]. by intros [?|?]. }
    destruct (has_bits f_mode FMODE_READ
              && (negb (has_bits i_mode S_IRUGO) || bool_decide (show o = None))).
    { split; [right; split; [done|set_solver]|].
      split; [|done]. split; [done|]. by intros [?|?]. }
    destruct kzalloc_ok.
    + split; [left; by split|]. split; [|done]. split; [done|]. by intros [?|?].
    + split; [right; split; [done|set_solver]|].
      split; [|done]. split; [done|]. by intros [?|?].
Qed.

(** X3. An object that names no type and is in no kset is a subsystem, and
    its attributes go through [subsys_sysfs_ops]: the open succeeds as
    far as the inode's bits allow, also for an attribute that lacks the
    method, and the read or the write of such an attribute answers
    [-EIO], delivers nothing, moves nothing and leaves the object as it
    was. *)
Theorem subsystem_attribute_without_method_answers_EIO i_mode f_mode k
    (a : subsys_attribute K) :
  kset_ktype k = None → ktype k = None →
  has_bits i_mode S_IRUGO = true → has_bits i_mode S_IWUGO = true →
  ∃ b,
    check_perm i_mode f_mode (Some k) (Some a) true true = (0, Some b) ∧
    (sattr_show a = None →
     ∀ room w cnt p,
       ∃ f', sysfs_read_file true room w (opened b p) cnt
               = Some (- EIO, [], log CallShow w, f') ∧
             f_pos f' = p) ∧
    (sattr_store a = None →
     ∀ w ubuf cnt p,
       0 < cnt ≤ Z.of_nat (length ubuf) →
       ∃ data f', sysfs_write_file true w (opened b p) ubuf cnt
                    = Some (- EIO, log (CallStore data) w, f') ∧
                  f_pos f' = p).
Proof.
  intros Hks Hkt Hr Hw. unfold check_perm. rewrite Hks, Hkt, Hr, Hw.
  cbn [negb orb andb subsys_sysfs_ops show store bool_decide].
  rewrite !bool_decide_eq_false_2 by done. rewrite !andb_false_r.
  eexists. split; [done|]. split.
  - intros Hsh room w cnt p. unfold sysfs_read_file, fill_read_buffer, opened.
    simpl. unfold subsys_attr_show. rewrite Hsh. simpl.
    eexists. split; [done|]. done.
  - intros Hst w ubuf cnt p Hcnt. unfold sysfs_write_file, opened.
    cbn [private_data f_pos].
    rewrite fill_write_buffer_ok by (done || lia).
    assert (0 < Z.min cnt (PAGE_SIZE - 1)) by (unfold PAGE_SIZE; lia).
    destruct (Z.ltb_spec 0 (Z.min cnt (PAGE_SIZE - 1))); [|lia].
    unfold flush_write_buffer. simpl. unfold subsys_attr_store.
    rewrite Hst. simpl. eexists _, _. split; [done|]. done.
Qed.

(** X4. A read from a filled buffer into memory that cannot take the whole
    chunk answers [-EFAULT] and changes nothing: the position stays and
    the page stays filled, so that the same read into memory that can
    take the chunk delivers it, without a further call of [show]. *)
Theorem faulting_read_keeps_position page_ok room w f cnt pg :
  needs_read_fill (private_data f) = false →
  page (private_data f) = Some pg →
  0 ≤ f_pos f →
  0 ≤ room < chunk_len (count (private_data f)) (f_pos f) cnt →
  let n := chunk_len (count (private_data f)) (f_pos f) cnt in
  (∃ out, sysfs_read_file page_ok room w f cnt = Some (- EFAULT, out, w, f) ∧
          out = take (Z.to_nat room) (drop (Z.to_nat (f_pos f)) pg)) ∧
  sysfs_read_file page_ok cnt w f cnt
    = Some (n, slice pg (f_pos f) (f_pos f + n), w,
            {| private_data := private_data f; f_pos := f_pos f + n |}).
Proof.
  intros Hn Hpg Hpos Hroom n. unfold chunk_len in Hroom.
  split.
  - clear n. unfold sysfs_read_file. rewrite Hn. unfold flush_read_buffer.
    destruct (Z.ltb_spec (count (private_data f)) (f_pos f)); [lia|].
    rewrite Hpg. cbn [mbind option_bind]. unfold copy_to_user.
    set (d := count (private_data f) - f_pos f) in *.
    assert (0 ≤ d) by (subst d; lia). clearbody d.
    set (c := if d <? cnt then d else cnt).
    assert (Hc : room < c).
    { subst c. destruct (Z.ltb_spec d cnt); lia. }
    clearbody c. replace (Z.min c room) with room by lia.
    destruct (Z.eqb_spec (c - room) 0); [lia|]. cbn [mbind option_bind].
    eexists. split; [|done]. by destruct f.
  - apply read_filled; try done. unfold chunk_len in *. lia.
Qed.

(** X5. Reading and writing share the file position. After a write that
    [store] accepted with [r] bytes, a positive count that fits an
    [int], the next read on the same open file
    calls [show] anew, on the object as [store] left it and on the page
    that holds what was written, and delivers that output from
    position [f_pos + r] on, not from its start. *)
Theorem read_after_write_continues_at_position page_ok w f ubuf cnt st sh
    r k c pg' room rcnt :
  store (ops (private_data f)) = Some st →
  show (ops (private_data f)) = Some sh →
  (page (private_data f) = None → page_ok = true) →
  0 < cnt ≤ Z.of_nat (length ubuf) →
  0 ≤ f_pos f →
  let n := Z.min cnt (PAGE_SIZE - 1) in
  let pg := take (Z.to_nat n) ubuf
            ++ drop (Z.to_nat n) (page_or_fresh (private_data f)) in
  st (kobj w) pg n = (r, k) →
  0 < r < 2 ^ 31 →
  sh k pg = (c, pg') →
  0 ≤ c ≤ PAGE_SIZE →
  0 ≤ rcnt ≤ room →
  ∃ w1 f1 f2,
    sysfs_write_file page_ok w f ubuf cnt = Some (r, w1, f1) ∧
    kobj w1 = k ∧
    f_pos f1 = f_pos f + r ∧
    let m := chunk_len c (f_pos f + r) rcnt in
    sysfs_read_file page_ok room w1 f1 rcnt
      = Some (m, slice pg' (f_pos f + r) (f_pos f + r + m),
              log CallShow w1, f2) ∧
    f_pos f2 = f_pos f + r + m ∧
    shows (log CallShow w1) = S (shows w).
Proof.
  intros Hst Hsh Hpage Hcnt Hpos n pg Hstore Hr Hshow Hc Hrcnt.
  unfold sysfs_write_file.
  rewrite fill_write_buffer_ok by (done || lia). fold n. fold pg.
  assert (Hn : 0 < n) by (subst n; unfold PAGE_SIZE; lia).
  destruct (Z.ltb_spec 0 n); [|lia].
  unfold flush_write_buffer. cbn [ops page]. rewrite Hst.
  cbn [mbind option_bind]. rewrite Hstore. cbn [mbind option_bind].
  rewrite (int_wrap_small r) by lia.
  destruct (Z.ltb_spec 0 r); [|lia].
  eexists _, _, _. split; [done|]. split; [done|]. split; [done|].
  cbv zeta. split; [|split].
  - erewrite read_fill;
      [reflexivity|reflexivity|exact Hsh|done|exact Hshow|lia|lia|].
    cbn [f_pos]. lia.
  - done.
  - unfold shows, log, set_kobj. simpl. rewrite !filter_app, !length_app.
    simpl. lia.
Qed.

(** X6. The buffer of a fresh open has seen no event. A poll before the
    first read therefore reports the attribute as changed exactly when
    its node has been notified before, at any time since the node was
    made; and it reports nothing on a node that never was. *)
Theorem poll_after_open_reports_earlier_notifications i_mode f_mode ko
    (attr : option (subsys_attribute K)) module_ok kzalloc_ok b w p :
  check_perm i_mode f_mode ko attr module_ok kzalloc_ok = (0, Some b) →
  (s_event w = 0 → sysfs_poll w (opened b p) = (0, opened b p)) ∧
  (s_event w ≠ 0 →
   sysfs_poll w (opened b p)
     = (Z.lor POLLERR POLLPRI, opened (set_needs_read_fill true b) p)).
Proof.
  intros Hopen. pose proof (open_event_zero _ _ _ _ _ _ _ _ Hopen) as He.
  unfold sysfs_poll, opened. cbn [private_data f_pos]. rewrite He. split.
  - intros ->. done.
  - intros Hne. destruct (Z.eqb_spec 0 (s_event w)); [lia|done].
Qed.

(** X7. [sysfs_notify] touches nothing but the event counter, and it
    touches the counter only if the walk went all the way: the object
    has a dentry, every name that was given resolved to a dentry with an
    inode, and the dentry at the end is bound to the attribute's node. *)
Theorem notify_needs_the_whole_walk kd dir attr w :
  let w' := sysfs_notify kd dir attr w in
  kobj w' = kobj w ∧ calls w' = calls w ∧
  (s_event w' ≠ s_event w →
   s_event w' = atomic_inc (s_event w) ∧
   ∃ de, notify_walk kd dir attr = Some de ∧ fsdata de = Some true ∧
         is_Some kd ∧
         (∀ lk, dir = Some lk → ∃ d, lk = inr d ∧ has_inode d = true) ∧
         (∀ lk, attr = Some lk → lk = inr de ∧ has_inode de = true)).
Proof.
  cbv zeta. unfold sysfs_notify.
  destruct (notify_walk kd dir attr) as [de|] eqn:Hw; [|done].
  destruct (fsdata de) as [[|]|] eqn:Hf; try done.
  split; [done|]. split; [done|]. intros _. split; [done|].
  exists de. split; [done|]. split; [done|].
  unfold notify_walk, step_down in Hw.
  destruct kd as [d0|]; [|by destruct dir, attr].
  split; [by eexists|].
  destruct dir as [[e|d1]|], attr as [[e'|d2]|]; simpl in Hw;
    repeat match type of Hw with
           | context [has_inode ?d] =>
               destruct (has_inode d) eqn:?; simpl in Hw
           end;
    try done; injection Hw as <-;
    (split; intros lk [= <-]; eauto).
Qed.

End FileMore.

Lemma open_grants_what_the_inode_allows_witness :
  ∃ b : sysfs_buffer (list Byte.byte),
    check_perm 420 (Z.lor FMODE_READ FMODE_WRITE) (Some typed_object)
      (Some mute_attribute) true true = (0, Some b) ∧
    needs_read_fill b = true ∧
    is_Some (show (ops b)) ∧ is_Some (store (ops b)).
Proof.
  eassert (check_perm 420 (Z.lor FMODE_READ FMODE_WRITE) (Some typed_object)
             (Some mute_attribute) true true = (0, _)) as Hopen
    by (vm_compute; reflexivity).
  destruct (open_grants_what_the_inode_allows _ _ _ _ _ _ _ Hopen)
    as (b & Hb & Hfill & _ & _ & _ & Hr & Hw & _).
  exists b. split; [by rewrite <- Hb|]. split; [done|]. split.
  - by apply Hr.
  - by apply Hw.
Defined.

Lemma subsystem_attribute_without_method_answers_EIO_witness :
  ∃ b f',
    check_perm 420 FMODE_READ (Some bare_subsystem) (Some mute_attribute)
      true true = (0, Some b) ∧
    sysfs_read_file true 8 (sample_world forty_two) (opened b 0) 8
      = Some (- EIO, [], log CallShow (sample_world forty_two), f') ∧
    f_pos f' = 0.
Proof.
  destruct (subsystem_attribute_without_method_answers_EIO 420 FMODE_READ
              bare_subsystem mute_attribute eq_refl eq_refl eq_refl eq_refl)
    as (b & Hopen & Hread & _).
  destruct (Hread eq_refl 8 (sample_world forty_two) 8 0) as (f' & Hf & Hp).
  by exists b, f'.
Defined.

Lemma faulting_read_keeps_position_witness :
  sysfs_read_file true 1 (sample_world forty_two) filled_file 8
    = Some (- EFAULT, [Byte.x34], sample_world forty_two, filled_file) ∧
  ∃ f', sysfs_read_file true 8 (sample_world forty_two) filled_file 8
          = Some (2, forty_two, sample_world forty_two, f').
Proof.
  destruct (faulting_read_keeps_position true 1 (sample_world forty_two)
              filled_file 8 (forty_two ++ drop 2 (zeroes PAGE_SIZE)))
    as [(out & Hfault & Hout) Hretry];
    [reflexivity|reflexivity|simpl; lia|vm_compute; split; [discriminate|reflexivity]|].
  split.
  - rewrite Hfault, Hout. reflexivity.
  - eexists. rewrite Hretry. vm_compute. reflexivity.
Defined.

Lemma read_after_write_continues_at_position_witness :
  ∃ w1 f1 f2,
    sysfs_write_file true (sample_world forty_two) (sample_file sample_ops)
                     [Byte.x37] 1 = Some (1, w1, f1) ∧
    sysfs_read_file true 8 w1 f1 8 = Some (0, [], log CallShow w1, f2) ∧
    f_pos f2 = 1.
Proof.
  set (pg := [Byte.x37] ++ drop 1 (zeroes PAGE_SIZE)).
  destruct (read_after_write_continues_at_position true
              (sample_world forty_two) (sample_file sample_ops) [Byte.x37] 1
              sample_store sample_show 1 [Byte.x37] 1 pg 8 8)
    as (w1 & f1 & f2 & Hwrite & _ & _ & Hread & Hpos & _);
    [solve [lia | vm_compute; reflexivity | simpl; lia
           | vm_compute; split; discriminate]..|].
  exists w1, f1, f2. split; [exact Hwrite|]. split.
  - rewrite Hread. reflexivity.
  - rewrite Hpos. reflexivity.
Defined.

Lemma poll_after_open_reports_earlier_notifications_witness :
  ∃ b f',
    check_perm 420 FMODE_READ (Some typed_object) (Some mute_attribute)
      true true = (0, Some b) ∧
    sysfs_poll {| kobj := forty_two; s_event := 1; calls := [] |} (opened b 0)
      = (Z.lor POLLERR POLLPRI, f') ∧
    sysfs_poll (sample_world forty_two) (opened b 0) = (0, opened b 0).
Proof.
  eassert (check_perm 420 FMODE_READ (Some typed_object)
             (Some mute_attribute) true true = (0, Some _)) as Hopen
    by (vm_compute; reflexivity).
  eexists _, _. split; [exact Hopen|].
  pose proof (poll_after_open_reports_earlier_notifications _ _ _ _ _ _ _
                {| kobj := forty_two; s_event := 1; calls := [] |} 0 Hopen)
    as [_ Hlate].
  pose proof (poll_after_open_reports_earlier_notifications _ _ _ _ _ _ _
                (sample_world forty_two) 0 Hopen) as [Hnone _].
  split; [by apply Hlate|by apply Hnone].
Defined.

End FileProps.


(** ** The directory-entry tree *)

Module DirProps.
Import Dir.

Implicit Types (st : sysfs) (sd : sysfs_dirent) (l : list nat).

(** *** Strings *)

Lemma strcmp_eq a b : strcmp a b = 0 ↔ a = b.
Proof.
  unfold strcmp. split.
  - destruct (String.compare a b) eqn:E; try discriminate.
    intros _. by apply String.compare_eq_iff.
  - intros ->. pose proof (String.compare_antisym b b) as A.
    destruct (String.compare b b); simpl in A; congruence.
Qed.

Lemma strcmp_refl a : strcmp a a = 0.
Proof. by apply strcmp_eq. Qed.

Lemma strcmp_differs a b : negb (strcmp a b =? 0) = bool_decide (a ≠ b).
Proof.
  destruct (decide (a = b)) as [->|Hne].
  - rewrite (proj2 (strcmp_eq b b) eq_refl). simpl.
    by rewrite bool_decide_eq_false_2 by tauto.
  - rewrite bool_decide_eq_true_2 by done.
    destruct (strcmp a b =? 0) eqn:E; [|done].
    apply Z.eqb_eq, strcmp_eq in E. done.
Qed.

(** *** The list primitives and the store *)

Lemma set_children_id sd : set_children (λ l, l) sd = sd.
Proof. by destruct sd. Qed.

Lemma set_children_ext f g sd :
  f (s_children sd) = g (s_children sd) → set_children f sd = set_children g sd.
Proof. intros H. unfold set_children. by rewrite H. Qed.

Lemma unlink_notin x l : x ∉ l → unlink x l = l.
Proof.
  intros Hx. unfold unlink. induction l as [|y l IH]; [done|].
  apply not_elem_of_cons in Hx as [Hne Hx].
  rewrite filter_cons_True by done. by rewrite IH.
Qed.

Lemma unlink_cons_eq x l : unlink x (x :: l) = unlink x l.
Proof. unfold unlink. by rewrite filter_cons_False by tauto. Qed.

Lemma elem_of_unlink x y l : y ∈ unlink x l ↔ y ≠ x ∧ y ∈ l.
Proof. unfold unlink. rewrite list_elem_of_filter. tauto. Qed.

Lemma after_head x l : after x (x :: l) = l.
Proof. simpl. by rewrite decide_True. Qed.

Lemma children_lookup st p sd :
  sds st !! p = Some sd → children st p = s_children sd.
Proof. intros H. unfold children. by rewrite H. Qed.

Lemma lookup_list_del st x c :
  sds (list_del x st) !! c = set_children (unlink x) <$> sds st !! c.
Proof. unfold list_del. simpl. by rewrite lookup_fmap. Qed.

Lemma lookup_list_add_head st new p c :
  sds (list_add new (Head p) st) !! c
  = (if decide (p = c) then set_children (cons new) else id) <$> sds st !! c.
Proof.
  unfold list_add. simpl. rewrite lookup_alter.
  destruct (decide (p = c)) as [->|Hne]; [done|].
  by destruct (sds st !! c).
Qed.

Lemma lookup_list_add_sibling st new x c :
  sds (list_add new (Sibling x) st) !! c
  = set_children (insert_after x new) <$> sds st !! c.
Proof. unfold list_add. simpl. by rewrite lookup_fmap. Qed.

Lemma children_list_del st x p :
  children (list_del x st) p = unlink x (children st p).
Proof.
  unfold children. rewrite lookup_list_del.
  by destruct (sds st !! p).
Qed.

Lemma children_list_add_head st new p :
  is_Some (sds st !! p) →
  children (list_add new (Head p) st) p = new :: children st p.
Proof.
  intros [sd H]. unfold children. rewrite lookup_list_add_head.
  rewrite decide_True by done. by rewrite H.
Qed.

(** *** Names *)

(** Names depend on the identity of a node and on the names of the
    dentries only. *)
Lemma names_kept_refl st : names_kept st st.
Proof. by intros d. Qed.

Lemma ident_element sd sd' : ident sd' = ident sd → s_element sd' = s_element sd.
Proof. unfold ident. congruence. Qed.

Lemma sysfs_get_name_frame st st' sd sd' :
  names_kept st st' → ident sd' = ident sd →
  sysfs_get_name st' sd' = sysfs_get_name st sd.
Proof.
  intros Hd Hi. unfold ident in Hi. injection Hi as He Ht Hde.
  unfold sysfs_get_name. rewrite He, Ht, Hde.
  destruct (s_element sd); [|done].
  destruct (s_type sd =? SYSFS_DIR); [|done].
  destruct (s_dentry sd) as [d|]; [|done]. simpl.
  specialize (Hd d).
  destruct (dentries st' !! d), (dentries st !! d); simpl in *; congruence.
Qed.

Lemma name_of_frame st st' c :
  names_kept st st' →
  ident <$> sds st' !! c = ident <$> sds st !! c →
  name_of st' c = name_of st c.
Proof.
  intros Hd Hc. unfold name_of.
  destruct (sds st' !! c) as [sd'|], (sds st !! c) as [sd|];
    simpl in *; try done.
  assert (Hi : ident sd' = ident sd) by congruence.
  rewrite (ident_element _ _ Hi).
  destruct (s_element sd); [|done]. simpl.
  by apply sysfs_get_name_frame.
Qed.

Lemma entry_names_cons st c l :
  entry_names st (c :: l)
  = match name_of st c with
    | Some n => n :: entry_names st l
    | None => entry_names st l
    end.
Proof. reflexivity. Qed.

Lemma entry_names_frame st st' l :
  names_kept st st' →
  (∀ c, c ∈ l → ident <$> sds st' !! c = ident <$> sds st !! c) →
  entry_names st' l = entry_names st l.
Proof.
  intros Hd Hl. induction l as [|c l IH]; [done|].
  rewrite !entry_names_cons.
  rewrite (name_of_frame st st' c Hd) by (apply Hl; left).
  rewrite IH; [done|]. intros c' Hc'. apply Hl. by right.
Qed.

Lemma named_frame st st' c :
  names_kept st st' →
  ident <$> sds st' !! c = ident <$> sds st !! c →
  named st c → named st' c.
Proof.
  intros Hd Hc (sd & Hsd & Hn). rewrite Hsd in Hc.
  destruct (sds st' !! c) as [sd'|] eqn:Hsd'; [|done].
  simpl in Hc. assert (Hi : ident sd' = ident sd) by congruence.
  exists sd'. split; [done|].
  rewrite (sysfs_get_name_frame st st' sd sd' Hd Hi).
  by rewrite (ident_element _ _ Hi).
Qed.

Lemma name_of_named st c sd :
  sds st !! c = Some sd → s_element sd ≠ None →
  name_of st c = sysfs_get_name st sd.
Proof.
  intros Hsd He. unfold name_of. rewrite Hsd. simpl.
  by destruct (s_element sd).
Qed.

Lemma name_of_payloadless st c : payloadless st c = true → name_of st c = None.
Proof.
  unfold payloadless, name_of. destruct (sds st !! c) as [sd|]; [|done].
  intros H. apply bool_decide_eq_true in H. simpl. by rewrite H.
Qed.

Lemma entry_names_unlink st x l :
  name_of st x = None → entry_names st (unlink x l) = entry_names st l.
Proof.
  intros Hx. unfold unlink. induction l as [|y l IH]; [done|].
  destruct (decide (y = x)) as [->|Hne].
  - rewrite filter_cons_False by tauto. rewrite entry_names_cons. by rewrite Hx.
  - rewrite filter_cons_True by done. rewrite !entry_names_cons. by rewrite IH.
Qed.

Lemma entry_names_unlink_sublist st x l :
  sublist (entry_names st (unlink x l)) (entry_names st l).
Proof.
  unfold unlink. induction l as [|y l IH]; [done|].
  destruct (decide (y = x)) as [->|Hne].
  - rewrite filter_cons_False by tauto. rewrite entry_names_cons.
    destruct (name_of st x); [by apply sublist_cons|done].
  - rewrite filter_cons_True by done. rewrite !entry_names_cons.
    destruct (name_of st y); [by apply sublist_skip|done].
Qed.

(** The scan of [sysfs_dirent_exist] answers [-EEXIST] exactly when the
    name is that of a child with a payload. *)
Lemma dirent_exist_loop_spec st new l :
  (∀ c, c ∈ l → named st c) →
  dirent_exist_loop st new l
    = Some (if decide (new ∈ entry_names st l) then - EEXIST else 0).
Proof.
  induction l as [|c l IH]; intros Hl.
  - done.
  - destruct (Hl c) as (sd & Hsd & Hn); [left|].
    assert (∀ c', c' ∈ l → named st c') as Hl' by (intros; apply Hl; by right).
    rewrite entry_names_cons. unfold name_of.
    cbn [dirent_exist_loop]. rewrite Hsd. cbn [mbind option_bind].
    destruct (s_element sd) as [el|] eqn:He; cbn [mbind option_bind].
    + destruct Hn as [nm Hnm]; [done|]. rewrite Hnm. cbn [mbind option_bind].
      rewrite strcmp_differs.
      destruct (decide (nm = new)) as [->|Hne].
      * rewrite bool_decide_eq_false_2 by tauto.
        rewrite decide_True; [done|]. left.
      * rewrite bool_decide_eq_true_2 by done. rewrite IH by done.
        destruct (decide (new ∈ entry_names st l)) as [Hin|Hnin].
        -- rewrite decide_True; [done|]. by right.
        -- rewrite decide_False; [done|].
           intros [?|?]%elem_of_cons; congruence.
    + rewrite IH by done. done.
Qed.


(** *** Reference counts and allocation *)

Lemma dentries_sysfs_put st x : dentries (sysfs_put x st) = dentries st.
Proof.
  unfold sysfs_put. destruct (sds st !! x) as [node|]; [|done].
  by destruct (s_count node - 1 =? 0).
Qed.

Lemma kobjs_sysfs_put st x : kobjs (sysfs_put x st) = kobjs st.
Proof.
  unfold sysfs_put. destruct (sds st !! x) as [node|]; [|done].
  by destruct (s_count node - 1 =? 0).
Qed.

Lemma lookup_sysfs_put_ne st x c :
  c ≠ x → sds (sysfs_put x st) !! c = sds st !! c.
Proof.
  intros Hne. unfold sysfs_put. destruct (sds st !! x) as [node|]; [|done].
  destruct (s_count node - 1 =? 0); simpl.
  - by rewrite lookup_delete_ne.
  - by rewrite lookup_alter_ne.
Qed.

Lemma lookup_sysfs_put_eq st x :
  sds (sysfs_put x st) !! x = None ∨
  ∃ sd, sds st !! x = Some sd ∧
        sds (sysfs_put x st) !! x = Some (set_count (λ c, c - 1) sd).
Proof.
  unfold sysfs_put. destruct (sds st !! x) as [node|] eqn:E; [|by left].
  destruct (s_count node - 1 =? 0); simpl.
  - left. by rewrite lookup_delete_eq.
  - right. exists node. split; [done|]. by rewrite lookup_alter_eq, E.
Qed.

Lemma lookup_sysfs_put_held st x sd :
  sds st !! x = Some sd → s_count sd - 1 ≠ 0 →
  sds (sysfs_put x st) !! x = Some (set_count (λ c, c - 1) sd).
Proof.
  intros Hsd Hc. unfold sysfs_put. rewrite Hsd.
  apply Z.eqb_neq in Hc. rewrite Hc. simpl.
  by rewrite lookup_alter_eq, Hsd.
Qed.

Lemma dentries_list_del st x : dentries (list_del x st) = dentries st.
Proof. done. Qed.

(** What [sysfs_make_dirent] builds in memory that was free. *)
Lemma make_dirent_spec a p d el mode type st :
  sds st !! a = None → is_Some (sds st !! p) →
  ∃ st',
    sysfs_make_dirent (Some a) p d el mode type st = (0, st') ∧
    sds st' !! a
      = Some {| s_count := if d is Some _ then 2 else 1; s_children := [];
                s_element := Some el; s_type := type; s_mode := mode;
                s_dentry := d; s_event := 0 |} ∧
    (∀ c, c ≠ a →
          sds st' !! c
          = (if decide (p = c) then set_children (cons a) else id)
              <$> sds st !! c) ∧
    dentries st'
      = (if d is Some d' then alter (set_fsdata (Some a)) d' (dentries st)
         else dentries st) ∧
    kobjs st' = kobjs st.
Proof.
  intros Ha [psd Hp]. assert (p ≠ a) as Hpa by congruence.
  unfold sysfs_make_dirent, sysfs_new_dirent, list_add, sysfs_get.
  destruct d as [d'|]; simpl; eexists; (split; [reflexivity|]); simpl.
  - split; [|split; [|done]].
    + rewrite !lookup_alter_eq, lookup_alter_ne, lookup_insert_eq by done. done.
    + intros c Hc. rewrite !lookup_alter_ne by done.
      rewrite lookup_alter. destruct (decide (p = c)) as [->|Hne].
      * by rewrite lookup_insert_ne.
      * rewrite lookup_insert_ne by done. by destruct (sds st !! c).
  - split; [|split; [|done]].
    + rewrite !lookup_alter_eq, lookup_alter_ne, lookup_insert_eq by done. done.
    + intros c Hc. rewrite !lookup_alter_ne by done.
      rewrite lookup_alter. destruct (decide (p = c)) as [->|Hne].
      * by rewrite lookup_insert_ne.
      * rewrite lookup_insert_ne by done. by destruct (sds st !! c).
Qed.

Lemma make_dirent_nomem p d el mode type st :
  sysfs_make_dirent None p d el mode type st = (- ENOMEM, st).
Proof. done. Qed.

(** *** How the operations keep a directory in order *)

Lemma names_kept_alter (f : dentry → dentry) d st st' :
  (∀ de, d_name (f de) = d_name de) →
  dentries st' = alter f d (dentries st) →
  names_kept st st'.
Proof.
  intros Hf Hd d'. rewrite Hd, lookup_alter.
  destruct (decide (d = d')) as [->|Hne]; [|done].
  destruct (dentries st !! d'); simpl; [by rewrite Hf|done].
Qed.

Lemma names_kept_trans st1 st2 st3 :
  names_kept st1 st2 → names_kept st2 st3 → names_kept st1 st3.
Proof. intros H12 H23 d. by rewrite H23, H12. Qed.

Lemma names_kept_same st st' : dentries st' = dentries st → names_kept st st'.
Proof. intros H d. by rewrite H. Qed.

Lemma ident_set_children f sd : ident (set_children f sd) = ident sd.
Proof. done. Qed.

Lemma ident_set_count f sd : ident (set_count f sd) = ident sd.
Proof. done. Qed.

Lemma dir_ok_frame dir p st st' :
  dir_ok dir p st →
  names_kept st st' →
  dentries st' !! dir ≫= d_fsdata = Some p →
  is_Some (sds st' !! p) →
  children st' p = children st p →
  (∀ c, c ∈ children st p → ident <$> sds st' !! c = ident <$> sds st !! c) →
  dir_ok dir p st'.
Proof.
  intros (H1 & H2 & H3 & H4) Hn Hd Hp Hch Hid.
  split; [done|]. split; [done|]. split.
  - rewrite Hch. intros c Hc. destruct (H3 c Hc) as [Hne Hnamed].
    split; [done|]. apply (named_frame st st' c Hn); [by apply Hid|done].
  - unfold unique_names. rewrite Hch.
    by rewrite (entry_names_frame st st' _ Hn Hid).
Qed.

Lemma name_of_Some st c n :
  name_of st c = Some n → named st c.
Proof.
  unfold name_of, named. destruct (sds st !! c) as [sd|]; [|done]. simpl.
  destruct (s_element sd); [|done]. simpl. intros H.
  exists sd. split; [done|]. intros _. by exists n.
Qed.

Lemma dir_ok_cons dir p st st' x n :
  dir_ok dir p st →
  names_kept st st' →
  dentries st' !! dir ≫= d_fsdata = Some p →
  is_Some (sds st' !! p) →
  children st' p = x :: children st p →
  x ≠ p →
  (∀ c, c ∈ children st p → ident <$> sds st' !! c = ident <$> sds st !! c) →
  name_of st' x = Some n →
  n ∉ entry_names st (children st p) →
  dir_ok dir p st'.
Proof.
  intros (H1 & H2 & H3 & H4) Hn Hd Hp Hch Hx Hid Hname Hnew.
  split; [done|]. split; [done|]. split.
  - rewrite Hch. intros c [->|Hc]%elem_of_cons.
    + split; [done|]. by apply (name_of_Some _ _ n).
    + destruct (H3 c Hc) as [Hne Hnamed].
      split; [done|]. apply (named_frame st st' c Hn); [by apply Hid|done].
  - unfold unique_names. rewrite Hch, entry_names_cons, Hname.
    rewrite (entry_names_frame st st' _ Hn Hid).
    by apply NoDup_cons.
Qed.

(** Removing a node other than the directory's own. *)
Lemma dir_ok_remove dir p st x :
  dir_ok dir p st → x ≠ p → dir_ok dir p (remove x st).
Proof.
  intros (H1 & [psd H2] & H3 & H4) Hx. unfold remove, list_del_init.
  assert (Hlk : ∀ c, c ≠ x →
            sds (sysfs_put x (list_del x st)) !! c
            = set_children (unlink x) <$> sds st !! c).
  { intros c Hc. by rewrite lookup_sysfs_put_ne, lookup_list_del. }
  assert (Hch : children (sysfs_put x (list_del x st)) p
                = unlink x (children st p)).
  { unfold children. rewrite Hlk by done. by rewrite H2. }
  assert (Hn : names_kept st (sysfs_put x (list_del x st))).
  { apply names_kept_same. by rewrite dentries_sysfs_put. }
  assert (Hid : ∀ c, c ∈ unlink x (children st p) →
            ident <$> sds (sysfs_put x (list_del x st)) !! c
            = ident <$> sds st !! c).
  { intros c [Hc _]%elem_of_unlink. rewrite Hlk by done.
    by destruct (sds st !! c). }
  split; [by rewrite dentries_sysfs_put|]. split; [|split].
  - rewrite Hlk by done. rewrite H2. by eexists.
  - rewrite Hch. intros c Hc. pose proof Hc as [Hcx Hc']%elem_of_unlink.
    destruct (H3 c Hc') as [Hne Hnamed]. split; [done|].
    apply (named_frame st _ c Hn); [by apply Hid|done].
  - unfold unique_names. rewrite Hch.
    rewrite (entry_names_frame st _ _ Hn Hid).
    eapply sublist_NoDup; [exact H4|apply entry_names_unlink_sublist].
Qed.

(** What [sysfs_add_file] does in a directory that is in order. *)
Lemma add_file_spec a dir attr type st p :
  dir_ok dir p st →
  sysfs_add_file a dir attr type st
  = Some (if decide (attr_name (deref attr) ∈ entry_names st (children st p))
          then (- EEXIST, st)
          else sysfs_make_dirent a p None (AttrEl attr)
                 (Z.lor (Z.land (attr_mode (deref attr)) S_IALLUGO) S_IFREG)
                 type st).
Proof.
  intros (H1 & [psd H2] & H3 & H4). unfold sysfs_add_file.
  rewrite H1. cbn [mbind option_bind]. unfold sysfs_dirent_exist.
  rewrite H2. cbn [mbind option_bind].
  rewrite dirent_exist_loop_spec
    by (intros c Hc; apply H3; by rewrite (children_lookup _ _ _ H2)).
  rewrite (children_lookup _ _ _ H2). cbn [mbind option_bind].
  by destruct (decide (_ ∈ _)).
Qed.

Lemma attr_node_name st el type mode cnt ch d ev attr :
  el = AttrEl attr →
  type = SYSFS_KOBJ_ATTR ∨ type = SYSFS_KOBJ_BIN_ATTR →
  sysfs_get_name st {| s_count := cnt; s_children := ch; s_element := Some el;
                       s_type := type; s_mode := mode; s_dentry := d;
                       s_event := ev |}
  = Some (attr_name (deref attr)).
Proof. intros -> [->| ->]; reflexivity. Qed.

(** A file that [sysfs_add_file] has made is the first child, under the
    attribute's name, of a directory still in order. *)
Lemma add_file_linked dir p st x attr type st' :
  dir_ok dir p st →
  sds st !! x = None →
  type = SYSFS_KOBJ_ATTR ∨ type = SYSFS_KOBJ_BIN_ATTR →
  sysfs_add_file (Some x) dir attr type st = Some (0, st') →
  dir_ok dir p st' ∧
  children st' p = x :: children st p ∧
  name_of st' x = Some (attr_name (deref attr)) ∧
  entry_names st' (children st' p)
    = attr_name (deref attr) :: entry_names st (children st p) ∧
  (∀ c, c ≠ x → sds st !! c = None → sds st' !! c = None).
Proof.
  intros Hok Hfresh Htype. rewrite (add_file_spec _ _ _ _ _ p Hok).
  destruct (decide (_ ∈ _)) as [Hin|Hnin]; [by intros [= ?]|].
  pose proof Hok as (H1 & H2 & H3 & H4).
  destruct (make_dirent_spec x p None (AttrEl attr)
              (Z.lor (Z.land (attr_mode (deref attr)) S_IALLUGO) S_IFREG)
              type st Hfresh H2)
    as (st1 & -> & Hx & Hothers & Hd & Hk).
  intros [= <-].
  assert (x ≠ p) as Hxp.
  { intros ->. destruct H2 as [? H2]. rewrite Hfresh in H2. done. }
  assert (Hnotx : ∀ c, c ∈ children st p → c ≠ x).
  { intros c Hc ->. destruct (H3 x Hc) as [_ (sd & Hsd & _)].
    rewrite Hfresh in Hsd. done. }
  destruct H2 as [psd H2].
  assert (Hp' : sds st1 !! p = Some (set_children (cons x) psd)).
  { rewrite Hothers by done. rewrite decide_True by done. by rewrite H2. }
  assert (Hch : children st1 p = x :: children st p).
  { rewrite (children_lookup _ _ _ Hp'), (children_lookup _ _ _ H2). done. }
  assert (Hid : ∀ c, c ∈ children st p →
                  ident <$> sds st1 !! c = ident <$> sds st !! c).
  { intros c Hc. rewrite Hothers by (by apply Hnotx).
    destruct (decide (p = c)); by destruct (sds st !! c). }
  assert (Hname : name_of st1 x = Some (attr_name (deref attr))).
  { rewrite (name_of_named st1 x _ Hx) by done. by apply attr_node_name. }
  assert (Hn : names_kept st st1) by (by apply names_kept_same).
  split; [|split; [done|split; [done|split]]].
  - apply (dir_ok_cons dir p st st1 x (attr_name (deref attr)) Hok);
      try done; first [by rewrite Hd|by eexists].
  - rewrite Hch, entry_names_cons, Hname.
    by rewrite (entry_names_frame st st1 _ Hn Hid).
  - intros c Hc Hnone. rewrite Hothers by done. by rewrite Hnone.
Qed.

Lemma step_add_file_ok dir p st a attr type e st' :
  dir_ok dir p st →
  fresh st a →
  type = SYSFS_KOBJ_ATTR ∨ type = SYSFS_KOBJ_BIN_ATTR →
  sysfs_add_file a dir attr type st = Some (e, st') →
  dir_ok dir p st'.
Proof.
  intros Hok Hfresh Htype Hadd.
  pose proof Hadd as Hadd'. rewrite (add_file_spec _ _ _ _ _ p Hok) in Hadd'.
  destruct (decide (_ ∈ _)) as [Hin|Hnin]; [by injection Hadd' as <- <-|].
  destruct a as [x|]; [|by injection Hadd' as <- <-].
  pose proof Hok as (_ & H2 & _).
  destruct (make_dirent_spec x p None (AttrEl attr)
              (Z.lor (Z.land (attr_mode (deref attr)) S_IALLUGO) S_IFREG)
              type st (Hfresh x eq_refl) H2) as (st1 & Hmk & _).
  rewrite Hmk in Hadd'. injection Hadd' as <- <-.
  by apply (add_file_linked dir p st x attr type st1 Hok (Hfresh x eq_refl) Htype).
Qed.

(** *** [create_dir], branch by branch *)

Lemma dirent_exist_spec st p new :
  is_Some (sds st !! p) →
  (∀ c, c ∈ children st p → named st c) →
  sysfs_dirent_exist st p new
  = Some (if decide (new ∈ entry_names st (children st p)) then - EEXIST else 0).
Proof.
  intros [psd Hp] Hn. unfold sysfs_dirent_exist. rewrite Hp.
  cbn [mbind option_bind]. rewrite <- (children_lookup _ _ _ Hp).
  by apply dirent_exist_loop_spec.
Qed.

Lemma dir_ok_dentry dir p st :
  dir_ok dir p st → ∃ pde, dentries st !! dir = Some pde ∧ d_fsdata pde = Some p.
Proof.
  intros (H1 & _). destruct (dentries st !! dir) as [pde|]; [|done].
  by exists pde.
Qed.

Lemma dir_ok_exist dir p st new :
  dir_ok dir p st →
  sysfs_dirent_exist st p new
  = Some (if decide (new ∈ entry_names st (children st p)) then - EEXIST else 0).
Proof.
  intros (_ & H2 & H3 & _). apply dirent_exist_spec; [done|].
  intros c Hc. by apply H3.
Qed.

Lemma create_dir_exist d a cr ino k dir n st p :
  dir_ok dir p st →
  n ∈ entry_names st (children st p) →
  create_dir (inr d) a cr ino k dir n st = Some (- EEXIST, Some d, st).
Proof.
  intros Hok Hin. destruct (dir_ok_dentry _ _ _ Hok) as (pde & Hpde & Hfs).
  unfold create_dir. rewrite Hpde. cbn [mbind option_bind]. rewrite Hfs.
  cbn [mbind option_bind]. rewrite (dir_ok_exist _ _ _ _ Hok).
  rewrite decide_True by done. reflexivity.
Qed.

Lemma create_dir_nomem d cr ino k dir n st p de :
  dir_ok dir p st →
  n ∉ entry_names st (children st p) →
  dentries st !! d = Some de →
  create_dir (inr d) None cr ino k dir n st
  = Some (- ENOMEM, Some d,
          match d_fsdata de with Some sd => remove sd st | None => st end).
Proof.
  intros Hok Hnin Hde. destruct (dir_ok_dentry _ _ _ Hok) as (pde & Hpde & Hfs).
  unfold create_dir. rewrite Hpde. cbn [mbind option_bind]. rewrite Hfs.
  cbn [mbind option_bind]. rewrite (dir_ok_exist _ _ _ _ Hok).
  rewrite decide_False by done. cbn [mbind option_bind].
  rewrite make_dirent_nomem. simpl. rewrite Hde. simpl.
  by destruct (d_fsdata de).
Qed.

Lemma create_dir_linked d x cr ino k dir n st p de :
  dir_ok dir p st →
  n ∉ entry_names st (children st p) →
  sds st !! x = None →
  dentries st !! d = Some de →
  d ≠ dir →
  create_dir (inr d) (Some x) cr ino k dir n st
  = if cr =? 0 then
      _ ← dentries st !! dir ≫= d_inode;
      Some (0, Some d, materialised ino d dir (linked x p d k st))
    else if cr =? - EEXIST then Some (cr, Some d, linked x p d k st)
    else Some (cr, Some d, remove x (linked x p d k st)).
Proof.
  intros Hok Hnin Hx Hde Hd.
  destruct (dir_ok_dentry _ _ _ Hok) as (pde & Hpde & Hfs).
  pose proof Hok as (_ & Hp & _).
  unfold linked, materialised.
  destruct (make_dirent_spec x p (Some d) (Kobj k) dir_mode SYSFS_DIR st Hx Hp)
    as (st1 & Hmk & Hx1 & Hothers & Hd1 & Hk1).
  unfold create_dir. rewrite Hpde. cbn [mbind option_bind]. rewrite Hfs.
  cbn [mbind option_bind]. rewrite (dir_ok_exist _ _ _ _ Hok).
  rewrite decide_False by done. cbn [mbind option_bind].
  rewrite Hmk. cbn [negb Z.eqb snd]. unfold sysfs_create.
  destruct (cr =? 0) eqn:Hcr.
  - cbn [Z.eqb mbind option_bind dentries with_dentries].
    rewrite lookup_alter_ne by done. rewrite Hd1, lookup_alter_ne by done.
    rewrite Hpde. cbn [mbind option_bind].
    destruct (d_inode pde); reflexivity.
  - rewrite Hcr. cbn [mbind option_bind negb andb].
    destruct (cr =? - EEXIST) eqn:Hex; rewrite ?Hcr; cbn [negb andb mbind option_bind].
    + done.
    + rewrite Hd1, lookup_alter_eq, Hde. reflexivity.
Qed.

Lemma linked_ok dir p st x d k de :
  dir_ok dir p st →
  d_name de ∉ entry_names st (children st p) →
  sds st !! x = None →
  dentries st !! d = Some de →
  d ≠ dir →
  dir_ok dir p (linked x p d k st) ∧
  children (linked x p d k st) p = x :: children st p ∧
  name_of (linked x p d k st) x = Some (d_name de) ∧
  names_kept st (linked x p d k st).
Proof.
  intros Hok Hnin Hx Hde Hd. pose proof Hok as (H1 & H2 & H3 & H4).
  unfold linked.
  destruct (make_dirent_spec x p (Some d) (Kobj k) dir_mode SYSFS_DIR st Hx H2)
    as (st1 & -> & Hx1 & Hothers & Hd1 & Hk1). cbn [snd].
  assert (x ≠ p) as Hxp.
  { intros ->. destruct H2 as [? H2]. rewrite Hx in H2. done. }
  assert (Hnotx : ∀ c, c ∈ children st p → c ≠ x).
  { intros c Hc ->. destruct (H3 x Hc) as [_ (sd & Hsd & _)].
    rewrite Hx in Hsd. done. }
  destruct H2 as [psd H2].
  assert (Hp' : sds st1 !! p = Some (set_children (cons x) psd)).
  { rewrite Hothers by done. rewrite decide_True by done. by rewrite H2. }
  assert (Hch : children st1 p = x :: children st p).
  { rewrite (children_lookup _ _ _ Hp'), (children_lookup _ _ _ H2). done. }
  assert (Hid : ∀ c, c ∈ children st p →
                  ident <$> sds st1 !! c = ident <$> sds st !! c).
  { intros c Hc. rewrite Hothers by (by apply Hnotx).
    destruct (decide (p = c)); by destruct (sds st !! c). }
  assert (Hn : names_kept st st1).
  { by apply (names_kept_alter (set_fsdata (Some x)) d). }
  assert (Hname : name_of st1 x = Some (d_name de)).
  { rewrite (name_of_named st1 x _ Hx1) by done.
    unfold sysfs_get_name. cbn. rewrite Hd1, lookup_alter_eq, Hde. done. }
  split; [|done].
  apply (dir_ok_cons dir p st st1 x (d_name de) Hok); try done;
    first [by rewrite Hd1, lookup_alter_ne by done|by eexists].
Qed.

Lemma materialised_ok ino dir p d st :
  dir_ok dir p st → d ≠ dir → dir_ok dir p (materialised ino d dir st).
Proof.
  intros Hok Hd. pose proof Hok as (H1 & H2 & H3 & H4).
  destruct (dir_ok_dentry _ _ _ Hok) as (pde & Hpde & Hfs).
  unfold materialised, sysfs_create. cbn.
  apply (dir_ok_frame dir p st); try done.
  - intros d'. cbn. rewrite !lookup_alter.
    destruct (decide (dir = d')) as [->|Hne].
    + rewrite decide_False by done. by destruct (dentries st !! d').
    + destruct (decide (d = d')) as [->|Hne']; [|done].
      by destruct (dentries st !! d').
  - cbn. rewrite lookup_alter_eq, lookup_alter_ne by done.
    rewrite Hpde. done.
Qed.

Lemma step_make_dir_ok dir p st lk a cr ino k n e d st' :
  dir_ok dir p st →
  fresh st a →
  looked_up st dir p n lk →
  create_dir lk a cr ino k dir n st = Some (e, d, st') →
  dir_ok dir p st'.
Proof.
  intros Hok Hfresh Hlk. destruct lk as [err|d0]; [by intros [= <- <- <-]|].
  destruct (Hlk d0 eq_refl) as (Hd0 & de & Hde & Hname & Hfs).
  destruct (decide (n ∈ entry_names st (children st p))) as [Hin|Hnin].
  { rewrite (create_dir_exist _ _ _ _ _ _ _ _ p Hok Hin). by intros [= <- <- <-]. }
  destruct a as [x|].
  - rewrite (create_dir_linked d0 x cr ino k dir n st p de Hok Hnin
               (Hfresh x eq_refl) Hde Hd0).
    subst n.
    destruct (linked_ok dir p st x d0 k de Hok Hnin (Hfresh x eq_refl) Hde Hd0)
      as (Hok1 & Hch1 & _).
    destruct (cr =? 0).
    + destruct (dentries st !! dir ≫= d_inode); [|done].
      cbn [mbind option_bind]. intros [= <- <- <-].
      by apply materialised_ok.
    + destruct (cr =? - EEXIST); intros [= <- <- <-]; [done|].
      apply dir_ok_remove; [done|].
      intros ->. pose proof Hok as (_ & [? H2] & _).
      rewrite (Hfresh p eq_refl) in H2. done.
  - rewrite (create_dir_nomem d0 cr ino k dir n st p de Hok Hnin Hde).
    intros [= <- <- <-]. destruct (d_fsdata de) as [sd|] eqn:E; [|done].
    apply dir_ok_remove; [done|]. congruence.
Qed.

Lemma step_ok dir p st o st' :
  dir_ok dir p st → step dir p st o st' → dir_ok dir p st'.
Proof.
  intros Hok Hstep. destruct Hstep as [st a attr type e st' Hf Ht Hadd
                                      |st lk a cr ino k n e d st' Hf Hlk Hmk
                                      |st c Hc].
  - by apply (step_add_file_ok dir p st a attr type e st').
  - by apply (step_make_dir_ok dir p st lk a cr ino k n e d st').
  - apply dir_ok_remove; [done|]. destruct Hok as (_ & _ & H3 & _).
    by destruct (H3 c Hc).
Qed.

Lemma steps_ok dir p st os st' :
  dir_ok dir p st → steps dir p st os st' → dir_ok dir p st'.
Proof.
  intros Hok Hsteps. induction Hsteps as [st|st o st' os st'' Hstep _ IH];
    [done|]. apply IH. by apply (step_ok dir p st o).
Qed.

Lemma unique_after_unlink (f : nat → option string) c n l :
  NoDup (omap f l) → c ∈ l → f c = Some n → n ∉ omap f (unlink c l).
Proof.
  intros Hnd Hc Hf. induction l as [|y l IH]; [by apply elem_of_nil in Hc|].
  assert (Hsub : ∀ l', omap f (unlink c l') ⊆ omap f l').
  { intros l' m. rewrite !list_elem_of_omap.
    intros (z & [_ Hz]%elem_of_unlink & Hm). by exists z. }
  change (omap f (y :: l)) with
    (match f y with Some m => m :: omap f l | None => omap f l end) in Hnd.
  destruct (decide (y = c)) as [->|Hne].
  - rewrite unlink_cons_eq. rewrite Hf in Hnd.
    apply NoDup_cons in Hnd as [Hnin _]. intros Hin. by apply Hnin, Hsub.
  - apply elem_of_cons in Hc as [->|Hc]; [done|].
    unfold unlink. rewrite filter_cons_True by done. fold (unlink c l).
    change (omap f (y :: unlink c l)) with
      (match f y with Some m => m :: omap f (unlink c l)
                 | None => omap f (unlink c l) end).
    destruct (f y) as [m|] eqn:Hy.
    + apply NoDup_cons in Hnd as [Hnin Hnd].
      intros [->|Hin]%elem_of_cons.
      * apply Hnin. apply list_elem_of_omap. by exists c.
      * by apply IH.
    + by apply IH.
Qed.

(** C5. Under one parent, creating a file or a directory whose name is
    byte for byte that of a live child fails with [-EEXIST] and leaves
    the tree as it was (for a directory, [d] is the dentry that the
    host's lookup of the name has answered). Hence after any sequence of
    creations and removals under that parent no two live children share
    a name; the
    duplicate check answers [-EEXIST] for a name right after the file of
    that name has been created, and zero right after the child of that
    name has been removed. *)
Theorem names_stay_unique dir p st os st' :
  dir_ok dir p st →
  steps dir p st os st' →
  unique_names st' p ∧
  (∀ a attr type,
     attr_name (deref attr) ∈ entry_names st' (children st' p) →
     sysfs_add_file a dir attr type st' = Some (- EEXIST, st')) ∧
  (∀ d a cr ino k n,
     n ∈ entry_names st' (children st' p) →
     create_dir (inr d) a cr ino k dir n st' = Some (- EEXIST, Some d, st')) ∧
  (∀ a attr type st'',
     sds st' !! a = None →
     type = SYSFS_KOBJ_ATTR ∨ type = SYSFS_KOBJ_BIN_ATTR →
     sysfs_add_file (Some a) dir attr type st' = Some (0, st'') →
     sysfs_dirent_exist st'' p (attr_name (deref attr)) = Some (- EEXIST)) ∧
  (∀ c n,
     c ∈ children st' p → name_of st' c = Some n →
     sysfs_dirent_exist (remove c st') p n = Some 0).
Proof.
  intros Hok0 Hsteps. pose proof (steps_ok dir p st os st' Hok0 Hsteps) as Hok.
  split; [by destruct Hok as (_ & _ & _ & ?)|]. split; [|split; [|split]].
  - intros a attr type Hin. rewrite (add_file_spec _ _ _ _ _ p Hok).
    by rewrite decide_True.
  - intros d a cr ino k n Hin. by apply (create_dir_exist _ _ _ _ _ _ _ _ p).
  - intros a attr type st'' Ha Htype Hadd.
    destruct (add_file_linked dir p st' a attr type st'' Hok Ha Htype Hadd)
      as (Hok'' & _ & _ & Hnames & _).
    rewrite (dir_ok_exist _ _ _ _ Hok''), Hnames.
    rewrite decide_True; [done|]. left.
  - intros c n Hc Hn. pose proof Hok as (_ & [psd Hp] & H3 & Hnd).
    destruct (H3 c Hc) as [Hcp _].
    pose proof (dir_ok_remove dir p st' c Hok Hcp) as Hok'.
    rewrite (dir_ok_exist _ _ _ _ Hok').
    assert (Hch : children (remove c st') p = unlink c (children st' p)).
    { unfold children, remove, list_del_init.
      rewrite lookup_sysfs_put_ne, lookup_list_del by done. by rewrite Hp. }
    rewrite Hch.
    rewrite (entry_names_frame st' (remove c st')).
    + rewrite decide_False; [done|].
      by apply (unique_after_unlink (name_of st') c n).
    + apply names_kept_same. unfold remove. by rewrite dentries_sysfs_put.
    + intros c' [Hc' _]%elem_of_unlink. unfold remove, list_del_init.
      rewrite lookup_sysfs_put_ne, lookup_list_del by done.
      by destruct (sds st' !! c').
Qed.

Lemma sample_root_ok : dir_ok 0 0 sample_root.
Proof.
  split; [reflexivity|]. split; [by eexists|]. split.
  - intros c Hc. by apply elem_of_nil in Hc.
  - apply NoDup_nil_2.
Qed.

Ltac fresh_here := intros ? [= <-]; vm_compute; reflexivity.

Lemma names_stay_unique_witness :
  ∃ st',
    steps 0 0 sample_root
      [AddFile (Some 1%nat) attr_a SYSFS_KOBJ_ATTR;
       AddFile (Some 2%nat) attr_b SYSFS_KOBJ_ATTR;
       AddFile (Some 3%nat) attr_a SYSFS_KOBJ_ATTR;
       Remove 1%nat] st' ∧
    unique_names st' 0 ∧
    sysfs_add_file (Some 9%nat) 0 attr_b SYSFS_KOBJ_ATTR st'
      = Some (- EEXIST, st').
Proof.
  eexists.
  eassert (steps 0 0 sample_root
            [AddFile (Some 1%nat) attr_a SYSFS_KOBJ_ATTR;
             AddFile (Some 2%nat) attr_b SYSFS_KOBJ_ATTR;
             AddFile (Some 3%nat) attr_a SYSFS_KOBJ_ATTR;
             Remove 1%nat] _) as Hsteps.
  { eapply steps_cons;
      [eapply step_add_file; [fresh_here|by left|vm_compute; reflexivity]|].
    eapply steps_cons;
      [eapply step_add_file; [fresh_here|by left|vm_compute; reflexivity]|].
    eapply steps_cons;
      [eapply step_add_file; [fresh_here|by left|vm_compute; reflexivity]|].
    eapply steps_cons; [|apply steps_nil].
    apply step_remove. vm_compute. repeat constructor. }
  split; [exact Hsteps|].
  destruct (names_stay_unique 0 0 sample_root _ _ sample_root_ok Hsteps)
    as (H1 & H2 & _).
  split; [exact H1|]. apply H2. vm_compute. repeat constructor.
Defined.

(** *** Enumeration *)

Lemma same_nodes_refl st : same_nodes st st.
Proof. by split. Qed.

Lemma same_nodes_trans st1 st2 st3 :
  same_nodes st1 st2 → same_nodes st2 st3 → same_nodes st1 st3.
Proof.
  intros [Hd12 Hn12] [Hd23 Hn23]. split; [congruence|].
  intros c. by rewrite Hn23, Hn12.
Qed.

Lemma same_nodes_list_del st x : same_nodes st (list_del x st).
Proof.
  split; [done|]. intros c. rewrite lookup_list_del.
  by destruct (sds st !! c).
Qed.

Lemma same_nodes_list_add st x h : same_nodes st (list_add x h st).
Proof.
  split; [by destruct h|]. intros c. destruct h as [p|y].
  - rewrite lookup_list_add_head.
    destruct (decide (p = c)); by destruct (sds st !! c).
  - rewrite lookup_list_add_sibling. by destruct (sds st !! c).
Qed.

Lemma same_nodes_list_add_tail st x h : same_nodes st (list_add_tail x h st).
Proof.
  split; [by destruct h|]. intros c. destruct h as [p|y]; simpl.
  - rewrite lookup_alter. destruct (decide (p = c)) as [->|Hne]; [|done].
    by destruct (sds st !! c).
  - rewrite lookup_fmap. by destruct (sds st !! c).
Qed.

Lemma same_nodes_list_move st x h : same_nodes st (list_move x h st).
Proof.
  unfold list_move. eapply same_nodes_trans;
    [apply same_nodes_list_del|apply same_nodes_list_add].
Qed.

Lemma same_nodes_names st st' : same_nodes st st' → names_kept st st'.
Proof. intros [Hd _]. by apply names_kept_same. Qed.

Lemma same_nodes_name_of st st' c :
  same_nodes st st' → name_of st' c = name_of st c.
Proof.
  intros Hs. apply name_of_frame; [by apply same_nodes_names|].
  by destruct Hs as [_ Hs].
Qed.

Lemma same_nodes_payloadless st st' c :
  same_nodes st st' → payloadless st' c = payloadless st c.
Proof.
  intros [_ Hs]. specialize (Hs c). unfold payloadless.
  destruct (sds st' !! c) as [sd'|], (sds st !! c) as [sd|];
    simpl in Hs; try done.
  assert (Hi : ident sd' = ident sd) by congruence.
  by rewrite (ident_element _ _ Hi).
Qed.

Lemma children_list_move_head st q p :
  is_Some (sds st !! p) →
  children (list_move q (Head p) st) p = q :: unlink q (children st p).
Proof.
  intros [psd Hp]. unfold list_move.
  rewrite children_list_add_head, children_list_del; [done|].
  rewrite lookup_list_del, Hp. by eexists.
Qed.

(** What the loop tells a [filldir] that takes every entry: the names
    of the entries that have a payload, in the order of the list. *)
Lemma readdir_loop_all iu q rest :
  ∀ pos buf st0 st,
    same_nodes st0 st →
    (∀ c, c ∈ rest → listable st0 c) →
    ∃ buf' st',
      readdir_loop filldir_all iu q rest pos buf st
        = Some (pos + Z.of_nat (length (entry_names st0 rest)),
                buf ++ buf', st') ∧
      de_name <$> buf' = entry_names st0 rest ∧
      same_nodes st0 st'.
Proof.
  induction rest as [|p rest IH]; intros pos buf st0 st Hs Hl.
  - exists [], st. simpl. rewrite Z.add_0_r, app_nil_r. done.
  - destruct (Hl p) as (sd0 & Hsd0 & Hls); [left|].
    assert (Hl' : ∀ c, c ∈ rest → listable st0 c)
      by (intros; apply Hl; by right).
    pose proof Hs as [Hd Hn]. pose proof (Hn p) as Hp. rewrite Hsd0 in Hp.
    destruct (sds st !! p) as [sd|] eqn:Hsd; [|done]. simpl in Hp.
    assert (Hi : ident sd = ident sd0) by congruence.
    pose proof (ident_element _ _ Hi) as He.
    rewrite entry_names_cons. unfold name_of. rewrite Hsd0.
    cbn [readdir_loop mbind option_bind]. rewrite Hsd.
    cbn [mbind option_bind]. rewrite He.
    destruct (s_element sd0) as [el|] eqn:Hel; cbn [mbind option_bind].
    + destruct Hls as [[nm Hnm] Hino]; [done|].
      rewrite (sysfs_get_name_frame st0 st sd0 sd (same_nodes_names _ _ Hs) Hi).
      rewrite Hnm. cbn [mbind option_bind].
      assert (s_dentry sd = s_dentry sd0) as -> by (unfold ident in Hi; congruence).
      assert (∃ ino,
                match s_dentry sd0 with
                | Some d => i ← dentries st !! d ≫= d_inode; Some (i_ino i)
                | None => Some (iu p)
                end = Some ino) as [ino ->].
      { destruct (s_dentry sd0) as [d|] eqn:Hde; [|by eexists].
        destruct (Hino d eq_refl) as [i Hi']. rewrite Hd, Hi'. by eexists. }
      cbn [mbind option_bind]. unfold filldir_all at 1. cbn [Z.ltb Z.compare].
      destruct (IH (pos + 1)
                  (buf ++ [{| de_name := nm; de_len := strlen nm; de_off := pos;
                              de_ino := ino; de_type := dt_type sd |}])
                  st0 (list_move q (Sibling p) st))
        as (buf' & st' & Hrec & Hnames & Hs'); [|done|].
      { eapply same_nodes_trans; [exact Hs|apply same_nodes_list_move]. }
      rewrite Hrec. eexists (_ :: buf'), st'. split; [|split; [|done]].
      * rewrite <- app_assoc. simpl. do 3 f_equal. lia.
      * rewrite fmap_cons, Hnames. done.
    + destruct (IH pos buf st0 st Hs Hl') as (buf' & st' & Hrec & Hnames & Hs').
      rewrite Hrec. by exists buf', st'.
Qed.

(** Files created one after the other end up in the list latest first. *)
Lemma create_files_order dir p specs :
  ∀ st st',
    dir_ok dir p st →
    NoDup specs.*1 →
    (∀ x, x ∈ specs.*1 → sds st !! x = None) →
    create_files dir specs st = Some st' →
    dir_ok dir p st' ∧
    children st' p = reverse specs.*1 ++ children st p ∧
    entry_names st' (children st' p)
      = reverse ((λ s, attr_name (deref s.2)) <$> specs)
          ++ entry_names st (children st p).
Proof.
  induction specs as [|[x attr] specs IH]; intros st st' Hok Hnd Hfresh.
  - intros [= <-]. done.
  - cbn [create_files]. rewrite fmap_cons in Hnd, Hfresh.
    apply NoDup_cons in Hnd as [Hx Hnd]. cbn [fst] in *.
    destruct (sysfs_add_file (Some x) dir attr SYSFS_KOBJ_ATTR st)
      as [[e st1]|] eqn:Hadd; [|done]. cbn [mbind option_bind].
    destruct (e =? 0) eqn:He; [|done]. apply Z.eqb_eq in He. subst e.
    intros Hrest.
    destruct (add_file_linked dir p st x attr SYSFS_KOBJ_ATTR st1 Hok)
      as (Hok1 & Hch1 & _ & Hnames1 & Hnone); [apply Hfresh; left|by left|done|].
    destruct (IH st1 st' Hok1 Hnd) as (Hok' & Hch' & Hnames'); [|done|].
    { intros y Hy. apply Hnone; [|apply Hfresh; by right].
      intros ->. done. }
    split; [done|]. split.
    + rewrite Hch', Hch1. rewrite !fmap_cons, !reverse_cons, <- !app_assoc. done.
    + rewrite Hnames', Hnames1.
      rewrite !fmap_cons, !reverse_cons, <- !app_assoc. done.
Qed.

(** C6 (as amended). A successful create, of a file or of a directory,
    links the new node at the FRONT of the parent's children list, so
    that files created one after the other stand in the list latest
    first; and directory enumeration reports, after "." and "..", the
    live children in the order of the list, front to back. Enumeration
    order is thus the reverse of creation order: most recently created
    first, not sorted by name. *)
Theorem created_in_front_enumerated_in_list_order dir p st :
  dir_ok dir p st →
  (∀ x attr type st',
     sds st !! x = None →
     type = SYSFS_KOBJ_ATTR ∨ type = SYSFS_KOBJ_BIN_ATTR →
     sysfs_add_file (Some x) dir attr type st = Some (0, st') →
     children st' p = x :: children st p) ∧
  (∀ d x cr ino k n st',
     sds st !! x = None →
     looked_up st dir p n (inr d) →
     create_dir (inr d) (Some x) cr ino k dir n st = Some (0, Some d, st') →
     children st' p = x :: children st p) ∧
  (∀ specs st',
     NoDup specs.*1 →
     (∀ x, x ∈ specs.*1 → sds st !! x = None) →
     create_files dir specs st = Some st' →
     children st' p = reverse specs.*1 ++ children st p ∧
     entry_names st' (children st' p)
       = reverse ((λ s, attr_name (deref s.2)) <$> specs)
           ++ entry_names st (children st p)) ∧
  (∀ iu filp q de i pde pi,
     f_dentry filp = dir →
     f_pos filp = 0 →
     private_data filp = Some q →
     payloadless st q = true →
     dentries st !! dir = Some de → d_inode de = Some i →
     dentries st !! d_parent de = Some pde → d_inode pde = Some pi →
     (∀ c, c ∈ children st p → listable st c) →
     ∃ filp' buf st',
       sysfs_readdir filldir_all iu filp [] st = Some (0, filp', buf, st') ∧
       de_name <$> buf = "." :: ".." :: entry_names st (children st p)).
Proof.
  intros Hok. split; [|split; [|split]].
  - intros x attr type st' Hx Htype Hadd.
    by destruct (add_file_linked dir p st x attr type st' Hok Hx Htype Hadd)
      as (_ & ? & _).
  - intros d x cr ino k n st' Hx Hlk.
    destruct (Hlk d eq_refl) as (Hd & de & Hde & Hname & Hfs).
    destruct (decide (n ∈ entry_names st (children st p))) as [Hin|Hnin].
    { by rewrite (create_dir_exist _ _ _ _ _ _ _ _ p Hok Hin). }
    rewrite (create_dir_linked d x cr ino k dir n st p de Hok Hnin Hx Hde Hd).
    subst n.
    destruct (linked_ok dir p st x d k de Hok Hnin Hx Hde Hd) as (_ & Hch & _).
    destruct (cr =? 0) eqn:Hcr.
    + destruct (dentries st !! dir ≫= d_inode); [|done].
      cbn [mbind option_bind]. intros [= <-]. exact Hch.
    + destruct (cr =? - EEXIST); intros [= E]; apply Z.eqb_neq in Hcr; done.
  - intros specs st' Hnd Hfresh Hcreate.
    by destruct (create_files_order dir p specs st st' Hok Hnd Hfresh Hcreate)
      as (_ & ? & ?).
  - intros iu filp q de i pde pi Hdir Hpos Hq Hpl Hde Hi Hpde Hpi Hl.
    pose proof Hok as (H1 & H2 & _). rewrite Hde in H1. simpl in H1.
    unfold sysfs_readdir. rewrite Hpos. cbv zeta.
    change (int_wrap 0) with 0. cbn [Z.eqb].
    unfold readdir_dot. change (int_wrap (0 + 1)) with 1.
    rewrite Hdir, Hde. cbn [mbind option_bind].
    rewrite Hi. cbn [mbind option_bind]. unfold filldir_all at 1.
    cbn [Z.ltb Z.compare].
    unfold readdir_dotdot. cbn [set_pos f_dentry f_pos]. rewrite Hdir, Hde.
    cbn [mbind option_bind]. rewrite Hpde. cbn [mbind option_bind].
    rewrite Hpi. cbn [mbind option_bind]. unfold filldir_all at 1.
    cbn [Z.ltb Z.compare].
    unfold readdir_default. cbn [set_pos f_dentry f_pos private_data].
    rewrite Hdir, Hde. cbn [mbind option_bind]. rewrite H1, Hq, Hpos.
    cbn [mbind option_bind].
    change (0 + 1 + 1) with 2. change (0 + 1) with 1.
    change (2 =? 2) with true. cbv iota.
    rewrite (children_list_move_head _ _ _ H2), after_head.
    destruct (readdir_loop_all iu q (unlink q (children st p)) 2
                (([] ++ [{| de_name := "."; de_len := 1; de_off := 0;
                            de_ino := i_ino i; de_type := DT_DIR |}])
                    ++ [{| de_name := ".."; de_len := 2; de_off := 1;
                           de_ino := i_ino pi; de_type := DT_DIR |}])
                st (list_move q (Head p) st))
      as (buf' & st' & Hloop & Hnames & _).
    { apply same_nodes_list_move. }
    { intros c [_ Hc]%elem_of_unlink. by apply Hl. }
    rewrite Hloop. cbn [mbind option_bind].
    do 3 eexists. split; [reflexivity|].
    rewrite !fmap_app, Hnames. cbn.
    by rewrite (entry_names_unlink st q _ (name_of_payloadless _ _ Hpl)).
Qed.

Lemma created_in_front_enumerated_in_list_order_witness :
  ∃ st',
    create_files 0 [(1%nat, attr_a); (2%nat, attr_b)] sample_root = Some st' ∧
    children st' 0 = [2%nat; 1%nat] ∧
    entry_names st' (children st' 0) = ["b"; "a"].
Proof.
  eexists.
  eassert (create_files 0 [(1%nat, attr_a); (2%nat, attr_b)] sample_root
           = Some _) as Hcreate by (vm_compute; reflexivity).
  split; [exact Hcreate|].
  destruct (created_in_front_enumerated_in_list_order 0 0 sample_root
              sample_root_ok) as (_ & _ & H3 & _).
  apply (H3 [(1%nat, attr_a); (2%nat, attr_b)]); [| |exact Hcreate].
  - vm_compute. repeat constructor; intros H; inversion H as [|? ? ? H']; inversion H'.
  - intros x Hx. vm_compute in Hx.
    repeat (apply elem_of_cons in Hx as [->|Hx]; [reflexivity|]).
    by apply elem_of_nil in Hx.
Defined.

(** C6 as stated fails: "b", created after "a", is linked before it and
    not appended after it, and the enumeration reports "b" before "a". *)
Lemma created_last_enumerated_first :
  ∃ filp st filp' buf st',
    two_files = Some (filp, st) ∧
    children st 0 = [3%nat; 2%nat; 1%nat] ∧
    entry_names st (children st 0) = ["b"; "a"] ∧
    sysfs_readdir filldir_all sample_iunique filp [] st
      = Some (0, filp', buf, st') ∧
    de_name <$> buf = ["."; ".."; "b"; "a"].
Proof.
  do 5 eexists. repeat (split; [vm_compute; reflexivity|]).
  vm_compute; reflexivity.
Qed.

(** *** Renaming *)

(** X24. The refusals of [sysfs_rename_dir]. Renaming an object
    directory to its own current name fails with [-EINVAL]; renaming an
    object without a parent fails with [-EINVAL]; and renaming to a
    name for which the lookup under the parent answers a dentry that
    has an inode fails with [-EEXIST]. In each case nothing is changed:
    the object and the node of its directory keep their name, and the
    node its place among its parent's children. *)
Theorem rename_refusals lk sn kobj new_name st ko :
  kobjs st !! kobj = Some ko →
  (k_name ko = new_name →
   sysfs_rename_dir lk sn kobj new_name st = Some (- EINVAL, st)) ∧
  (k_parent ko = None →
   sysfs_rename_dir lk sn kobj new_name st = Some (- EINVAL, st)) ∧
  (∀ pk parent nd de i,
     k_name ko ≠ new_name →
     k_parent ko = Some pk →
     kobjs st !! pk ≫= k_dentry = Some parent →
     lk = inr nd →
     dentries st !! nd = Some de →
     d_inode de = Some i →
     sysfs_rename_dir lk sn kobj new_name st = Some (- EEXIST, st)).
Proof.
  intros Hko. unfold sysfs_rename_dir. rewrite Hko. cbn [mbind option_bind].
  split; [|split].
  - intros ->. by rewrite strcmp_refl.
  - intros ->. by destruct (strcmp (k_name ko) new_name =? 0).
  - intros pk parent nd de i Hne Hpk Hparent -> Hde Hi.
    destruct (strcmp (k_name ko) new_name =? 0) eqn:E.
    { apply Z.eqb_eq, strcmp_eq in E. done. }
    rewrite Hpk, Hparent. cbn [mbind option_bind]. rewrite Hde.
    cbn [mbind option_bind]. by rewrite Hi.
Qed.

Lemma rename_refusals_witness :
  sysfs_rename_dir (inr 10%nat) 0 8 "dev" two_dirs = Some (- EINVAL, two_dirs) ∧
  sysfs_rename_dir (inr 11%nat) 0 7 "sys" two_dirs = Some (- EINVAL, two_dirs) ∧
  sysfs_rename_dir (inr 11%nat) 0 8 "net" two_dirs = Some (- EEXIST, two_dirs) ∧
  name_of two_dirs 1 = Some "dev" ∧
  children two_dirs 0 = [2%nat; 1%nat].
Proof.
  split; [|split; [|split]].
  - apply (proj1 (rename_refusals (inr 10%nat) 0 8 "dev" two_dirs
             {| k_name := "dev"; k_parent := Some 7%nat; k_dentry := Some 10%nat |}
             eq_refl)).
    reflexivity.
  - apply (proj1 (proj2 (rename_refusals (inr 11%nat) 0 7 "sys" two_dirs
             {| k_name := "/"; k_parent := None; k_dentry := Some 0%nat |}
             eq_refl))).
    reflexivity.
  - eapply (proj2 (proj2 (rename_refusals (inr 11%nat) 0 8 "net" two_dirs
              {| k_name := "dev"; k_parent := Some 7%nat; k_dentry := Some 10%nat |}
              eq_refl)));
      [discriminate|reflexivity..].
  - split; reflexivity.
Defined.

(** C7. The directory "dev" renamed to "a", the name of a file that its
    parent holds, while the lookup of the new name fails for want of
    memory: the rename answers 0, as if it had succeeded, and nothing
    is renamed. ([create_dir] hands on the error of a failed lookup,
    and [sysfs_chmod_file] and [sysfs_update_file] answer [-ENOENT].) *)
Lemma rename_to_taken_name_answers_zero :
  ∃ st,
    two_dirs_with_file = Some st ∧
    entry_names st (children st 0) = ["a"; "net"; "dev"] ∧
    sysfs_rename_dir (inl (- ENOMEM)) 0 8 "a" st = Some (0, st) ∧
    name_of st 1 = Some "dev".
Proof.
  eexists. split; [vm_compute; reflexivity|].
  split; [vm_compute; reflexivity|]. split; vm_compute; reflexivity.
Qed.

(** *** A creation that fails half way *)

Lemma linked_node x p d k st :
  sds st !! x = None → is_Some (sds st !! p) →
  sds (linked x p d k st) !! x
    = Some (set_count (λ c, c + 1) (leftover d k)) ∧
  (∀ c, c ≠ x →
        sds (linked x p d k st) !! c
        = (if decide (p = c) then set_children (cons x) else id)
            <$> sds st !! c) ∧
  dentries (linked x p d k st) = alter (set_fsdata (Some x)) d (dentries st) ∧
  kobjs (linked x p d k st) = kobjs st.
Proof.
  intros Hx Hp. unfold linked.
  destruct (make_dirent_spec x p (Some d) (Kobj k) dir_mode SYSFS_DIR st Hx Hp)
    as (st1 & -> & Hx1 & Hothers & Hd1 & Hk1). done.
Qed.

(** C8. When [create_dir] fails after the new node has been linked into
    the parent's children, it unlinks the node and drops one of its two
    references before it returns the error: the children of
    the parent are what they were, and what is left of the node, still
    held by the dentry, is on no list. The failure after the linking is
    that of [sysfs_create], which answers [-EEXIST] only for a dentry
    that already has an inode; and a dentry with an inode that the
    lookup answers for a name belongs to a child of that name, for
    which the duplicate check refuses before anything is linked. (An
    [-EEXIST] from the duplicate check changes nothing.) *)
Theorem failed_create_dir_unwinds d x cr ino k dir n st p de :
  dir_ok dir p st →
  sds st !! x = None → unreferenced st x →
  dentries st !! d = Some de → d ≠ dir →
  cr ≠ 0 →
  (cr = - EEXIST → is_Some (d_inode de)) →
  (is_Some (d_inode de) → n ∈ entry_names st (children st p)) →
  (n ∈ entry_names st (children st p) →
   create_dir (inr d) (Some x) cr ino k dir n st = Some (- EEXIST, Some d, st)) ∧
  (n ∉ entry_names st (children st p) →
   x ∈ children (linked x p d k st) p ∧
   ∃ st',
     create_dir (inr d) (Some x) cr ino k dir n st = Some (cr, Some d, st') ∧
     st' = remove x (linked x p d k st) ∧
     children st' p = children st p ∧
     sds st' = <[x := leftover d k]> (sds st) ∧
     unreferenced st' x).
Proof.
  intros Hok Hx Hun Hde Hd Hcr Hhost Hbound. split.
  { intros Hin. by apply (create_dir_exist _ _ _ _ _ _ _ _ p). }
  intros Hnin. pose proof Hok as (_ & Hp & _).
  assert (Hex : cr ≠ - EEXIST) by (intros E; by apply Hnin, Hbound, Hhost).
  destruct (linked_node x p d k st Hx Hp) as (Hx1 & Hothers & Hd1 & Hk1).
  assert (x ≠ p) as Hxp.
  { intros ->. destruct Hp as [? Hp]. rewrite Hx in Hp. done. }
  destruct Hp as [psd Hp].
  assert (Hsds : sds (remove x (linked x p d k st))
                 = <[x := leftover d k]> (sds st)).
  { apply map_eq. intros c. unfold remove, list_del_init.
    destruct (decide (c = x)) as [->|Hc].
    - rewrite lookup_insert_eq.
      rewrite (lookup_sysfs_put_held _ x
                 (set_children (unlink x) (set_count (λ c, c + 1) (leftover d k)))).
      + done.
      + by rewrite lookup_list_del, Hx1.
      + done.
    - rewrite lookup_insert_ne by done.
      rewrite lookup_sysfs_put_ne, lookup_list_del, Hothers by done.
      destruct (sds st !! c) as [sd|] eqn:Hsd; [|done]. simpl. f_equal.
      pose proof (Hun c sd Hsd) as Hnotin.
      destruct (decide (p = c)) as [->|Hpc].
      + destruct sd. unfold set_children. simpl in *.
        by rewrite unlink_cons_eq, unlink_notin.
      + destruct sd. unfold set_children. simpl in *.
        by rewrite unlink_notin. }
  split.
  { unfold children. rewrite Hothers by done. rewrite decide_True by done.
    rewrite Hp. simpl. left. }
  exists (remove x (linked x p d k st)).
  split; [|split; [done|split; [|split; [done|]]]].
  - rewrite (create_dir_linked d x cr ino k dir n st p de Hok Hnin Hx Hde Hd).
    apply Z.eqb_neq in Hcr, Hex. by rewrite Hcr, Hex.
  - unfold children. rewrite Hsds, lookup_insert_ne by done. done.
  - intros c sd. rewrite Hsds. destruct (decide (c = x)) as [->|Hc].
    + rewrite lookup_insert_eq. intros [= <-]. simpl. apply not_elem_of_nil.
    + rewrite lookup_insert_ne by done. apply Hun.
Qed.

Lemma after_lookup_ok de : dir_ok 0 0 (after_lookup de).
Proof.
  split; [reflexivity|]. split; [by eexists|]. split.
  - intros c Hc. by apply elem_of_nil in Hc.
  - apply NoDup_nil_2.
Qed.

Lemma after_lookup_unreferenced de x : unreferenced (after_lookup de) x.
Proof.
  intros c sd Hsd. cbn in Hsd.
  apply lookup_singleton_Some in Hsd as [_ <-]. apply not_elem_of_nil.
Qed.

Lemma failed_create_dir_unwinds_witness :
  ∃ st',
    create_dir (inr 5%nat) (Some 1%nat) (- ENOMEM) 6 8 0 "dev"
               (after_lookup negative_dev)
      = Some (- ENOMEM, Some 5%nat, st') ∧
    children (linked 1 0 5 8 (after_lookup negative_dev)) 0 = [1%nat] ∧
    children st' 0 = [] ∧
    sds st' !! 1%nat = Some (leftover 5 8).
Proof.
  destruct (failed_create_dir_unwinds 5 1 (- ENOMEM) 6 8 0 "dev"
              (after_lookup negative_dev) 0 negative_dev)
    as (_ & H).
  - apply after_lookup_ok.
  - reflexivity.
  - apply after_lookup_unreferenced.
  - reflexivity.
  - discriminate.
  - discriminate.
  - discriminate.
  - by intros [? [=]].
  - destruct H as (_ & st' & H1 & _ & H3 & H4 & _).
    { vm_compute. intros H. inversion H. }
    exists st'. split; [exact H1|]. split; [reflexivity|].
    split; [exact H3|]. rewrite H4. apply lookup_insert_eq.
Defined.
(** *** Kinds and cursors *)

Lemma kinds_lookup st c : kinds st !! c = kind <$> sds st !! c.
Proof. unfold kinds. by rewrite lookup_fmap. Qed.

Lemma kinds_pointwise st st' :
  (∀ c, kind <$> sds st' !! c = kind <$> sds st !! c) → kinds st' = kinds st.
Proof. intros H. apply map_eq. intros c. by rewrite !kinds_lookup. Qed.

Lemma kinds_same_nodes st st' : same_nodes st st' → kinds st' = kinds st.
Proof.
  intros [_ Hs]. apply kinds_pointwise. intros c. specialize (Hs c).
  destruct (sds st' !! c) as [sd'|], (sds st !! c) as [sd|];
    simpl in *; try done.
  f_equal. unfold kind. unfold ident in Hs. congruence.
Qed.

Lemma kinds_with_dentries f st : kinds (with_dentries f st) = kinds st.
Proof. done. Qed.

Lemma kinds_with_kobjs f st : kinds (with_kobjs f st) = kinds st.
Proof. done. Qed.

Lemma kinds_alter g x st :
  (∀ sd, kind (g sd) = kind sd) → kinds (with_sds (alter g x) st) = kinds st.
Proof.
  intros Hg. apply kinds_pointwise. intros c. simpl. rewrite lookup_alter.
  destruct (decide (x = c)) as [->|Hne]; [|done].
  destruct (sds st !! c); simpl; [by rewrite Hg|done].
Qed.

Lemma kinds_list_del x st : kinds (list_del x st) = kinds st.
Proof. apply kinds_same_nodes, same_nodes_list_del. Qed.

Lemma kinds_list_add x h st : kinds (list_add x h st) = kinds st.
Proof. apply kinds_same_nodes, same_nodes_list_add. Qed.

Lemma kinds_list_add_tail x h st : kinds (list_add_tail x h st) = kinds st.
Proof. apply kinds_same_nodes, same_nodes_list_add_tail. Qed.

Lemma kinds_list_move x h st : kinds (list_move x h st) = kinds st.
Proof. apply kinds_same_nodes, same_nodes_list_move. Qed.

Lemma kinds_sysfs_get x st : kinds (sysfs_get x st) = kinds st.
Proof. by apply kinds_alter. Qed.

Lemma kinds_release x st : kinds (release_sysfs_dirent x st) = delete x (kinds st).
Proof. unfold kinds. simpl. by rewrite fmap_delete. Qed.

Lemma kinds_sysfs_put x st : kinds (sysfs_put x st) ⊆ kinds st.
Proof.
  unfold sysfs_put. destruct (sds st !! x) as [node|]; [|done].
  destruct (s_count node - 1 =? 0).
  - rewrite kinds_release. apply delete_subseteq.
  - by rewrite kinds_alter.
Qed.

Lemma kinds_remove x st : kinds (remove x st) ⊆ kinds st.
Proof.
  unfold remove, list_del_init. etrans; [apply kinds_sysfs_put|].
  by rewrite kinds_list_del.
Qed.

Lemma kinds_new_dirent x p el st :
  kinds (sysfs_new_dirent (Some x) p el st).2 = <[x := (el, 0)]> (kinds st).
Proof.
  unfold sysfs_new_dirent. cbn [snd]. rewrite kinds_list_add.
  unfold kinds. simpl. by rewrite fmap_insert.
Qed.

Lemma kinds_grown_refl a st : kinds_grown a st st.
Proof. intros c k Hk. by left. Qed.

Lemma kinds_grown_sub a st st1 st2 :
  kinds_grown a st st1 → kinds st2 ⊆ kinds st1 → kinds_grown a st st2.
Proof.
  intros H1 H2 c k Hk. apply H1. by eapply lookup_weaken.
Qed.

Lemma kinds_grown_eq a st st1 st2 :
  kinds_grown a st st1 → kinds st2 = kinds st1 → kinds_grown a st st2.
Proof. intros H1 H2. apply (kinds_grown_sub a st st1); [done|by rewrite H2]. Qed.

Lemma kinds_grown_sub0 a st st' : kinds st' ⊆ kinds st → kinds_grown a st st'.
Proof. intros H. by apply (kinds_grown_sub a st st); [apply kinds_grown_refl|]. Qed.

Lemma make_dirent_kinds a p d el mode type st :
  kinds_grown a st (sysfs_make_dirent a p d el mode type st).2.
Proof.
  destruct a as [x|]; [|apply (kinds_grown_refl None)].
  unfold sysfs_make_dirent.
  pose proof (kinds_new_dirent x p (Some el) st) as Hnew.
  destruct (sysfs_new_dirent (Some x) p (Some el) st) as [[y|] st1] eqn:E;
    [|by unfold sysfs_new_dirent in E].
  assert (y = x) as -> by (unfold sysfs_new_dirent in E; congruence).
  cbn [snd] in Hnew.
  assert (Hd : kinds_grown (Some x) st
                 (with_sds (alter (λ n, set_dentry d (set_mode_type mode type n)) x) st1)).
  { intros c k. unfold kinds at 1. simpl. rewrite lookup_fmap, lookup_alter.
    destruct (decide (x = c)) as [->|Hne].
    - assert (Hc : kinds st1 !! c = Some (Some el, 0))
        by (by rewrite Hnew, lookup_insert_eq).
      rewrite kinds_lookup in Hc.
      destruct (sds st1 !! c) as [n|]; [|done]. simpl in Hc |- *.
      injection Hc as Hel _. intros [= <-].
      right. split; [done|]. left. simpl. by rewrite Hel.
    - rewrite <- lookup_fmap. fold (kinds st1). rewrite Hnew.
      rewrite lookup_insert_ne by done. by left. }
  destruct d as [d'|]; cbn [snd]; [|done].
  apply (kinds_grown_eq _ _ _ _ Hd).
  by rewrite kinds_with_dentries, kinds_sysfs_get.
Qed.

Lemma add_file_kinds a dir attr type st e st' :
  sysfs_add_file a dir attr type st = Some (e, st') → kinds_grown a st st'.
Proof.
  unfold sysfs_add_file.
  destruct (dentries st !! dir ≫= d_fsdata) as [p|]; [|done].
  cbn [mbind option_bind].
  destruct (sysfs_dirent_exist st p _) as [ex|]; [|done].
  cbn [mbind option_bind]. destruct (ex =? 0).
  - pose proof (make_dirent_kinds a p None (AttrEl attr)
                  (Z.lor (Z.land (attr_mode (deref attr)) S_IALLUGO) S_IFREG)
                  type st) as H.
    destruct (sysfs_make_dirent _ _ _ _ _ _ _) as [e1 st1].
    by intros [= <- <-].
  - intros [= <- <-]. apply kinds_grown_refl.
Qed.

Lemma create_dir_kinds lk a cr ino k p n st e d st' :
  create_dir lk a cr ino k p n st = Some (e, d, st') → kinds_grown a st st'.
Proof.
  unfold create_dir. destruct lk as [err|d0].
  { intros [= <- <- <-]. apply kinds_grown_refl. }
  destruct (dentries st !! p) as [pde|]; [|done]. cbn [mbind option_bind].
  destruct (d_fsdata pde) as [psd|]; [|done]. cbn [mbind option_bind].
  destruct (sysfs_dirent_exist st psd n) as [ex|]; [|done].
  cbn [mbind option_bind].
  assert (H1 : kinds_grown a st
            (if negb (ex =? 0) then (- EEXIST, st)
             else sysfs_make_dirent a psd (Some d0) (Kobj k) dir_mode SYSFS_DIR st).2).
  { destruct (negb (ex =? 0)); [apply kinds_grown_refl|apply make_dirent_kinds]. }
  destruct (if negb (ex =? 0) then (- EEXIST, st)
            else sysfs_make_dirent a psd (Some d0) (Kobj k) dir_mode SYSFS_DIR st)
    as [error st1]. cbn [snd] in H1.
  assert (H2 : ∀ r,
            (if error =? 0 then
               let '(error, st) := sysfs_create cr ino d0 dir_mode (Some init_dir) st1 in
               if error =? 0 then
                 _ ← dentries st !! p ≫= d_inode;
                 Some (0, with_dentries (alter inc_nlink p) st)
               else Some (error, st)
             else Some (error, st1)) = Some r →
            kinds r.2 = kinds st1).
  { intros [e2 st2]. destruct (error =? 0); [|by intros [= <- <-]].
    unfold sysfs_create. destruct (cr =? 0) eqn:Hcr.
    - cbn [Z.eqb]. destruct (_ ≫= d_inode); [|done]. by intros [= <- <-].
    - rewrite Hcr. by intros [= <- <-]. }
  destruct (if error =? 0 then _ else _) as [[e2 st2]|]; [|done].
  specialize (H2 _ eq_refl). cbn [snd] in H2. cbn [mbind option_bind].
  assert (H3 : ∀ st3,
            (if negb (e2 =? 0) && negb (e2 =? - EEXIST) then
               de ← dentries st2 !! d0;
               match d_fsdata de with
               | Some sd => Some (sysfs_put sd (list_del_init sd st2))
               | None => Some st2
               end
             else Some st2) = Some st3 →
            kinds st3 ⊆ kinds st2).
  { intros st3. destruct (_ && _); [|by intros [= <-]].
    destruct (dentries st2 !! d0) as [de|]; [|done]. cbn [mbind option_bind].
    destruct (d_fsdata de) as [sd|]; intros [= <-]; [|done].
    apply kinds_remove. }
  destruct (if negb (e2 =? 0) && negb (e2 =? - EEXIST) then _ else _)
    as [st3|]; [|done].
  specialize (H3 _ eq_refl). cbn [mbind option_bind]. intros [= <- <- <-].
  apply (kinds_grown_sub a st st1); [done|]. by rewrite <- H2.
Qed.

Lemma d_iput_kinds d st st' :
  sysfs_d_iput d st = Some st' → kinds st' ⊆ kinds st.
Proof.
  unfold sysfs_d_iput. destruct (dentries st !! d) as [de|]; [|done].
  cbn [mbind option_bind]. destruct (d_fsdata de) as [sd|]; [|by intros [= <-]].
  destruct (sds st !! sd) as [node|]; [|done]. cbn [mbind option_bind].
  destruct (bool_decide _); [|done]. intros [= <-].
  etrans; [apply kinds_sysfs_put|]. by rewrite kinds_alter.
Qed.

Lemma remove_dir_kinds sole d st st' :
  remove_dir sole d st = Some st' → kinds st' ⊆ kinds st.
Proof.
  unfold remove_dir, d_delete.
  assert (H1 : ∀ st1,
            match dentries st !! d ≫= d_inode with
            | Some _ =>
              if sole then
                st ← sysfs_d_iput d st;
                Some (with_dentries (alter (set_inode None) d) st)
              else Some st
            | None => Some st
            end = Some st1 → kinds st1 ⊆ kinds st).
  { intros st1. destruct (_ ≫= d_inode); [|by intros [= <-]].
    destruct sole; [|by intros [= <-]].
    destruct (sysfs_d_iput d st) as [st0|] eqn:E; [|done].
    cbn [mbind option_bind]. intros [= <-].
    rewrite kinds_with_dentries. by apply (d_iput_kinds d). }
  destruct (match dentries st !! d ≫= d_inode with _ => _ end) as [st1|];
    [|done].
  specialize (H1 _ eq_refl). cbn [mbind option_bind].
  destruct (dentries st1 !! d) as [de|]; [|done]. cbn [mbind option_bind].
  destruct (d_fsdata de) as [sd|]; [|done]. cbn [mbind option_bind].
  intros [= <-]. etrans; [apply kinds_remove|done].
Qed.

Lemma attach_attr_kinds cr ino (x : nat) d st e st' :
  sysfs_attach_attr cr ino x d st = Some (e, st') → kinds st' ⊆ kinds st.
Proof.
  unfold sysfs_attach_attr. destruct (sds st !! x) as [node|]; [|done].
  cbn [mbind option_bind].
  destruct (match s_element node with Some (AttrEl p) => Some p | _ => None end)
    as [attr|]; [|done]. cbn [mbind option_bind].
  unfold sysfs_create. destruct (cr =? 0).
  - cbn [negb Z.eqb].
    destruct (negb (Z.land (s_type node) SYSFS_KOBJ_BIN_ATTR =? 0)).
    + destruct (match attr with BinAttrPtr b => Some b | AttrPtr _ => None end);
        [|done]. cbn [mbind option_bind].
      destruct (dentries _ !! d) as [de|]; [|done]. cbn [mbind option_bind].
      destruct (d_inode de); [|done]. cbn [mbind option_bind].
      intros [= <- <-]. rewrite !kinds_with_dentries.
      rewrite kinds_alter by done. by rewrite kinds_with_dentries, kinds_sysfs_get.
    + intros [= <- <-]. rewrite !kinds_with_dentries.
      rewrite kinds_alter by done. by rewrite kinds_with_dentries, kinds_sysfs_get.
  - destruct (negb (cr =? 0)) eqn:E.
    + intros [= <- <-]. etrans; [apply kinds_sysfs_put|].
      rewrite kinds_alter by done. by rewrite kinds_with_dentries, kinds_sysfs_get.
    + destruct (negb (Z.land (s_type node) SYSFS_KOBJ_BIN_ATTR =? 0)).
      * destruct (match attr with BinAttrPtr b => Some b | AttrPtr _ => None end);
          [|done]. cbn [mbind option_bind].
        destruct (dentries _ !! d) as [de|]; [|done]. cbn [mbind option_bind].
        destruct (d_inode de); [|done]. cbn [mbind option_bind].
        intros [= <- <-]. rewrite !kinds_with_dentries.
        rewrite kinds_alter by done. by rewrite kinds_with_dentries, kinds_sysfs_get.
      * intros [= <- <-].
        rewrite kinds_alter by done. by rewrite kinds_with_dentries, kinds_sysfs_get.
Qed.

Lemma attach_link_kinds cr ino (x : nat) d st :
  kinds (sysfs_attach_link cr ino x d st).2 ⊆ kinds st.
Proof.
  unfold sysfs_attach_link, sysfs_create. destruct (cr =? 0).
  - cbn [Z.eqb snd]. rewrite !kinds_with_dentries.
    rewrite kinds_alter by done. by rewrite kinds_with_dentries, kinds_sysfs_get.
  - destruct (cr =? 0); cbn [snd].
    + rewrite kinds_alter by done. by rewrite kinds_with_dentries, kinds_sysfs_get.
    + etrans; [apply kinds_sysfs_put|].
      rewrite kinds_alter by done. by rewrite kinds_with_dentries, kinds_sysfs_get.
Qed.

Lemma lookup_loop_kinds cr ino d name l st e st' :
  lookup_loop cr ino d name l st = Some (e, st') → kinds st' ⊆ kinds st.
Proof.
  induction l as [|c l IH]; [by intros [= <- <-]|].
  cbn [lookup_loop]. destruct (sds st !! c) as [sd|]; [|done].
  cbn [mbind option_bind].
  destruct (negb (Z.land (s_type sd) SYSFS_NOT_PINNED =? 0)); [|done].
  destruct (sysfs_get_name st sd) as [nm|]; [|done]. cbn [mbind option_bind].
  destruct (negb (strcmp nm name =? 0)); [done|].
  destruct (negb (Z.land (s_type sd) SYSFS_KOBJ_LINK =? 0)).
  - pose proof (attach_link_kinds cr ino c d st) as H.
    destruct (sysfs_attach_link cr ino c d st) as [e1 st1].
    by intros [= <- <-].
  - apply attach_attr_kinds.
Qed.

Lemma lookup_kinds cr ino d st e st' :
  sysfs_lookup cr ino d st = Some (e, st') → kinds st' ⊆ kinds st.
Proof.
  unfold sysfs_lookup. destruct (dentries st !! d) as [de|]; [|done].
  cbn [mbind option_bind].
  destruct (dentries st !! d_parent de ≫= d_fsdata) as [p|]; [|done].
  cbn [mbind option_bind]. destruct (sds st !! p) as [psd|]; [|done].
  cbn [mbind option_bind]. apply lookup_loop_kinds.
Qed.

Lemma rename_kinds lk sn kobj new_name st e st' :
  sysfs_rename_dir lk sn kobj new_name st = Some (e, st') → kinds st' = kinds st.
Proof.
  unfold sysfs_rename_dir. destruct (kobjs st !! kobj) as [ko|]; [|done].
  cbn [mbind option_bind]. destruct (strcmp _ _ =? 0); [by intros [= <- <-]|].
  destruct (k_parent ko) as [pk|]; [|by intros [= <- <-]].
  destruct (kobjs st !! pk ≫= k_dentry) as [parent|]; [|done].
  cbn [mbind option_bind]. destruct lk as [err|nd]; [by intros [= <- <-]|].
  destruct (dentries st !! nd) as [de|]; [|done]. cbn [mbind option_bind].
  destruct (d_inode de); [by intros [= <- <-]|].
  destruct (sn =? 0); [|by intros [= <- <-]].
  destruct (k_dentry ko); [|done]. cbn [mbind option_bind].
  by intros [= <- <-].
Qed.

Lemma dir_open_kinds a filp st e filp' st' :
  sysfs_dir_open a filp st = Some (e, filp', st') → kinds_grown a st st'.
Proof.
  unfold sysfs_dir_open.
  destruct (dentries st !! f_dentry filp ≫= d_fsdata) as [p|]; [|done].
  cbn [mbind option_bind]. destruct (sds st !! p); [|done].
  cbn [mbind option_bind]. destruct a as [x|].
  - pose proof (kinds_new_dirent x p None st) as H.
    destruct (sysfs_new_dirent (Some x) p None st) as [cur st1].
    cbn [snd] in H. intros [= <- <- <-]. intros c k. rewrite H.
    destruct (decide (x = c)) as [->|Hne].
    + rewrite lookup_insert_eq. intros [= <-]. right. split; [done|]. by right.
    + rewrite lookup_insert_ne by done. by left.
  - simpl. intros [= <- <- <-]. apply kinds_grown_refl.
Qed.

Lemma dir_close_kinds filp st e st' :
  sysfs_dir_close filp st = Some (e, st') → kinds st' ⊆ kinds st.
Proof.
  unfold sysfs_dir_close. destruct (private_data filp) as [cursor|]; [|done].
  cbn [mbind option_bind]. destruct (sds st !! cursor); [|done].
  cbn [mbind option_bind]. intros [= <- <-].
  rewrite kinds_release, kinds_list_del. apply delete_subseteq.
Qed.

Lemma readdir_loop_kinds {D} (fd : D → string → Z → Z → Z → Z → Z * D)
    iu q rest :
  ∀ pos dirent st pos' dirent' st',
    readdir_loop fd iu q rest pos dirent st = Some (pos', dirent', st') →
    kinds st' = kinds st.
Proof.
  induction rest as [|p rest IH]; intros pos dirent st pos' dirent' st'.
  { by intros [= <- <- <-]. }
  cbn [readdir_loop]. destruct (sds st !! p) as [next|]; [|done].
  cbn [mbind option_bind]. destruct (s_element next); [|by apply IH].
  destruct (sysfs_get_name st next) as [nm|]; [|done]. cbn [mbind option_bind].
  destruct (match s_dentry next with Some d => _ | None => _ end) as [ino|];
    [|done]. cbn [mbind option_bind].
  destruct (fd dirent nm (strlen nm) pos ino (dt_type next)) as [r dirent1].
  destruct (r <? 0); [by intros [= <- <- <-]|].
  intros H. apply IH in H. by rewrite H, kinds_list_move.
Qed.

Lemma readdir_kinds {D} (fd : D → string → Z → Z → Z → Z → Z * D)
    iu filp dirent st e filp' dirent' st' :
  sysfs_readdir fd iu filp dirent st = Some (e, filp', dirent', st') →
  kinds st' = kinds st.
Proof.
  assert (Hdef : ∀ filp dirent e filp' dirent' st',
            readdir_default fd iu filp dirent st = Some (e, filp', dirent', st') →
            kinds st' = kinds st).
  { clear. intros filp dirent e filp' dirent' st'. unfold readdir_default.
    destruct (dentries st !! f_dentry filp ≫= d_fsdata) as [p|]; [|done].
    cbn [mbind option_bind]. destruct (private_data filp) as [q|]; [|done].
    cbn [mbind option_bind].
    destruct (readdir_loop fd iu q _ _ _ _) as [[[pos1 dirent1] st1]|] eqn:E;
      [|done].
    cbn [mbind option_bind]. intros [= <- <- <- <-].
    apply readdir_loop_kinds in E. rewrite E.
    destruct (f_pos filp =? 2); [apply kinds_list_move|done]. }
  assert (Hdd : ∀ i filp dirent e filp' dirent' st',
            readdir_dotdot fd iu i filp dirent st
            = Some (e, filp', dirent', st') →
            kinds st' = kinds st).
  { intros i0 filp0 dirent0 e0 filp0' dirent0' st0'. unfold readdir_dotdot.
    destruct (dentries st !! f_dentry filp0) as [de|]; [|done].
    cbn [mbind option_bind].
    destruct (dentries st !! d_parent de ≫= d_inode) as [i|]; [|done].
    cbn [mbind option_bind]. destruct (fd _ _ _ _ _ _) as [r dirent1].
    destruct (r <? 0); [by intros [= <- <- <- <-]|]. apply Hdef. }
  unfold sysfs_readdir. cbv zeta. destruct (int_wrap (f_pos filp) =? 0).
  - unfold readdir_dot.
    destruct (dentries st !! f_dentry filp ≫= d_inode) as [i|]; [|done].
    cbn [mbind option_bind]. destruct (fd _ _ _ _ _ _) as [r dirent1].
    destruct (r <? 0); [by intros [= <- <- <- <-]|]. apply Hdd.
  - destruct (int_wrap (f_pos filp) =? 1); [apply Hdd|apply Hdef].
Qed.

Lemma dir_lseek_kinds filp offset origin st e filp' st' :
  sysfs_dir_lseek filp offset origin st = Some (e, filp', st') →
  kinds st' = kinds st.
Proof.
  unfold sysfs_dir_lseek. destruct (_ && _); [|by intros [= <- <- <-]].
  destruct (negb _); [|by intros [= <- <- <-]].
  destruct (2 <=? _); [|by intros [= <- <- <-]].
  cbn [set_pos f_dentry private_data f_pos].
  destruct (dentries st !! f_dentry filp ≫= d_fsdata) as [sd|]; [|done].
  cbn [mbind option_bind]. destruct (private_data filp) as [cursor|]; [|done].
  cbn [mbind option_bind]. destruct (lseek_walk _ _ _ _) as [p|]; [|done].
  cbn [mbind option_bind]. intros [= <- <- <-].
  by rewrite kinds_list_add_tail, kinds_list_del.
Qed.

Lemma any_op_grown st st' :
  any_op st st' → ∃ a, fresh st a ∧ kinds_grown a st st'.
Proof.
  intros Hop. destruct Hop.
  - exists a. split; [done|]. by eapply add_file_kinds.
  - exists a. split; [done|]. by eapply create_dir_kinds.
  - exists None. split; [by intros ? [=]|]. apply kinds_grown_sub0, kinds_remove.
  - exists None. split; [by intros ? [=]|].
    apply kinds_grown_sub0. by eapply remove_dir_kinds.
  - exists None. split; [by intros ? [=]|].
    apply kinds_grown_sub0. by eapply lookup_kinds.
  - exists None. split; [by intros ? [=]|]. apply kinds_grown_sub0.
    erewrite rename_kinds; [done|eassumption].
  - exists a. split; [done|]. by eapply dir_open_kinds.
  - exists None. split; [by intros ? [=]|].
    apply kinds_grown_sub0. by eapply dir_close_kinds.
  - exists None. split; [by intros ? [=]|]. apply kinds_grown_sub0.
    erewrite readdir_kinds; [done|eassumption].
  - exists None. split; [by intros ? [=]|]. apply kinds_grown_sub0.
    erewrite dir_lseek_kinds; [done|eassumption].
Qed.

(** No operation changes the kind of a node that it does not free. *)
Lemma any_op_kind_kept st st' c k :
  any_op st st' →
  kinds st !! c = Some k → is_Some (sds st' !! c) → kinds st' !! c = Some k.
Proof.
  intros Hop Hk [sd' Hsd'].
  destruct (any_op_grown st st' Hop) as (a & Hfresh & Hg).
  assert (Hk' : kinds st' !! c = Some (kind sd')) by (by rewrite kinds_lookup, Hsd').
  destruct (Hg c _ Hk') as [Hold|[-> _]]; [congruence|].
  rewrite kinds_lookup, (Hfresh c eq_refl) in Hk. done.
Qed.

Lemma payloadless_kinds st c :
  payloadless st c = true ↔ ∃ t, kinds st !! c = Some (None, t).
Proof.
  unfold payloadless. rewrite kinds_lookup.
  destruct (sds st !! c) as [sd|]; simpl.
  - rewrite bool_decide_eq_true. unfold kind. split.
    + intros ->. by eexists.
    + intros [t [= -> _]]. done.
  - split; [done|]. by intros [t ?].
Qed.

Lemma cursor_survives c st st' :
  survives c st st' → payloadless st c = true → payloadless st' c = true.
Proof.
  intros Hs. induction Hs as [st|st st' st'' Hop Hc _ IH]; [done|].
  intros [t Ht]%payloadless_kinds. apply IH. apply payloadless_kinds.
  exists t. by apply (any_op_kind_kept st st').
Qed.

Lemma any_op_untyped st st' :
  any_op st st' → untyped_cursors st → untyped_cursors st'.
Proof.
  intros Hop Hu c t Hk.
  destruct (any_op_grown st st' Hop) as (a & _ & Hg).
  destruct (Hg c _ Hk) as [Hold|[_ [Hne|Heq]]].
  - by apply (Hu c).
  - done.
  - by injection Heq as ->.
Qed.

Lemma run_untyped st st' :
  run st st' → untyped_cursors st → untyped_cursors st'.
Proof.
  intros Hr. induction Hr as [st|st st' st'' Hop _ IH]; [done|].
  intros Hu. apply IH. by apply (any_op_untyped st).
Qed.

Lemma skip_cursors_cons st c l :
  skip_cursors st (c :: l)
  = if payloadless st c then skip_cursors st l else c :: skip_cursors st l.
Proof.
  unfold skip_cursors. destruct (payloadless st c) eqn:E.
  - by rewrite filter_cons_False by (by rewrite E).
  - by rewrite filter_cons_True.
Qed.

Lemma skip_cursors_same_nodes st st' l :
  same_nodes st st' → skip_cursors st' l = skip_cursors st l.
Proof.
  intros Hs. induction l as [|c l IH]; [done|].
  by rewrite !skip_cursors_cons, IH, (same_nodes_payloadless st st' c Hs).
Qed.

Lemma payloadless_node st c :
  payloadless st c = true → ∃ sd, sds st !! c = Some sd ∧ s_element sd = None.
Proof.
  unfold payloadless. destruct (sds st !! c) as [sd|]; [|done].
  intros H%bool_decide_eq_true. by exists sd.
Qed.

(** The scans of a children list do on the list what they do on the
    list without the cursors. *)
Lemma exist_skips_cursors st new l :
  dirent_exist_loop st new l = dirent_exist_loop st new (skip_cursors st l).
Proof.
  induction l as [|c l IH]; [done|]. rewrite skip_cursors_cons.
  destruct (payloadless st c) eqn:E.
  - destruct (payloadless_node st c E) as (sd & Hsd & He).
    cbn [dirent_exist_loop]. rewrite Hsd. cbn [mbind option_bind].
    by rewrite He.
  - cbn [dirent_exist_loop]. destruct (sds st !! c) as [sd|]; [|done].
    cbn [mbind option_bind]. destruct (s_element sd); [|done].
    destruct (sysfs_get_name st sd); [|done]. cbn [mbind option_bind].
    by destruct (negb _).
Qed.

Lemma lookup_skips_cursors cr ino d name l st :
  untyped_cursors st →
  lookup_loop cr ino d name l st
  = lookup_loop cr ino d name (skip_cursors st l) st.
Proof.
  intros Hu. induction l as [|c l IH]; [done|]. rewrite skip_cursors_cons.
  destruct (payloadless st c) eqn:E.
  - destruct (payloadless_node st c E) as (sd & Hsd & He).
    cbn [lookup_loop]. rewrite Hsd. cbn [mbind option_bind].
    assert (Z.land (s_type sd) SYSFS_NOT_PINNED = 0) as ->; [|done].
    apply (Hu c). rewrite kinds_lookup, Hsd. simpl. unfold kind. by rewrite He.
  - cbn [lookup_loop]. destruct (sds st !! c) as [sd|]; [|done].
    cbn [mbind option_bind]. destruct (negb (Z.land _ _ =? 0)); [|done].
    destruct (sysfs_get_name st sd); [|done]. cbn [mbind option_bind].
    by destruct (negb (strcmp _ _ =? 0)).
Qed.

Lemma readdir_skips_cursors {D} (fd : D → string → Z → Z → Z → Z → Z * D)
    iu q rest :
  ∀ pos dirent st,
    readdir_loop fd iu q rest pos dirent st
    = readdir_loop fd iu q (skip_cursors st rest) pos dirent st.
Proof.
  induction rest as [|p rest IH]; intros pos dirent st; [done|].
  rewrite skip_cursors_cons. destruct (payloadless st p) eqn:E.
  - destruct (payloadless_node st p E) as (sd & Hsd & He).
    cbn [readdir_loop]. rewrite Hsd. cbn [mbind option_bind].
    rewrite He. apply IH.
  - cbn [readdir_loop]. destruct (sds st !! p) as [next|]; [|done].
    cbn [mbind option_bind]. destruct (s_element next); [|apply IH].
    destruct (sysfs_get_name st next) as [nm|]; [|done].
    cbn [mbind option_bind].
    destruct (match s_dentry next with Some d => _ | None => _ end) as [ino|];
      [|done]. cbn [mbind option_bind].
    destruct (fd dirent nm (strlen nm) pos ino (dt_type next)) as [r dirent1].
    destruct (r <? 0); [done|].
    rewrite IH.
    by rewrite (skip_cursors_same_nodes st _ rest (same_nodes_list_move st q _)).
Qed.

Lemma dir_open_cursor a filp st e filp' st' :
  sds st !! a = None →
  sysfs_dir_open (Some a) filp st = Some (e, filp', st') →
  e = 0 ∧ private_data filp' = Some a ∧
  kinds st' !! a = Some (None, 0) ∧
  ∃ p, dentries st !! f_dentry filp ≫= d_fsdata = Some p ∧
       children st' p = a :: children st p.
Proof.
  intros Ha. unfold sysfs_dir_open.
  destruct (dentries st !! f_dentry filp ≫= d_fsdata) as [p|]; [|done].
  cbn [mbind option_bind]. destruct (sds st !! p) as [psd|] eqn:Hp; [|done].
  cbn [mbind option_bind].
  pose proof (kinds_new_dirent a p None st) as Hk.
  destruct (sysfs_new_dirent (Some a) p None st) as [cur st1] eqn:E.
  cbn [snd] in Hk. unfold sysfs_new_dirent in E. injection E as <- Hst1.
  intros [= <- <- <-].
  split; [done|]. split; [done|]. split.
  - rewrite Hk, lookup_insert_eq. done.
  - exists p. split; [done|]. assert (p ≠ a) by congruence.
    rewrite <- Hst1. unfold children. simpl.
    rewrite lookup_alter_eq, lookup_insert_ne by done. rewrite Hp. done.
Qed.

(** C10. The cursor of an open directory is created without a payload
    (and without a type), at the front of the directory's children, and
    it stays without a payload through every operation for as long as
    it is not freed. The duplicate-name check and the directory
    enumeration pass over the payload-less nodes of a children list:
    they do on the list what they do on the list with those nodes taken
    out. So does the name lookup, which goes by the type of a node,
    because no operation ever gives a payload-less node the type of a
    file or a link. A cursor therefore has no name, is never reported
    as an entry, never collides with a name that is being created and
    never resolves in a lookup. *)
Theorem cursors_stay_out_of_sight :
  (∀ a filp st e filp' st',
     sds st !! a = None →
     sysfs_dir_open (Some a) filp st = Some (e, filp', st') →
     e = 0 ∧ private_data filp' = Some a ∧
     payloadless st' a = true ∧ kinds st' !! a = Some (None, 0)) ∧
  (∀ c st st',
     survives c st st' → payloadless st c = true → payloadless st' c = true) ∧
  (∀ st c, payloadless st c = true → name_of st c = None) ∧
  (∀ st new l,
     dirent_exist_loop st new l
     = dirent_exist_loop st new (skip_cursors st l)) ∧
  (∀ (D : Type) (fd : D → string → Z → Z → Z → Z → Z * D) iu q rest pos dirent st,
     readdir_loop fd iu q rest pos dirent st
     = readdir_loop fd iu q (skip_cursors st rest) pos dirent st) ∧
  (∀ st st', untyped_cursors st → run st st' → untyped_cursors st') ∧
  (∀ cr ino d name l st,
     untyped_cursors st →
     lookup_loop cr ino d name l st
     = lookup_loop cr ino d name (skip_cursors st l) st).
Proof.
  split; [|split; [|split; [|split; [|split; [|split]]]]].
  - intros a filp st e filp' st' Ha Hopen.
    destruct (dir_open_cursor a filp st e filp' st' Ha Hopen)
      as (? & ? & Hk & _).
    repeat split; try done. apply payloadless_kinds. by eexists.
  - apply cursor_survives.
  - apply name_of_payloadless.
  - apply exist_skips_cursors.
  - intros D fd iu q rest pos dirent st. apply readdir_skips_cursors.
  - intros st st' Hu Hr. by apply (run_untyped st st').
  - intros cr ino d name l st Hu. by apply lookup_skips_cursors.
Qed.

Lemma sample_root_untyped : untyped_cursors sample_root.
Proof.
  intros c t. rewrite kinds_lookup. unfold sample_root. simpl.
  destruct (decide (c = 0%nat)) as [->|Hne].
  - rewrite lookup_singleton_eq. by intros [= <-].
  - by rewrite lookup_singleton_ne.
Qed.

Lemma cursors_stay_out_of_sight_witness :
  ∃ filp st',
    sysfs_dir_open (Some 3%nat) sample_dir sample_root = Some (0, filp, st') ∧
    children st' 0 = [3%nat] ∧
    payloadless st' 3 = true ∧
    name_of st' 3%nat = None ∧
    untyped_cursors st' ∧
    dirent_exist_loop st' "a" (children st' 0) = Some 0 ∧
    lookup_loop 0 9 5%nat "a" (children st' 0) st' = Some (0, st').
Proof.
  destruct cursors_stay_out_of_sight as (H1 & _ & H3 & H4 & _ & H6 & H7).
  eexists _, _.
  eassert (sysfs_dir_open (Some 3%nat) sample_dir sample_root = Some (0, _, _))
    as Hopen by (vm_compute; reflexivity).
  split; [exact Hopen|].
  assert (Hfresh : sds sample_root !! 3%nat = None) by (vm_compute; reflexivity).
  destruct (H1 _ _ _ _ _ _ Hfresh Hopen) as (_ & _ & Hp & _).
  split; [vm_compute; reflexivity|]. split; [exact Hp|].
  split; [exact (H3 _ _ Hp)|].
  eassert (untyped_cursors _) as Hu.
  { apply (H6 sample_root _ sample_root_untyped).
    eapply run_step; [|apply run_refl].
    eapply op_dir_open; [|exact Hopen]. by intros ? [= <-]. }
  split; [exact Hu|]. split.
  - rewrite H4. vm_compute. reflexivity.
  - rewrite (H7 _ _ _ _ _ _ Hu). vm_compute. reflexivity.
Defined.

(** ** Opening and closing a directory, seeking, lookups *)

Lemma sysfs_eq st st' :
  sds st = sds st' → dentries st = dentries st' → kobjs st = kobjs st' →
  st = st'.
Proof. destruct st, st'. simpl. by intros -> -> ->. Qed.

Lemma unlink_cons_notin x l : x ∉ l → unlink x (x :: l) = l.
Proof. intros H. by rewrite unlink_cons_eq, unlink_notin. Qed.

(** X8. Closing a directory undoes its opening: the cursor that the open
    linked in front of the children is unlinked and its memory given
    back, and the tree is what it was before the open. *)
Theorem dir_open_close_restores a filp st e filp' st' :
  sds st !! a = None → unreferenced st a →
  sysfs_dir_open (Some a) filp st = Some (e, filp', st') →
  e = 0 ∧ sysfs_dir_close filp' st' = Some (0, st).
Proof.
  intros Ha Hun. unfold sysfs_dir_open.
  destruct (dentries st !! f_dentry filp ≫= d_fsdata) as [p|]; [|done].
  cbn [mbind option_bind]. destruct (sds st !! p) as [psd|] eqn:Hp; [|done].
  cbn [mbind option_bind sysfs_new_dirent]. intros [= <- <- <-].
  split; [done|]. assert (p ≠ a) by congruence.
  unfold sysfs_dir_close. cbn [private_data mbind option_bind].
  match goal with
  | |- context [with_sds (alter (set_children (cons a)) p) ?s] =>
      change (with_sds (alter (set_children (cons a)) p) s)
        with (list_add a (Head p) s)
  end.
  rewrite lookup_list_add_head. cbn [with_sds sds].
  rewrite lookup_insert_eq. cbn [fmap option_fmap option_map mbind option_bind].
  do 2 f_equal. apply sysfs_eq; [|done..].
  apply map_eq. intros c. unfold release_sysfs_dirent, list_del_init.
  cbn [with_sds sds]. destruct (decide (c = a)) as [->|Hne].
  - by rewrite lookup_delete_eq, Ha.
  - rewrite lookup_delete_ne by done. rewrite lookup_list_del.
    rewrite lookup_list_add_head. cbn [with_sds sds].
    rewrite lookup_insert_ne by done.
    destruct (sds st !! c) as [sd|] eqn:Hc; [|by destruct (decide (p = c))].
    pose proof (Hun c sd Hc) as Hnotin.
    destruct (decide (p = c)); simpl; f_equal; destruct sd; unfold set_children;
      simpl in *; f_equal.
    + by apply unlink_cons_notin.
    + by apply unlink_notin.
Qed.


(** X10. A lookup that finds no attribute or link of the wanted name among
    the children answers no error and changes nothing; the dentry stays
    negative. Directories and cursors take no part: the name of a
    directory does not make a lookup succeed. *)
Theorem lookup_miss_changes_nothing cr ino d st de p :
  dentries st !! d = Some de →
  dentries st !! d_parent de ≫= d_fsdata = Some p →
  is_Some (sds st !! p) →
  (∀ c, c ∈ children st p →
        ∃ sd, sds st !! c = Some sd ∧
              (Z.land (s_type sd) SYSFS_NOT_PINNED ≠ 0 →
               ∃ nm, sysfs_get_name st sd = Some nm ∧ nm ≠ d_name de)) →
  sysfs_lookup cr ino d st = Some (0, st).
Proof.
  intros Hd Hp [psd Hpsd] Hch. unfold sysfs_lookup.
  rewrite Hd. cbn [mbind option_bind]. rewrite Hp. cbn [mbind option_bind].
  rewrite Hpsd. cbn [mbind option_bind].
  rewrite (children_lookup _ _ _ Hpsd) in Hch.
  induction (s_children psd) as [|c l IH]; [done|].
  destruct (Hch c) as (sd & Hsd & Hnm); [left|].
  cbn [lookup_loop]. rewrite Hsd. cbn [mbind option_bind].
  destruct (Z.eqb_spec (Z.land (s_type sd) SYSFS_NOT_PINNED) 0) as [|Hne];
    cbn [negb].
  - apply IH. intros c' Hc'. apply Hch. by right.
  - destruct (Hnm Hne) as (nm & -> & Hdiff). cbn [mbind option_bind].
    rewrite strcmp_differs, bool_decide_eq_true_2 by done.
    apply IH. intros c' Hc'. apply Hch. by right.
Qed.

(** ** From a created file to its inode and back *)

Lemma add_file_node dir p st x attr type st1 :
  dir_ok dir p st → sds st !! x = None →
  sysfs_add_file (Some x) dir attr type st = Some (0, st1) →
  sds st1 !! x = Some (attr_node attr type 1 None) ∧
  (∀ c, c ≠ x →
        sds st1 !! c
        = (if decide (p = c) then set_children (cons x) else id)
            <$> sds st !! c) ∧
  dentries st1 = dentries st ∧ kobjs st1 = kobjs st.
Proof.
  intros Hok Hx. rewrite (add_file_spec _ _ _ _ _ p Hok).
  destruct (decide (_ ∈ _)); [by intros [= ?]|].
  destruct Hok as (_ & Hp & _).
  destruct (make_dirent_spec x p None (AttrEl attr)
              (Z.lor (Z.land (attr_mode (deref attr)) S_IALLUGO) S_IFREG)
              type st Hx Hp) as (st' & -> & Hnode & Hrest & Hd & Hk).
  intros [= <-]. done.
Qed.

Lemma filed_as_type attr type :
  filed_as attr type → type = SYSFS_KOBJ_ATTR ∨ type = SYSFS_KOBJ_BIN_ATTR.
Proof. intros [?|[? _]]; auto. Qed.

(** What a lookup does with the file just created: it finds it at the
    head of the list and attaches it. *)
Lemma lookup_created dir p st x attr type st1 d de cr ino :
  dir_ok dir p st → sds st !! x = None → filed_as attr type →
  sysfs_add_file (Some x) dir attr type st = Some (0, st1) →
  dentries st !! d = Some de → d_parent de = dir →
  d_name de = attr_name (deref attr) →
  sysfs_lookup cr ino d st1 = sysfs_attach_attr cr ino x d st1.
Proof.
  intros Hok Hx Hty Hadd Hd Hpar Hname.
  destruct (add_file_node _ _ _ _ _ _ _ Hok Hx Hadd) as (Hnode & Hrest & Hde & _).
  pose proof Hok as (Hfs & [psd Hp] & _).
  assert (Hpx : p ≠ x) by congruence.
  unfold sysfs_lookup. rewrite Hde, Hd. cbn [mbind option_bind].
  rewrite Hpar, Hfs. cbn [mbind option_bind].
  rewrite (Hrest p Hpx), Hp, decide_True by done.
  cbn [fmap option_fmap option_map mbind option_bind set_children s_children
       lookup_loop].
  rewrite Hnode. unfold attr_node. cbn [mbind option_bind s_type].
  rewrite (attr_node_name st1 (AttrEl attr) type _ _ _ _ _ attr eq_refl
             (filed_as_type _ _ Hty)).
  cbn [mbind option_bind]. rewrite Hname, strcmp_refl. cbn [Z.eqb negb].
  by destruct Hty as [->|[-> _]].
Qed.

Lemma sds_with_sds f st : sds (with_sds f st) = f (sds st).
Proof. done. Qed.

Lemma alter_known `{Countable K0} {A} (f : A → A) (m : gmap K0 A) k v :
  m !! k = Some v → alter f k m = <[k := f v]> m.
Proof.
  intros Hk. apply map_eq. intros j. rewrite lookup_alter.
  destruct (decide (k = j)) as [->|Hne].
  - by rewrite lookup_insert_eq, Hk.
  - by rewrite lookup_insert_ne.
Qed.

Lemma alter_inserted `{Countable K0} {A} (f : A → A) (m : gmap K0 A) k v :
  alter f k (<[k := v]> m) = <[k := f v]> m.
Proof.
  rewrite (alter_known f _ k v) by apply lookup_insert_eq.
  apply insert_insert_eq.
Qed.

Lemma lookup_created_ok dir p st x attr type st1 d de ino :
  dir_ok dir p st → sds st !! x = None → filed_as attr type →
  sysfs_add_file (Some x) dir attr type st = Some (0, st1) →
  dentries st !! d = Some de → d_parent de = dir →
  d_name de = attr_name (deref attr) →
  ∃ st2 i,
    sysfs_lookup 0 ino d st1 = Some (0, st2) ∧
    sds st2 = <[x := attr_node attr type 2 (Some d)]> (sds st1) ∧
    dentries st2 !! d
      = Some (set_inode (Some i) (set_fsdata (Some x) de)) ∧
    i_mode i = file_mode attr ∧
    (type = SYSFS_KOBJ_ATTR →
     i_size i = PAGE_SIZE ∧ i_fop i = Some FileOperations) ∧
    (∀ b, type = SYSFS_KOBJ_BIN_ATTR → attr = BinAttrPtr b →
          i_size i = bin_size b ∧ i_fop i = Some BinFops).
Proof.
  intros Hok Hx Hty Hadd Hd Hpar Hname.
  rewrite (lookup_created _ _ _ _ _ _ _ _ _ 0 ino Hok Hx Hty Hadd Hd Hpar Hname).
  destruct (add_file_node _ _ _ _ _ _ _ Hok Hx Hadd) as (Hnode & _ & Hde & _).
  assert (Hsds : sds (with_sds (alter (set_dentry (Some d)) x)
                        (with_dentries (alter (set_fsdata (Some x)) d)
                           (sysfs_get x st1)))
                 = <[x := attr_node attr type 2 (Some d)]> (sds st1)).
  { cbn [with_sds with_dentries sysfs_get sds].
    rewrite (alter_known _ (sds st1) x _ Hnode).
    by rewrite alter_inserted. }
  unfold sysfs_attach_attr. rewrite Hnode.
  cbn [mbind option_bind attr_node s_element s_type sysfs_create Z.eqb negb].
  destruct Hty as [->|[-> [b ->]]].
  - change (negb (Z.land SYSFS_KOBJ_ATTR SYSFS_KOBJ_BIN_ATTR =? 0)) with false.
    cbv iota. cbn [from_option].
    eexists _, _. split; [reflexivity|]. split; [exact Hsds|].
    split.
    { cbn [with_sds with_dentries sysfs_get dentries].
      rewrite lookup_alter_eq, lookup_alter_eq, Hde, Hd. reflexivity. }
    split; [done|]. split; [done|]. by intros b [= ?].
  - change (negb (Z.land SYSFS_KOBJ_BIN_ATTR SYSFS_KOBJ_BIN_ATTR =? 0))
      with true. cbv iota. cbn [from_option mbind option_bind].
    eexists _, _. split.
    { cbn [with_sds with_dentries sysfs_get dentries].
      rewrite lookup_alter_eq, lookup_alter_eq, Hde, Hd.
      cbn [fmap option_fmap option_map mbind option_bind d_inode set_inode].
      reflexivity. }
    split; [exact Hsds|]. split.
    { cbn [with_dentries with_sds dentries sysfs_get].
      rewrite !lookup_alter_eq, Hde, Hd. reflexivity. }
    split; [done|]. split; [by intros [= ?]|].
    intros b' _ [= <-]. done.
Qed.

(** X11. The file just created, looked up by its name: the lookup answers
    what the host's inode creation answers. If that is success, the
    dentry and the node point at each other, the node holds one more
    reference, and the inode is a regular file with the permission bits
    of the attribute, of one page in size and read and written through
    the buffer, or, for a binary attribute, of the declared size and
    with the binary operations. *)
Theorem created_file_is_found dir p st x attr type st1 d de ino :
  dir_ok dir p st → sds st !! x = None → filed_as attr type →
  sysfs_add_file (Some x) dir attr type st = Some (0, st1) →
  dentries st !! d = Some de → d_parent de = dir →
  d_name de = attr_name (deref attr) →
  ∃ st2 i,
    sysfs_lookup 0 ino d st1 = Some (0, st2) ∧
    sds st2 = <[x := attr_node attr type 2 (Some d)]> (sds st1) ∧
    dentries st2 !! d
      = Some (set_inode (Some i) (set_fsdata (Some x) de)) ∧
    i_mode i = file_mode attr ∧
    (type = SYSFS_KOBJ_ATTR →
     i_size i = PAGE_SIZE ∧ i_fop i = Some FileOperations) ∧
    (∀ b, type = SYSFS_KOBJ_BIN_ATTR → attr = BinAttrPtr b →
          i_size i = bin_size b ∧ i_fop i = Some BinFops).
Proof. apply lookup_created_ok. Qed.

(** X12. The reference that a lookup takes on a node comes back. When the
    host lets go of the inode again ([sysfs_d_iput]), every node is as
    it was before the lookup. When the host fails to make the inode,
    the lookup answers the host's error and has returned the reference
    already; the node and the dentry are left pointing at each other. *)
Theorem lookup_reference_is_returned dir p st x attr type st1 d de ino :
  dir_ok dir p st → sds st !! x = None → filed_as attr type →
  sysfs_add_file (Some x) dir attr type st = Some (0, st1) →
  dentries st !! d = Some de → d_parent de = dir →
  d_name de = attr_name (deref attr) →
  (∃ st2 st3,
     sysfs_lookup 0 ino d st1 = Some (0, st2) ∧
     sysfs_d_iput d st2 = Some st3 ∧
     sds st3 = sds st1) ∧
  (∀ cr, cr ≠ 0 →
     ∃ st2,
       sysfs_lookup cr ino d st1 = Some (cr, st2) ∧
       sds st2 = <[x := attr_node attr type 1 (Some d)]> (sds st1) ∧
       dentries st2 = alter (set_fsdata (Some x)) d (dentries st1)).
Proof.
  intros Hok Hx Hty Hadd Hd Hpar Hname.
  destruct (add_file_node _ _ _ _ _ _ _ Hok Hx Hadd) as (Hnode & _ & Hde & _).
  split.
  - destruct (lookup_created_ok _ _ _ _ _ _ _ _ _ ino Hok Hx Hty Hadd Hd Hpar Hname)
      as (st2 & i & Hlk & Hsds & Hd2 & _).
    exists st2. unfold sysfs_d_iput. rewrite Hd2.
    cbn [mbind option_bind set_inode set_fsdata d_fsdata].
    rewrite Hsds, lookup_insert_eq.
    cbn [mbind option_bind attr_node s_dentry].
    rewrite bool_decide_eq_true_2 by done.
    eexists. split; [done|]. split; [done|].
    unfold sysfs_put. cbn [with_sds sds]. rewrite Hsds.
    rewrite alter_inserted, lookup_insert_eq.
    cbn [set_dentry s_count attr_node]. change (2 - 1 =? 0) with false.
    cbv iota. cbn [with_sds sds].
    rewrite Hsds, !alter_inserted. cbn [set_count s_count].
    apply insert_id. exact Hnode.
  - intros cr Hcr.
    rewrite (lookup_created _ _ _ _ _ _ _ _ _ cr ino Hok Hx Hty Hadd Hd Hpar Hname).
    unfold sysfs_attach_attr. rewrite Hnode.
    cbn [mbind option_bind attr_node s_element s_type]. unfold sysfs_create.
    destruct (Z.eqb_spec cr 0) as [|_]; [done|].
    destruct (Z.eqb_spec cr 0) as [|_]; [done|]. cbn [negb].
    eexists. split; [reflexivity|].
    assert (Hsds : sds (with_sds (alter (set_dentry (Some d)) x)
                          (with_dentries (alter (set_fsdata (Some x)) d)
                             (sysfs_get x st1)))
                   = <[x := attr_node attr type 2 (Some d)]> (sds st1)).
    { cbn [with_sds with_dentries sysfs_get sds].
      rewrite (alter_known _ (sds st1) x _ Hnode).
      by rewrite alter_inserted. }
    split; [|by rewrite dentries_sysfs_put].
    unfold sysfs_put. rewrite Hsds, lookup_insert_eq.
    cbn [attr_node s_count]. change (2 - 1 =? 0) with false. cbv iota.
    rewrite (sds_with_sds (alter (set_count (λ c, c - 1)) x)), Hsds.
    by rewrite alter_inserted.
Qed.


(** ** Making and removing a directory *)

Lemma linked_sds x p d k st :
  sds st !! x = None → is_Some (sds st !! p) →
  sds (linked x p d k st)
  = <[x := set_count (λ c, c + 1) (leftover d k)]>
      (alter (set_children (cons x)) p (sds st)).
Proof.
  intros Hx Hp. destruct (linked_node x p d k st Hx Hp) as (Hx1 & Hothers & _).
  apply map_eq. intros c. destruct (decide (c = x)) as [->|Hc].
  - by rewrite lookup_insert_eq.
  - rewrite lookup_insert_ne, Hothers, lookup_alter by done.
    destruct (decide (p = c)) as [->|]; by destruct (sds st !! c).
Qed.

Lemma unlink_fresh x p nd st :
  unreferenced st x →
  set_children (unlink x)
    <$> <[x := nd]> (alter (set_children (cons x)) p (sds st))
  = <[x := set_children (unlink x) nd]> (sds st).
Proof.
  intros Hun. rewrite fmap_insert. f_equal.
  apply map_eq. intros c. rewrite lookup_fmap, lookup_alter.
  destruct (decide (p = c)) as [->|];
    (destruct (sds st !! c) as [sd|] eqn:Hc; [|done]);
    pose proof (Hun c sd Hc) as Hnotin;
    simpl; f_equal; destruct sd; unfold set_children; simpl in *; f_equal.
  - by apply unlink_cons_notin.
  - by apply unlink_notin.
Qed.

(** X13. Removing a directory undoes its creation as far as the tree goes:
    the parent's children are what they were before the directory was
    made. If the host held the only reference to the dentry, the inode
    is given up and the node's memory is free again, so that all nodes
    are as before; if somebody else holds the dentry, the node stays in
    memory, on no list, with the one reference of the dentry. *)
Theorem create_then_remove_dir d x ino k dir n st p de sole st1 :
  dir_ok dir p st →
  n ∉ entry_names st (children st p) →
  sds st !! x = None → unreferenced st x →
  dentries st !! d = Some de → d ≠ dir →
  create_dir (inr d) (Some x) 0 ino k dir n st = Some (0, Some d, st1) →
  children st1 p = x :: children st p ∧
  ∃ st2,
    remove_dir sole d st1 = Some st2 ∧
    children st2 p = children st p ∧
    sds st2 = (if sole then sds st else <[x := leftover d k]> (sds st)) ∧
    (sole = true → dentries st2 !! d ≫= d_inode = None).
Proof.
  intros Hok Hnin Hx Hun Hde Hd.
  rewrite (create_dir_linked d x 0 ino k dir n st p de Hok Hnin Hx Hde Hd).
  cbn [Z.eqb]. destruct (dentries st !! dir ≫= d_inode) as [pi|]; [|done].
  cbn [mbind option_bind]. intros [= <-].
  pose proof Hok as (_ & Hp & _).
  assert (x ≠ p) as Hxp.
  { intros ->. destruct Hp as [? Hp]. rewrite Hx in Hp. done. }
  pose proof (linked_sds x p d k st Hx Hp) as Hsds.
  destruct (linked_node x p d k st Hx Hp) as (_ & _ & Hd1 & _).
  destruct Hp as [psd Hp].
  set (st1 := materialised ino d dir (linked x p d k st)).
  assert (Hsds1 : sds st1 = sds (linked x p d k st)) by done.
  assert (Hd1' : ∃ i, dentries st1 !! d
                      = Some (set_inode (Some i) (set_fsdata (Some x) de))).
  { eexists. subst st1. unfold materialised, sysfs_create.
    cbn [Z.eqb snd with_dentries dentries].
    rewrite lookup_alter_ne, lookup_alter_eq, Hd1, lookup_alter_eq, Hde by done.
    reflexivity. }
  destruct Hd1' as [i Hdi].
  split.
  { unfold children. rewrite Hsds1, Hsds, lookup_insert_ne, lookup_alter_eq, Hp
      by done. done. }
  unfold remove_dir, d_delete. rewrite Hdi.
  cbn [mbind option_bind d_inode set_inode].
  destruct sole.
  - unfold sysfs_d_iput. rewrite Hdi.
    cbn [mbind option_bind d_fsdata set_inode set_fsdata].
    rewrite Hsds1, Hsds, lookup_insert_eq.
    cbn [mbind option_bind s_dentry set_count leftover].
    rewrite bool_decide_eq_true_2 by done. cbn [mbind option_bind].
    set (stA := sysfs_put x (with_sds (alter (set_dentry None) x) st1)).
    assert (HsA : sds stA
                  = <[x := set_dentry None (leftover d k)]>
                      (alter (set_children (cons x)) p (sds st))).
    { subst stA. unfold sysfs_put.
      rewrite (sds_with_sds (alter (set_dentry None) x)), Hsds1, Hsds.
      rewrite alter_inserted, lookup_insert_eq.
      cbn [set_dentry set_count leftover s_count].
      change (1 + 1 - 1 =? 0) with false. cbv iota.
      rewrite (sds_with_sds (alter (set_count (λ c, c - 1)) x)).
      rewrite (sds_with_sds (alter (set_dentry None) x)), Hsds1, Hsds.
      by rewrite !alter_inserted. }
    assert (HdA : dentries stA = dentries st1).
    { subst stA. by rewrite dentries_sysfs_put. }
    cbn [with_dentries dentries]. rewrite HdA, lookup_alter_eq, Hdi.
    cbn [fmap option_fmap option_map mbind option_bind d_fsdata set_inode
         set_fsdata].
    eexists. split; [reflexivity|].
    assert (Hfin : sds (sysfs_put x
                     (list_del_init x
                        (with_dentries (alter (set_inode None) d) stA)))
                   = sds st).
    { unfold sysfs_put, list_del_init, list_del.
      rewrite (sds_with_sds (fmap (set_children (unlink x)))).
      cbn [with_dentries sds]. rewrite HsA, unlink_fresh by done.
      rewrite lookup_insert_eq.
      cbn [set_children set_dentry leftover s_count].
      change (1 - 1 =? 0) with true. cbv iota.
      unfold release_sysfs_dirent.
      rewrite (sds_with_sds (delete x)).
      rewrite (sds_with_sds (fmap (set_children (unlink x)))).
      cbn [with_dentries sds]. rewrite HsA, unlink_fresh by done.
      rewrite delete_insert_eq. by apply delete_id. }
    split; [by unfold children; rewrite Hfin|]. split; [exact Hfin|].
    intros _. rewrite dentries_sysfs_put. cbn [list_del_init list_del with_sds
      with_dentries dentries]. rewrite HdA, lookup_alter_eq, Hdi. done.
  - cbn [mbind option_bind]. rewrite Hdi.
    cbn [mbind option_bind d_fsdata set_inode set_fsdata].
    eexists. split; [reflexivity|].
    assert (Hfin : sds (sysfs_put x (list_del_init x st1))
                   = <[x := leftover d k]> (sds st)).
    { unfold sysfs_put, list_del_init, list_del.
      rewrite (sds_with_sds (fmap (set_children (unlink x)))).
      rewrite Hsds1, Hsds, unlink_fresh by done.
      rewrite lookup_insert_eq.
      cbn [set_children set_count leftover s_count].
      change (1 + 1 - 1 =? 0) with false. cbv iota.
      rewrite (sds_with_sds (alter (set_count (λ c, c - 1)) x)).
      rewrite (sds_with_sds (fmap (set_children (unlink x)))).
      rewrite Hsds1, Hsds, unlink_fresh by done.
      by rewrite alter_inserted. }
    split; [|split; [exact Hfin|done]].
    unfold children. rewrite Hfin, lookup_insert_ne by done. done.
Qed.

Lemma kobjs_make_dirent a p d el mode type st :
  kobjs (sysfs_make_dirent a p d el mode type st).2 = kobjs st.
Proof. by destruct a, d. Qed.

Lemma kobjs_sysfs_create cr ino d mode init st :
  kobjs (sysfs_create cr ino d mode init st).2 = kobjs st.
Proof. unfold sysfs_create. by destruct (cr =? 0). Qed.

Lemma create_dir_kobjs lk a cr ino k p n st e d st' :
  create_dir lk a cr ino k p n st = Some (e, d, st') → kobjs st' = kobjs st.
Proof.
  unfold create_dir, sysfs_create. intros H.
  pose proof (kobjs_make_dirent a) as Hm.
  repeat (case_match; simplify_option_eq; try done);
    repeat match goal with
           | E : sysfs_make_dirent a ?p ?d ?el ?m ?t ?s = (_, ?s') |- _ =>
               let Hk := fresh in
               pose proof (Hm p d el m t s) as Hk; rewrite E in Hk;
               cbn [snd] in Hk; clear E
           end;
    rewrite ?kobjs_sysfs_put; cbn [list_del_init list_del with_sds
      with_dentries kobjs]; congruence.
Qed.

(** X14. [sysfs_create_dir] writes the object's dentry exactly when it
    succeeds. An object without a parent goes under the root of the
    mounted sysfs, and fails with [-EFAULT], touching nothing, when
    there is none. Any other failure leaves every object as it was. *)
Theorem create_dir_binds_object_on_success root lk a cr ino kobj st e st' ko :
  kobjs st !! kobj = Some ko →
  (∀ err, lk = inl err → err < 0) →
  sysfs_create_dir root lk a cr ino kobj st = Some (e, st') →
  (k_parent ko = None → root = None → e = - EFAULT ∧ st' = st) ∧
  (e ≠ 0 → kobjs st' = kobjs st) ∧
  (e = 0 →
   ∃ d, lk = inr d ∧
        kobjs st' = <[kobj := {| k_name := k_name ko; k_parent := k_parent ko;
                                 k_dentry := Some d |}]> (kobjs st)).
Proof.
  intros Hko Herr. unfold sysfs_create_dir. rewrite Hko.
  cbn [mbind option_bind].
  destruct (k_parent ko) as [pk|] eqn:Hpk.
  - destruct (kobjs st !! pk ≫= k_dentry) as [parent|]; [|done].
    cbn [mbind option_bind].
    destruct (create_dir lk a cr ino kobj parent (k_name ko) st)
      as [[[e1 d1] s1]|] eqn:Hcd; [|done]. cbn [mbind option_bind].
    pose proof (create_dir_kobjs _ _ _ _ _ _ _ _ _ _ _ Hcd) as Hk.
    destruct (Z.eqb_spec e1 0) as [He1|Hne]; [subst e1|].
    + intros [= <- <-]. split; [done|]. split; [done|]. intros _.
      destruct lk as [err|d].
      * unfold create_dir in Hcd. injection Hcd as He _ _.
        specialize (Herr _ eq_refl). lia.
      * exists d. split; [done|]. cbn [with_kobjs kobjs]. rewrite Hk.
        do 3 f_equal. unfold create_dir in Hcd.
        repeat (match type of Hcd with
                | context [?m ≫= _] => destruct m; cbn [mbind option_bind] in Hcd
                | context [let '(_, _) := ?m in _] => destruct m
                end; try done).
        by injection Hcd as _ <- _.
    + intros [= <- <-]. split; [done|]. split; [by rewrite Hk|]. done.
  - destruct root as [r|].
    + cbn [mbind option_bind].
      destruct (create_dir lk a cr ino kobj r (k_name ko) st)
        as [[[e1 d1] s1]|] eqn:Hcd; [|done]. cbn [mbind option_bind].
      pose proof (create_dir_kobjs _ _ _ _ _ _ _ _ _ _ _ Hcd) as Hk.
      destruct (Z.eqb_spec e1 0) as [He1|Hne]; [subst e1|].
      * intros [= <- <-]. split; [done|]. split; [done|]. intros _.
        destruct lk as [err|d].
        -- unfold create_dir in Hcd. injection Hcd as He _ _.
           specialize (Herr _ eq_refl). lia.
        -- exists d. split; [done|]. cbn [with_kobjs kobjs]. rewrite Hk.
           do 3 f_equal. unfold create_dir in Hcd.
           repeat (match type of Hcd with
                   | context [?m ≫= _] =>
                       destruct m; cbn [mbind option_bind] in Hcd
                   | context [let '(_, _) := ?m in _] => destruct m
                   end; try done).
           by injection Hcd as _ <- _.
      * intros [= <- <-]. split; [done|]. split; [by rewrite Hk|]. done.
    + intros [= <- <-]. split; [done|]. split; [done|]. done.
Qed.

(** X15. The ways a rename that is not refused on entry can end. If the
    lookup of the new name fails, nothing is renamed and zero is
    answered all the same. If the object cannot take the new name
    ([kobject_set_name] fails), that error is answered and nothing has
    changed. Otherwise the object and its dentry both bear the new
    name, no node has changed, and the directory's node is seen under
    the new name from then on. *)
Theorem rename_outcomes lk sn kobj new_name st ko pk parent :
  kobjs st !! kobj = Some ko →
  k_name ko ≠ new_name →
  k_parent ko = Some pk →
  kobjs st !! pk ≫= k_dentry = Some parent →
  (∀ err, lk = inl err →
     sysfs_rename_dir lk sn kobj new_name st = Some (0, st)) ∧
  (∀ nd de, lk = inr nd → dentries st !! nd = Some de → d_inode de = None →
     sn ≠ 0 →
     sysfs_rename_dir lk sn kobj new_name st = Some (sn, st)) ∧
  (∀ nd de d, lk = inr nd → dentries st !! nd = Some de → d_inode de = None →
     sn = 0 → k_dentry ko = Some d → is_Some (dentries st !! d) →
     ∃ st',
       sysfs_rename_dir lk sn kobj new_name st = Some (0, st') ∧
       sds st' = sds st ∧
       k_name <$> kobjs st' !! kobj = Some new_name ∧
       d_name <$> dentries st' !! d = Some new_name ∧
       (∀ x sd, sds st !! x = Some sd → s_type sd = SYSFS_DIR →
                s_element sd ≠ None → s_dentry sd = Some d →
                name_of st' x = Some new_name)).
Proof.
  intros Hko Hname Hpk Hparent.
  assert (Hcmp : (strcmp (k_name ko) new_name =? 0) = false).
  { apply Z.eqb_neq. by rewrite strcmp_eq. }
  unfold sysfs_rename_dir. rewrite Hko. cbn [mbind option_bind].
  rewrite Hcmp, Hpk, Hparent. cbn [mbind option_bind].
  split; [by intros err ->|]. split.
  - intros nd de -> Hnd Hino Hsn. rewrite Hnd. cbn [mbind option_bind].
    rewrite Hino. by destruct (Z.eqb_spec sn 0).
  - intros nd de d -> Hnd Hino -> Hd [dde Hdde]. rewrite Hnd.
    cbn [mbind option_bind Z.eqb]. rewrite Hino, Hd. cbn [mbind option_bind].
    eexists. split; [reflexivity|]. split; [done|]. split.
    { cbn [with_dentries with_kobjs kobjs]. by rewrite lookup_insert_eq. }
    split.
    { cbn [with_dentries with_kobjs dentries]. by rewrite lookup_alter_eq, Hdde. }
    intros x sd Hx Hty Hel Hsd. unfold name_of.
    cbn [with_dentries with_kobjs sds]. rewrite Hx. cbn [mbind option_bind].
    destruct (s_element sd) as [el|] eqn:Eel; [|done].
    cbn [mbind option_bind]. unfold sysfs_get_name. rewrite Eel, Hty.
    cbn [Z.eqb Pos.eqb SYSFS_DIR]. rewrite Hsd. cbn [mbind option_bind dentries
      with_dentries with_kobjs]. by rewrite lookup_alter_eq, Hdde.
Qed.

(** ** Enumeration in several calls, and seeking *)

Lemma after_app_notin q l1 l2 : q ∉ l1 → after q (l1 ++ q :: l2) = l2.
Proof.
  induction l1 as [|y l1 IH]; intros Hq; simpl.
  - by rewrite decide_True.
  - rewrite decide_False; [apply IH|]; set_solver.
Qed.

Lemma unlink_app x l1 l2 : unlink x (l1 ++ l2) = unlink x l1 ++ unlink x l2.
Proof. unfold unlink. apply filter_app. Qed.

Lemma unlink_middle q l1 l2 :
  q ∉ l1 → q ∉ l2 → unlink q (l1 ++ q :: l2) = l1 ++ l2.
Proof.
  intros H1 H2. by rewrite unlink_app, unlink_cons_eq, !unlink_notin.
Qed.

Lemma insert_after_app x q l1 l2 :
  x ∉ l1 → insert_after x q (l1 ++ x :: l2) = l1 ++ x :: q :: l2.
Proof.
  induction l1 as [|y l1 IH]; intros Hx; simpl.
  - by rewrite decide_True.
  - rewrite decide_False; [f_equal; apply IH|]; set_solver.
Qed.

Lemma insert_before_app x q l1 l2 :
  x ∉ l1 → insert_before x q (l1 ++ x :: l2) = l1 ++ q :: x :: l2.
Proof.
  induction l1 as [|y l1 IH]; intros Hx; simpl.
  - by rewrite decide_True.
  - rewrite decide_False; [f_equal; apply IH|]; set_solver.
Qed.

Lemma split_at q l : q ∈ l → ∃ pre, l = pre ++ q :: after q l ∧ q ∉ pre.
Proof.
  induction l as [|y l IH]; intros Hq; [by apply elem_of_nil in Hq|].
  simpl. destruct (decide (y = q)) as [->|Hne].
  - exists []. split; [done|]. apply not_elem_of_nil.
  - apply elem_of_cons in Hq as [->|Hq]; [done|].
    destruct (IH Hq) as (pre & Hl & Hpre). exists (y :: pre).
    split; [simpl; by f_equal|]. by intros [?|?]%elem_of_cons.
Qed.

Lemma children_list_move_sibling st q x p :
  children (list_move q (Sibling x) st) p
  = insert_after x q (unlink q (children st p)).
Proof.
  unfold children, list_move. rewrite lookup_list_add_sibling, lookup_list_del.
  by destruct (sds st !! p).
Qed.

Lemma same_nodes_sym st st' : same_nodes st st' → same_nodes st' st.
Proof. intros [Hd Hn]. split; [done|]. intros c. by rewrite Hn. Qed.

Lemma same_nodes_listable st st' c :
  same_nodes st st' → listable st c → listable st' c.
Proof.
  intros Hs (sd & Hsd & Hl). pose proof Hs as [Hd Hn].
  pose proof (Hn c) as Hc. rewrite Hsd in Hc.
  destruct (sds st' !! c) as [sd'|] eqn:Hsd'; [|done]. simpl in Hc.
  assert (Hi : ident sd' = ident sd) by congruence.
  exists sd'. split; [done|]. rewrite (ident_element _ _ Hi). intros Hel.
  destruct (Hl Hel) as [Hnm Hino].
  rewrite (sysfs_get_name_frame st st' sd sd' (same_nodes_names _ _ Hs) Hi).
  split; [done|]. intros d Hd'. rewrite Hd. apply Hino.
  unfold ident in Hi. congruence.
Qed.

Lemma same_nodes_entry_names st st' l :
  same_nodes st st' → entry_names st' l = entry_names st l.
Proof.
  intros Hs. apply entry_names_frame; [by apply same_nodes_names|].
  intros c _. by destruct Hs as [_ Hs].
Qed.

Lemma entry_names_app st l1 l2 :
  entry_names st (l1 ++ l2) = entry_names st l1 ++ entry_names st l2.
Proof. unfold entry_names. apply omap_app. Qed.

Lemma entry_names_payloadless st l :
  (∀ c, c ∈ l → payloadless st c = true) → entry_names st l = [].
Proof.
  induction l as [|c l IH]; intros H; [done|].
  rewrite entry_names_cons, name_of_payloadless by (apply H; left).
  apply IH. intros c' Hc'. apply H. by right.
Qed.

(** The loop of [sysfs_readdir] under a caller whose buffer has room
    for [room] entries and holds [buf] already. The list is the cursor
    [q] after [pre], then [skipped], which the loop has passed without
    reporting, then [rest], which it has still to visit. *)
Lemma readdir_loop_room iu q p room rest :
  ∀ pre skipped pos buf st0 st,
    same_nodes st0 st →
    children st p = pre ++ q :: skipped ++ rest →
    NoDup (children st p) →
    (∀ c, c ∈ skipped → payloadless st0 c = true) →
    (∀ c, c ∈ rest → listable st0 c) →
    let names := entry_names st0 rest in
    let j := (length names `min` (room - length buf))%nat in
    ∃ recs st',
      readdir_loop (filldir_room room) iu q rest pos buf st
        = Some (pos + Z.of_nat j, buf ++ recs, st') ∧
      de_name <$> recs = take j names ∧
      de_off <$> recs = seqZ pos (Z.of_nat j) ∧
      same_nodes st0 st' ∧
      NoDup (children st' p) ∧ q ∈ children st' p ∧
      unlink q (children st' p) = unlink q (children st p) ∧
      entry_names st0 (after q (children st' p)) = drop j names.
Proof.
  induction rest as [|x rest IH];
    intros pre skipped pos buf st0 st Hs Hch Hnd Hsk Hl names j.
  - subst names j. cbn [entry_names omap length Nat.min].
    exists [], st. cbn [readdir_loop]. rewrite Z.add_0_r, app_nil_r.
    split; [done|]. split; [done|]. split; [done|]. split; [done|].
    split; [done|]. split; [rewrite Hch; set_solver|]. split; [done|].
    rewrite Hch, app_nil_r in Hnd |- *.
    apply NoDup_app in Hnd as (_ & Hpre & _).
    rewrite after_app_notin by (intros ?; by eapply Hpre; [|left]).
    by apply entry_names_payloadless.
  - destruct (Hl x) as (sd0 & Hsd0 & Hls); [left|].
    assert (Hl' : ∀ c, c ∈ rest → listable st0 c)
      by (intros; apply Hl; by right).
    pose proof Hs as [Hd Hn]. pose proof (Hn x) as Hx. rewrite Hsd0 in Hx.
    destruct (sds st !! x) as [sd|] eqn:Hsd; [|done]. simpl in Hx.
    assert (Hi : ident sd = ident sd0) by congruence.
    pose proof (ident_element _ _ Hi) as He.
    pose proof Hnd as Hnd0. rewrite Hch in Hnd0.
    apply NoDup_app in Hnd0 as (Hndpre & Hpre & Hnd1).
    apply NoDup_cons in Hnd1 as (Hq & Hnd2).
    apply NoDup_app in Hnd2 as (Hndsk & Hskr & Hnd3).
    apply NoDup_cons in Hnd3 as (Hxr & Hndr).
    assert (Hafter : after q (children st p) = skipped ++ x :: rest).
    { rewrite Hch. apply after_app_notin. intros ?. by eapply Hpre; [|left]. }
    subst names j. rewrite entry_names_cons. unfold name_of. rewrite Hsd0.
    cbn [readdir_loop mbind option_bind]. rewrite Hsd.
    cbn [mbind option_bind]. rewrite He.
    destruct (s_element sd0) as [el|] eqn:Hel; cbn [mbind option_bind].
    + destruct Hls as [[nm Hnm] Hino]; [done|].
      rewrite (sysfs_get_name_frame st0 st sd0 sd (same_nodes_names _ _ Hs) Hi).
      rewrite Hnm. cbn [mbind option_bind].
      assert (s_dentry sd = s_dentry sd0) as ->
        by (unfold ident in Hi; congruence).
      assert (∃ ino,
                match s_dentry sd0 with
                | Some d => i ← dentries st !! d ≫= d_inode; Some (i_ino i)
                | None => Some (iu x)
                end = Some ino) as [ino ->].
      { destruct (s_dentry sd0) as [d|] eqn:Hde; [|by eexists].
        destruct (Hino d eq_refl) as [i Hi']. rewrite Hd, Hi'. by eexists. }
      cbn [mbind option_bind]. unfold filldir_room at 1.
      destruct (decide (length buf < room)%nat) as [Hroom|Hfull].
      * unfold filldir_all at 1. cbn [Z.ltb Z.compare].
        set (rc := {| de_name := nm; de_len := strlen nm; de_off := pos;
                      de_ino := ino; de_type := dt_type sd |}).
        set (st1 := list_move q (Sibling x) st).
        assert (Hch1 : children st1 p = (pre ++ skipped ++ [x]) ++ q :: [] ++ rest).
        { subst st1. rewrite children_list_move_sibling, Hch.
          rewrite unlink_middle.
          - rewrite (app_assoc pre skipped (x :: rest)).
            rewrite insert_after_app.
            + by rewrite <- !app_assoc.
            + intros [Hin|Hin]%elem_of_app.
              * eapply Hpre; [exact Hin|]. right. apply elem_of_app. right. left.
              * eapply Hskr; [exact Hin|]. left.
          - intros ?. by eapply Hpre; [|left].
          - exact Hq. }
        assert (Hnd1 : NoDup (children st1 p)).
        { rewrite Hch1. rewrite Hch in Hnd. revert Hnd.
          apply NoDup_Permutation_proper. solve_Permutation. }
        destruct (IH (pre ++ skipped ++ [x]) [] (pos + 1) (buf ++ [rc]) st0 st1)
          as (recs & st' & Hrec & Hnames & Hoffs & Hs' & Hnd' & Hq' & Hun & Haft);
          [|done|done|by intros ? ?%elem_of_nil|done|].
        { eapply same_nodes_trans; [exact Hs|apply same_nodes_list_move]. }
        rewrite length_app in Hrec, Hnames, Hoffs, Haft. cbn [length] in *.
        set (j' := (length (entry_names st0 rest)
                    `min` (room - (length buf + 1)))%nat) in *.
        assert (Hj : (S (length (entry_names st0 rest))
                      `min` (room - length buf))%nat = S j') by lia.
        cbn [length]. rewrite Hj.
        exists (rc :: recs), st'. split; [|split; [|split; [|split; [done|]]]].
        -- rewrite Hrec. do 3 f_equal; [lia|]. by rewrite <- app_assoc.
        -- rewrite fmap_cons, Hnames. done.
        -- rewrite fmap_cons, Hoffs. rewrite (seqZ_cons pos) by lia.
           cbn [de_off rc]. do 2 f_equal; lia.
        -- split; [done|]. split; [done|]. split; [|done].
           assert (Hqpre : q ∉ pre) by (intros ?; by eapply Hpre; [|left]).
           assert (Hq1 : q ∉ pre ++ skipped ++ [x]).
           { rewrite !not_elem_of_app. split; [done|]. split.
             - intros Hin. apply Hq. apply elem_of_app. by left.
             - intros ->%list_elem_of_singleton. apply Hq.
               apply elem_of_app. right. left. }
           assert (Hq2 : q ∉ [] ++ rest).
           { intros Hin. apply Hq. apply elem_of_app. right. by right. }
           rewrite Hun, Hch1, Hch.
           rewrite (unlink_middle q (pre ++ skipped ++ [x]) ([] ++ rest)) by done.
           rewrite (unlink_middle q pre (skipped ++ x :: rest)) by done.
           by rewrite <- !app_assoc.
      * cbn [Z.ltb Z.compare Z.opp EINVAL].
        assert (((S (length (entry_names st0 rest)))
                 `min` (room - length buf))%nat = 0%nat) as Hj by lia.
        cbn [length]. rewrite Hj. exists [], st.
        rewrite Z.add_0_r, app_nil_r. split; [done|]. split; [done|].
        split; [done|]. split; [done|]. split; [done|].
        split; [rewrite Hch; set_solver|]. split; [done|].
        rewrite Hafter, entry_names_app, entry_names_cons.
        rewrite (entry_names_payloadless _ _ Hsk). unfold name_of.
        rewrite Hsd0. cbn [mbind option_bind]. rewrite Hel.
        cbn [mbind option_bind]. by rewrite Hnm.
    + assert (Hpl : payloadless st0 x = true).
      { unfold payloadless. rewrite Hsd0. by apply bool_decide_eq_true. }
      destruct (IH pre (skipped ++ [x]) pos buf st0 st)
        as (recs & st' & Hrec & Hrest); [done| |done| |done|].
      { by rewrite <- app_assoc. }
      { intros c [Hc|Hc%list_elem_of_singleton]%elem_of_app; [by apply Hsk|].
        by subst c. }
      exists recs, st'. split; [exact Hrec|]. exact Hrest.
Qed.

Lemma take_min_length {A} (l : list A) n :
  take (length l `min` n) l = take n l.
Proof.
  destruct (decide (n ≤ length l)%nat).
  - by rewrite Nat.min_r.
  - rewrite Nat.min_l, !take_ge by lia. done.
Qed.

Lemma elem_of_children_moved st st' p q c :
  unlink q (children st' p) = unlink q (children st p) →
  q ∈ children st p →
  c ∈ children st' p → c ∈ children st p.
Proof.
  intros Hun Hq Hc. destruct (decide (c = q)) as [->|Hne]; [done|].
  assert (c ∈ unlink q (children st' p)) as Hc' by (by apply elem_of_unlink).
  rewrite Hun in Hc'. by apply elem_of_unlink in Hc' as [_ ?].
Qed.

Lemma entry_names_moved st st' p q :
  same_nodes st st' →
  payloadless st q = true →
  unlink q (children st' p) = unlink q (children st p) →
  entry_names st' (children st' p) = entry_names st (children st p).
Proof.
  intros Hs Hq Hun. rewrite (same_nodes_entry_names _ _ _ Hs).
  rewrite <- (entry_names_unlink st q (children st' p))
    by (by apply name_of_payloadless).
  rewrite Hun. apply entry_names_unlink. by apply name_of_payloadless.
Qed.

(** Moving the cursor keeps the directory enumerable. *)
Lemma enumerable_moved dir p q filp filp' st st' :
  enumerable dir p q filp st →
  f_dentry filp' = f_dentry filp → private_data filp' = private_data filp →
  same_nodes st st' →
  NoDup (children st' p) → q ∈ children st' p →
  unlink q (children st' p) = unlink q (children st p) →
  enumerable dir p q filp' st'.
Proof.
  intros (Hf & Hpd & Hfs & Hino & Hpino & Hpl & Hq & Hnd & Hl) Hf' Hpd' Hs
    Hnd' Hq' Hun.
  pose proof Hs as [Hd _].
  split; [congruence|]. split; [congruence|]. rewrite Hd.
  split; [done|]. split; [done|]. split; [done|].
  split; [by rewrite (same_nodes_payloadless _ _ _ Hs)|].
  split; [done|]. split; [done|].
  intros c Hc. apply (same_nodes_listable st); [done|]. apply Hl.
  by apply (elem_of_children_moved st st' p q).
Qed.

(** The third arm of [sysfs_readdir] from a state in which the cursor
    stands before the children still to be reported, into a buffer that
    holds [buf0] already. *)
Lemma readdir_from iu dir p q (k : nat) room filp buf0 st stm pre rest :
  enumerable dir p q filp st →
  same_nodes st stm →
  children stm p = pre ++ q :: rest →
  NoDup (children stm p) →
  unlink q (children stm p) = unlink q (children st p) →
  entry_names st rest = drop (k - 2) (entry_names st (children st p)) →
  (2 ≤ k)%nat →
  ∃ recs st',
    readdir_loop (filldir_room room) iu q rest (Z.of_nat k) buf0 stm
      = Some (Z.of_nat (k + length recs), buf0 ++ recs, st') ∧
    de_name <$> recs
      = take (room - length buf0)
          (drop (k - 2) (entry_names st (children st p))) ∧
    de_off <$> recs = seqZ (Z.of_nat k) (Z.of_nat (length recs)) ∧
    listing st' p = listing st p ∧
    cursor_moved p q st st' ∧
    ∀ filp', f_dentry filp' = f_dentry filp →
             private_data filp' = private_data filp →
             f_pos filp' = Z.of_nat (k + length recs) →
             cursor_at dir p q (k + length recs) filp' st'.
Proof.
  intros Hen Hs Hch Hnd Hun Hnames Hk.
  pose proof Hen as (Hf & Hpd & Hfs & Hino & Hpino & Hpl & Hq & Hnd0 & Hl).
  destruct (readdir_loop_room iu q p room rest pre [] (Z.of_nat k) buf0 st stm)
    as (recs & st' & Hloop & Hrn & Hro & Hs' & Hnd' & Hq' & Hun' & Haft);
    [done|done|done|by intros ? ?%elem_of_nil| |].
  { intros c Hc. apply Hl.
    apply (elem_of_children_moved st stm p q); [done|done|].
    rewrite Hch. apply elem_of_app. right. by right. }
  cbv zeta in *. rewrite Hnames in *.
  set (N := entry_names st (children st p)) in *.
  set (j := (length (drop (k - 2) N) `min` (room - length buf0))%nat) in *.
  assert (Hlen : length recs = j).
  { rewrite <- (length_fmap de_name), Hrn, length_take. lia. }
  exists recs, st'. rewrite Hlen.
  assert (Hun2 : unlink q (children st' p) = unlink q (children st p))
    by congruence.
  assert (HN : entry_names st' (children st' p) = N)
    by (by apply (entry_names_moved st st' p q)).
  split; [by rewrite Hloop, Nat2Z.inj_add|].
  split; [by rewrite Hrn; apply take_min_length|].
  split; [done|]. split; [by unfold listing; rewrite HN|].
  split; [by split|].
  intros filp' Hf' Hpd' Hpos. split; [|split; [done|]].
  - by apply (enumerable_moved dir p q filp filp' st st').
  - intros _. rewrite HN, (same_nodes_entry_names _ _ _ Hs'), Haft.
    rewrite drop_drop. f_equal. lia.
Qed.

Lemma children_nonempty st p c : c ∈ children st p → is_Some (sds st !! p).
Proof.
  unfold children. destruct (sds st !! p); [by eexists|].
  by intros ?%elem_of_nil.
Qed.

Lemma NoDup_unlink x l : NoDup l → NoDup (unlink x l).
Proof. apply NoDup_filter. Qed.

Lemma notin_unlink x l : x ∉ unlink x l.
Proof. by intros [? _]%elem_of_unlink. Qed.

Lemma enumerable_set_pos dir p q pos filp st :
  enumerable dir p q filp st → enumerable dir p q (set_pos pos filp) st.
Proof. intros (? & ? & ?). by split. Qed.

Lemma cursor_at_start dir p q (k : nat) filp st :
  enumerable dir p q filp st → (k ≤ 2)%nat →
  cursor_at dir p q k (set_pos (Z.of_nat k) filp) st.
Proof.
  intros Hen Hk. split; [by apply enumerable_set_pos|]. split; [done|]. lia.
Qed.

Lemma drop_listing st p (k : nat) :
  (2 ≤ k)%nat →
  drop k (listing st p) = drop (k - 2) (entry_names st (children st p)).
Proof.
  intros Hk. destruct k as [|[|k]]; [lia..|]. unfold listing. simpl.
  by rewrite Nat.sub_0_r.
Qed.

(** A position from 2 on that has 32 bits is neither 0 nor 1 as an
    [int]. *)
Lemma int_wrap_past_dots z :
  2 ≤ z < 2 ^ 32 → int_wrap z ≠ 0 ∧ int_wrap z ≠ 1.
Proof.
  intros Hz. unfold int_wrap. destruct (Z.lt_ge_cases z (2 ^ 31)) as [Hlt|Hge].
  - rewrite Z.mod_small by lia. lia.
  - replace (z + 2 ^ 31) with (z - 2 ^ 31 + 1 * 2 ^ 32) by lia.
    rewrite Z_mod_plus_full, Z.mod_small by lia. lia.
Qed.

(** One call of [sysfs_readdir] that enters at the third arm. *)
Lemma readdir_default_room iu dir p q (k : nat) room filp buf0 st :
  cursor_at dir p q k filp st → (2 ≤ k)%nat →
  ∃ recs filp' st',
    readdir_default (filldir_room room) iu filp buf0 st
      = Some (0, filp', buf0 ++ recs, st') ∧
    de_name <$> recs = take (room - length buf0) (drop k (listing st p)) ∧
    de_off <$> recs = seqZ (Z.of_nat k) (Z.of_nat (length recs)) ∧
    listing st' p = listing st p ∧
    cursor_moved p q st st' ∧
    cursor_at dir p q (k + length recs) filp' st'.
Proof.
  intros (Hen & Hpos & Hinv) Hk.
  pose proof Hen as (Hf & Hpd & Hfs & Hino & Hpino & Hpl & Hq & Hnd & Hl).
  pose proof (children_nonempty _ _ _ Hq) as Hp.
  unfold readdir_default. rewrite Hf, Hfs, Hpd, Hpos.
  cbn [mbind option_bind]. rewrite (drop_listing _ _ _ Hk).
  assert (Hname : name_of st q = None) by (by apply name_of_payloadless).
  destruct (decide (k = 2%nat)) as [->|Hk2].
  - change (Z.of_nat 2 =? 2) with true. cbv iota.
    rewrite (children_list_move_head _ _ _ Hp), after_head.
    destruct (readdir_from iu dir p q 2%nat room filp buf0 st
                (list_move q (Head p) st) [] (unlink q (children st p)))
      as (recs & st' & Hloop & Hrn & Hro & Hlist & Hmv & Hcur); try done.
    + apply same_nodes_list_move.
    + by rewrite (children_list_move_head _ _ _ Hp).
    + rewrite (children_list_move_head _ _ _ Hp). apply NoDup_cons.
      split; [apply notin_unlink|by apply NoDup_unlink].
    + rewrite (children_list_move_head _ _ _ Hp), unlink_cons_eq.
      apply unlink_notin, notin_unlink.
    + by rewrite (entry_names_unlink _ _ _ Hname).
    + rewrite Hloop. cbn [mbind option_bind].
      eexists recs, _, st'. split; [reflexivity|]. split; [done|].
      split; [done|]. split; [done|]. split; [done|]. by apply Hcur.
  - destruct (Z.eqb_spec (Z.of_nat k) 2) as [|_]; [lia|].
    destruct (split_at q (children st p) Hq) as (pre & Hsplit & Hpre).
    destruct (readdir_from iu dir p q k room filp buf0 st st pre
                (after q (children st p)) Hen (same_nodes_refl st) Hsplit Hnd
                eq_refl (Hinv ltac:(lia)) Hk)
      as (recs & st' & Hloop & Hrn & Hro & Hlist & Hmv & Hcur).
    rewrite Hloop. cbn [mbind option_bind].
    eexists recs, _, st'. split; [reflexivity|]. split; [done|].
    split; [done|]. split; [done|]. split; [done|]. by apply Hcur.
Qed.

(** One call that enters at the second arm, ".." . *)
Lemma readdir_dotdot_room iu dir p q room filp buf0 st :
  cursor_at dir p q 1%nat filp st →
  ∃ recs filp' st',
    readdir_dotdot (filldir_room room) iu 1 filp buf0 st
      = Some (0, filp', buf0 ++ recs, st') ∧
    de_name <$> recs = take (room - length buf0) (drop 1 (listing st p)) ∧
    de_off <$> recs = seqZ 1 (Z.of_nat (length recs)) ∧
    listing st' p = listing st p ∧
    cursor_moved p q st st' ∧
    cursor_at dir p q (1 + length recs) filp' st'.
Proof.
  intros (Hen & Hpos & Hinv).
  pose proof Hen as (Hf & Hpd & Hfs & Hino & Hpino & Hpl & Hq & Hnd & Hl).
  unfold readdir_dotdot. rewrite Hf.
  destruct (dentries st !! dir) as [de|]; [|by destruct Hpino].
  cbn [mbind option_bind] in Hpino |- *.
  destruct Hpino as [pi ->]. cbn [mbind option_bind].
  unfold filldir_room at 1.
  destruct (decide (length buf0 < room)%nat) as [Hroom|Hfull].
  - unfold filldir_all at 1. cbn [Z.ltb Z.compare]. rewrite Hpos.
    set (rc := {| de_name := ".."; de_len := 2; de_off := 1;
                  de_ino := i_ino pi; de_type := DT_DIR |}).
    destruct (readdir_default_room iu dir p q 2%nat room
                (set_pos (Z.of_nat 1 + 1) filp) (buf0 ++ [rc]) st)
      as (recs & filp' & st' & Hcall & Hrn & Hro & Hlist & Hmv & Hcur); [|done|].
    { apply (cursor_at_start dir p q 2%nat); [done|lia]. }
    rewrite Hcall. exists (rc :: recs), filp', st'.
    rewrite <- app_assoc. split; [done|].
    rewrite length_app in Hrn. cbn [length] in Hrn |- *.
    split; [|split; [|split; [done|split; [done|]]]].
    + rewrite fmap_cons, Hrn.
      replace (room - length buf0)%nat with (S (room - (length buf0 + 1)))
        by lia.
      done.
    + rewrite fmap_cons, Hro. rewrite (seqZ_cons 1) by lia.
      cbn [de_off rc]. do 2 f_equal. lia.
    + replace (1 + S (length recs))%nat with (2 + length recs)%nat by lia. done.
  - cbn [Z.ltb Z.compare Z.opp EINVAL]. exists [], filp, st.
    rewrite app_nil_r. replace (room - length buf0)%nat with 0%nat by lia.
    split; [done|]. split; [done|]. split; [done|]. split; [done|].
    split; [by split; [apply same_nodes_refl|]|].
    split; [done|]. split; [done|]. cbn [length]. lia.
Qed.

(** One call of [sysfs_readdir] into a fresh buffer with room for
    [room] entries, from position [k] of the listing. *)
Lemma readdir_call iu dir p q (k : nat) room filp st :
  cursor_at dir p q k filp st → Z.of_nat k < 2 ^ 32 →
  ∃ filp' buf st',
    sysfs_readdir (filldir_room room) iu filp [] st
      = Some (0, filp', buf, st') ∧
    de_name <$> buf = take room (drop k (listing st p)) ∧
    de_off <$> buf = seqZ (Z.of_nat k) (Z.of_nat (length buf)) ∧
    listing st' p = listing st p ∧
    cursor_moved p q st st' ∧
    cursor_at dir p q (k + length buf) filp' st'.
Proof.
  intros Hcur Hfit. pose proof Hcur as (Hen & Hpos & Hinv).
  pose proof Hen as (Hf & Hpd & Hfs & Hino & Hpino & Hpl & Hq & Hnd & Hl).
  unfold sysfs_readdir. rewrite Hpos. cbv zeta.
  destruct k as [|[|k]].
  - change (int_wrap (Z.of_nat 0)) with 0. change (0 =? 0) with true.
    cbv iota. unfold readdir_dot. change (int_wrap (0 + 1)) with 1.
    rewrite Hf. destruct Hino as [i ->].
    cbn [mbind option_bind]. unfold filldir_room at 1. cbn [length].
    destruct (decide (0 < room)%nat) as [Hroom|Hfull].
    + unfold filldir_all at 1. cbn [Z.ltb Z.compare app]. rewrite Hpos.
      set (rc := {| de_name := "."; de_len := 1; de_off := 0;
                    de_ino := i_ino i; de_type := DT_DIR |}).
      destruct (readdir_dotdot_room iu dir p q room
                  (set_pos (Z.of_nat 0 + 1) filp) [rc] st)
        as (recs & filp' & st' & Hcall & Hrn & Hro & Hlist & Hmv & Hcur').
      { apply (cursor_at_start dir p q 1%nat); [done|lia]. }
      rewrite Hcall. exists filp', (rc :: recs), st'.
      cbn [length] in Hrn |- *. split; [done|].
      split; [|split; [|split; [done|split; [done|]]]].
      * rewrite fmap_cons, Hrn.
        replace room with (S (room - 1)) at 2 by lia. done.
      * rewrite fmap_cons, Hro. rewrite (seqZ_cons 0) by lia.
        cbn [de_off rc]. do 2 f_equal. lia.
      * replace (0 + S (length recs))%nat with (1 + length recs)%nat by lia.
        done.
    + exists filp, [], st. replace room with 0%nat by lia.
      split; [done|]. split; [done|]. split; [done|]. split; [done|].
      split; [by split; [apply same_nodes_refl|]|]. done.
  - change (int_wrap (Z.of_nat 1)) with 1.
    change (1 =? 0) with false. change (1 =? 1) with true. cbv iota.
    destruct (readdir_dotdot_room iu dir p q room filp [] st Hcur)
      as (recs & filp' & st' & Hcall & Hrn & Hro & Hlist & Hmv & Hcur').
    exists filp', recs, st'. cbn [length app] in *.
    rewrite Nat.sub_0_r in Hrn. done.
  - destruct (int_wrap_past_dots (Z.of_nat (S (S k)))) as [H0 H1]; [lia|].
    destruct (Z.eqb_spec (int_wrap (Z.of_nat (S (S k)))) 0) as [|_]; [done|].
    destruct (Z.eqb_spec (int_wrap (Z.of_nat (S (S k)))) 1) as [|_]; [done|].
    destruct (readdir_default_room iu dir p q (S (S k)) room filp [] st Hcur)
      as (recs & filp' & st' & Hcall & Hrn & Hro & Hlist & Hmv & Hcur'); [lia|].
    exists filp', recs, st'. cbn [length app] in *.
    rewrite Nat.sub_0_r in Hrn. done.
Qed.

Lemma take_then_rest {A} (l : list A) r s :
  take r l ++ take s (drop (length (take r l)) l) = take (r + s) l.
Proof.
  destruct (decide (r ≤ length l)%nat).
  - rewrite length_take, Nat.min_l by done. apply take_take_drop.
  - rewrite (take_ge l r), (take_ge l (r + s)) by lia.
    by rewrite drop_all, take_nil, app_nil_r.
Qed.

(** X16. An enumeration in any number of calls, whatever room each call's
    buffer has, reports the listing from where the file stood, entry by
    entry: nothing is left out and nothing comes twice, the offsets
    handed to the caller count up from the position, the position
    advances by the number of entries reported, and the listing itself
    is not changed by being read. This is so where the position and the
    length of the listing are below 2^32, so that no position past ".."
    is taken for 0 or 1 by the switch on the [int]. *)
Theorem chunked_enumeration iu dir p q (k : nat) rooms filp st :
  cursor_at dir p q k filp st →
  Z.of_nat k < 2 ^ 32 →
  Z.of_nat (length (listing st p)) < 2 ^ 32 →
  ∃ bufs filp' st',
    readdir_calls iu rooms filp st = Some (bufs, filp', st') ∧
    de_name <$> bufs = take (sum_list rooms) (drop k (listing st p)) ∧
    de_off <$> bufs = seqZ (Z.of_nat k) (Z.of_nat (length bufs)) ∧
    f_pos filp' = Z.of_nat (k + length bufs) ∧
    listing st' p = listing st p ∧
    cursor_at dir p q (k + length bufs) filp' st'.
Proof.
  revert k filp st.
  induction rooms as [|room rooms IH]; intros k filp st Hcur Hk Hlen32.
  - exists [], filp, st. cbn [readdir_calls sum_list length fmap list_fmap].
    rewrite Nat.add_0_r. split; [done|]. split; [done|]. split; [done|].
    split; [by destruct Hcur as (_ & ? & _)|]. done.
  - destruct (readdir_call iu dir p q k room filp st Hcur Hk)
      as (filp1 & buf & st1 & Hcall & Hrn & Hro & Hlist & _ & Hcur1).
    assert (Hbuf : length buf
                   = (room `min` (length (listing st p) - k))%nat).
    { by rewrite <- (length_fmap de_name), Hrn, length_take, length_drop. }
    destruct (IH _ _ _ Hcur1)
      as (bufs & filp' & st' & Hcalls & Hrns & Hros & Hpos & Hlists & Hcur');
      [lia|by rewrite Hlist|].
    cbn [readdir_calls]. rewrite Hcall. cbn [mbind option_bind].
    rewrite Hcalls. cbn [mbind option_bind].
    exists (buf ++ bufs), filp', st'. rewrite length_app, Nat.add_assoc.
    split; [done|]. split; [|split; [|split; [done|split; [congruence|done]]]].
    + rewrite fmap_app, Hrn, Hrns, Hlist. cbn [sum_list].
      assert (Hlen : length buf = length (take room (drop k (listing st p))))
        by (by rewrite <- Hrn, length_fmap).
      rewrite Hlen, <- drop_drop. apply take_then_rest.
    + rewrite fmap_app, Hro, Hros, Nat2Z.inj_add, Nat2Z.inj_add.
      symmetry. apply seqZ_app; lia.
Qed.

Lemma children_list_add_tail_head st q p :
  is_Some (sds st !! p) →
  children (list_add_tail q (Head p) st) p = children st p ++ [q].
Proof.
  intros [psd Hp]. unfold children, list_add_tail. cbn [with_sds sds].
  by rewrite lookup_alter_eq, Hp.
Qed.

Lemma children_list_add_tail_sibling st q x p :
  children (list_add_tail q (Sibling x) st) p
  = insert_before x q (children st p).
Proof.
  unfold children, list_add_tail. cbn [with_sds sds]. rewrite lookup_fmap.
  by destruct (sds st !! p).
Qed.

(** Where the walk of [sysfs_dir_lseek] puts the cursor: behind the
    shortest front part of the list that holds [n] entries with a
    payload, or at the end of the list if there are fewer. [l1] is the
    part of the list that the walk has behind it. *)
Lemma lseek_walk_spec st0 st p q l2 :
  ∀ l1 n,
    same_nodes st0 st →
    is_Some (sds st !! p) →
    children st p = l1 ++ l2 →
    NoDup (l1 ++ l2) →
    (∀ c, c ∈ l2 → listable st0 c) →
    0 ≤ n →
    ∃ h l2a l2b,
      lseek_walk st p n l2 = Some h ∧
      l2 = l2a ++ l2b ∧
      children (list_add_tail q h st) p = l1 ++ l2a ++ q :: l2b ∧
      entry_names st0 l2b = drop (Z.to_nat n) (entry_names st0 l2).
Proof.
  induction l2 as [|x l2 IH]; intros l1 n Hs Hp Hch Hnd Hl Hn.
  - exists (Head p), [], []. cbn [lseek_walk]. split; [done|]. split; [done|].
    split; [by rewrite (children_list_add_tail_head _ _ _ Hp), Hch, app_nil_r|].
    unfold entry_names. simpl. by rewrite drop_nil.
  - cbn [lseek_walk]. destruct (Z.eqb_spec n 0) as [->|Hn0].
    + exists (Sibling x), [], (x :: l2). split; [done|]. split; [done|].
      split; [|done].
      rewrite children_list_add_tail_sibling, Hch. apply insert_before_app.
      apply NoDup_app in Hnd as (_ & Hd & _). intros Hin.
      eapply Hd; [exact Hin|]. left.
    + destruct (Hl x) as (sd0 & Hsd0 & Hls); [left|].
      pose proof Hs as [Hd Hnodes]. pose proof (Hnodes x) as Hx.
      rewrite Hsd0 in Hx.
      destruct (sds st !! x) as [sd|] eqn:Hsd; [|done]. simpl in Hx.
      assert (Hi : ident sd = ident sd0) by congruence.
      pose proof (ident_element _ _ Hi) as He.
      cbn [mbind option_bind]. rewrite He.
      destruct (IH (l1 ++ [x])
                  (if s_element sd0 is Some _ then n - 1 else n))
        as (h & l2a & l2b & Hwalk & Hsplit & Hchild & Hnames); try done.
      * by rewrite <- app_assoc.
      * by rewrite <- app_assoc.
      * intros c Hc. apply Hl. by right.
      * destruct (s_element sd0); lia.
      * exists h, (x :: l2a), l2b. split; [exact Hwalk|].
        split; [by rewrite Hsplit|].
        split; [by rewrite Hchild, <- app_assoc|].
        rewrite Hnames, entry_names_cons. unfold name_of. rewrite Hsd0.
        cbn [mbind option_bind].
        destruct (s_element sd0) as [el|] eqn:Hel; cbn [mbind option_bind].
        -- destruct Hls as [[nm ->] _]; [done|].
           replace (Z.to_nat n) with (S (Z.to_nat (n - 1))) by lia. done.
        -- done.
Qed.

(** A seek to [offset] leaves the open directory at position [offset]
    of its listing. *)
Lemma dir_lseek_places_cursor dir p q (k : nat) filp st offset :
  cursor_at dir p q k filp st → 0 ≤ offset →
  ∃ filp1 st1,
    sysfs_dir_lseek filp offset 0 st = Some (offset, filp1, st1) ∧
    listing st1 p = listing st p ∧
    cursor_moved p q st st1 ∧
    cursor_at dir p q (Z.to_nat offset) filp1 st1.
Proof.
  intros Hcur Hoff. pose proof Hcur as (Hen & Hpos & Hinv).
  pose proof Hen as (Hf & Hpd & Hfs & Hino & Hpino & Hpl & Hq & Hnd & Hl).
  unfold sysfs_dir_lseek. cbn [Z.eqb orb andb].
  destruct (Z.leb_spec 0 offset); [|lia].
  destruct (Z.eqb_spec offset (f_pos filp)) as [Heq|Hne]; cbn [negb].
  { exists filp, st. split; [done|]. split; [done|].
    split; [by split; [apply same_nodes_refl|]|].
    replace (Z.to_nat offset) with k by lia. done. }
  cbn [set_pos f_pos f_dentry private_data].
  destruct (Z.leb_spec 2 offset) as [H2|H2].
  2:{ exists (set_pos offset filp), st. split; [done|]. split; [done|].
      split; [by split; [apply same_nodes_refl|]|].
      assert (set_pos offset filp
              = set_pos (Z.of_nat (Z.to_nat offset)) filp) as ->
        by (f_equal; lia).
      apply cursor_at_start; [done|lia]. }
  rewrite Hf, Hfs, Hpd. cbn [mbind option_bind].
  pose proof (children_nonempty _ _ _ Hq) as Hp.
  assert (Hname : name_of st q = None) by (by apply name_of_payloadless).
  destruct (lseek_walk_spec st (list_del q st) p q (children (list_del q st) p)
              [] (offset - 2))
    as (h & l2a & l2b & Hwalk & Hsplit & Hchild & Hnames).
  { apply same_nodes_list_del. }
  { rewrite lookup_list_del. destruct Hp as [? ->]. by eexists. }
  { done. }
  { rewrite children_list_del. by apply NoDup_unlink. }
  { intros c. rewrite children_list_del. intros [_ Hc]%elem_of_unlink.
    by apply Hl. }
  { lia. }
  rewrite Hwalk. cbn [mbind option_bind].
  set (st1 := list_add_tail q h (list_del q st)).
  rewrite children_list_del in Hsplit, Hnames.
  assert (Hch1 : children st1 p = l2a ++ q :: l2b) by done.
  assert (Hs1 : same_nodes st st1).
  { eapply same_nodes_trans;
      [apply same_nodes_list_del|apply same_nodes_list_add_tail]. }
  assert (Hq2 : (q ∉ l2a) ∧ (q ∉ l2b)).
  { apply not_elem_of_app. rewrite <- Hsplit. apply notin_unlink. }
  destruct Hq2 as [Hqa Hqb].
  assert (Hun1 : unlink q (children st1 p) = unlink q (children st p)).
  { rewrite Hch1, unlink_middle by done. by rewrite <- Hsplit. }
  assert (Hnd1 : NoDup (children st1 p)).
  { rewrite Hch1. pose proof (NoDup_unlink q _ Hnd) as Hndu.
    rewrite Hsplit in Hndu. apply NoDup_app in Hndu as (Ha & Hab & Hb).
    apply NoDup_app. split; [done|]. split.
    - intros c Hc [->|Hcb]%elem_of_cons; [done|]. by eapply Hab.
    - by apply NoDup_cons. }
  assert (Hq1 : q ∈ children st1 p).
  { rewrite Hch1. apply elem_of_app. right. left. }
  assert (HN : entry_names st1 (children st1 p)
               = entry_names st (children st p))
    by (by apply (entry_names_moved st st1 p q)).
  exists (set_pos offset filp), st1. split; [done|].
  split; [by unfold listing; rewrite HN|].
  split; [by split|].
  split; [|split].
  - by apply (enumerable_moved dir p q filp _ st st1).
  - cbn [set_pos f_pos]. lia.
  - intros _. rewrite HN, Hch1, (after_app_notin _ _ _ Hqa).
    rewrite (same_nodes_entry_names _ _ _ Hs1), Hnames.
    rewrite (entry_names_unlink _ _ _ Hname). f_equal. lia.
Qed.

(** X17. Seeking and enumerating agree: after a seek to [offset], an
    offset below 2^32, whatever the position was before, an enumeration
    reports the listing from entry [offset] on, as many entries as the
    caller has room for. *)
Theorem seek_then_enumerate iu dir p q (k : nat) filp st offset room :
  cursor_at dir p q k filp st → 0 ≤ offset < 2 ^ 32 →
  ∃ filp1 st1 filp2 buf st2,
    sysfs_dir_lseek filp offset 0 st = Some (offset, filp1, st1) ∧
    sysfs_readdir (filldir_room room) iu filp1 [] st1
      = Some (0, filp2, buf, st2) ∧
    de_name <$> buf = take room (drop (Z.to_nat offset) (listing st p)) ∧
    de_off <$> buf = seqZ offset (Z.of_nat (length buf)) ∧
    f_pos filp2 = offset + Z.of_nat (length buf).
Proof.
  intros Hcur [Hoff Hfit].
  destruct (dir_lseek_places_cursor dir p q k filp st offset Hcur Hoff)
    as (filp1 & st1 & Hseek & Hlist & _ & Hcur1).
  destruct (readdir_call iu dir p q (Z.to_nat offset) room filp1 st1 Hcur1)
    as (filp2 & buf & st2 & Hcall & Hrn & Hro & _ & _ & Hcur2); [lia|].
  exists filp1, st1, filp2, buf, st2. split; [done|]. split; [done|].
  split; [by rewrite Hrn, Hlist|]. split.
  - rewrite Hro. f_equal. lia.
  - destruct Hcur2 as (_ & -> & _). lia.
Qed.

(** The sample directory with its two files, just opened, is at the
    start of its listing. *)
Lemma two_files_cursor filp st :
  two_files = Some (filp, st) → cursor_at 0 0 3 0 filp st.
Proof.
  intros H. vm_compute in H. injection H as <- <-.
  split; [|split; [reflexivity|intros ?; lia]].
  split; [reflexivity|]. split; [reflexivity|]. split; [reflexivity|].
  split; [by eexists|]. split; [by eexists|]. split; [reflexivity|].
  assert (Hch : ∀ s, children s 0 = from_option s_children [] (sds s !! 0%nat))
    by done.
  split; [rewrite Hch; vm_compute; left|].
  split.
  { rewrite Hch. vm_compute.
    repeat (apply NoDup_cons; split;
            [intros Hin; repeat (apply elem_of_cons in Hin as [Hin|Hin];
                                 [discriminate|]);
             by apply elem_of_nil in Hin|]).
    apply NoDup_nil_2. }
  intros c Hc. rewrite Hch in Hc. vm_compute in Hc.
  repeat (apply elem_of_cons in Hc as [->|Hc];
          [eexists; split; [vm_compute; reflexivity|];
           vm_compute; intros Hel;
           first [done|split; [by eexists|by intros d [=]]]|]).
  by apply elem_of_nil in Hc.
Qed.

Lemma chunked_enumeration_witness :
  ∃ filp st bufs filp' st',
    two_files = Some (filp, st) ∧
    readdir_calls sample_iunique [1; 2; 5]%nat filp st
      = Some (bufs, filp', st') ∧
    de_name <$> bufs = ["."; ".."; "b"; "a"] ∧
    f_pos filp' = 4.
Proof.
  eassert (two_files = Some (_, _)) as Htwo by (vm_compute; reflexivity).
  destruct (chunked_enumeration sample_iunique 0 0 3 0 [1; 2; 5]%nat _ _
              (two_files_cursor _ _ Htwo))
    as (bufs & filp' & st' & Hcalls & Hnames & _ & Hpos & _);
    [lia|vm_compute; reflexivity|].
  assert (Hn : de_name <$> bufs = ["."; ".."; "b"; "a"])
    by (rewrite Hnames; vm_compute; reflexivity).
  eexists _, _, bufs, filp', st'. split; [exact Htwo|].
  split; [exact Hcalls|]. split; [exact Hn|].
  rewrite Hpos, <- (length_fmap de_name), Hn. reflexivity.
Defined.

Lemma seek_then_enumerate_witness :
  ∃ filp st filp1 st1 filp2 buf st2,
    two_files = Some (filp, st) ∧
    sysfs_dir_lseek filp 3 0 st = Some (3, filp1, st1) ∧
    sysfs_readdir (filldir_room 5) sample_iunique filp1 [] st1
      = Some (0, filp2, buf, st2) ∧
    de_name <$> buf = ["a"] ∧
    f_pos filp2 = 4.
Proof.
  eassert (two_files = Some (_, _)) as Htwo by (vm_compute; reflexivity).
  destruct (seek_then_enumerate sample_iunique 0 0 3 0 _ _ 3 5
              (two_files_cursor _ _ Htwo) ltac:(lia))
    as (filp1 & st1 & filp2 & buf & st2 & Hseek & Hcall & Hnames & _ & Hpos).
  assert (Hn : de_name <$> buf = ["a"])
    by (rewrite Hnames; vm_compute; reflexivity).
  eexists _, _, filp1, st1, filp2, buf, st2. split; [exact Htwo|].
  split; [exact Hseek|]. split; [exact Hcall|]. split; [exact Hn|].
  rewrite Hpos, <- (length_fmap de_name), Hn. reflexivity.
Defined.

Lemma after_unlink q1 q2 l :
  q1 ≠ q2 → after q2 (unlink q1 l) = unlink q1 (after q2 l).
Proof.
  intros Hne. induction l as [|y l IH]; [done|].
  destruct (decide (y = q1)) as [->|Hy1].
  - rewrite unlink_cons_eq. simpl. by rewrite decide_False.
  - unfold unlink at 1. rewrite filter_cons_True by done. fold (unlink q1 l).
    simpl. destruct (decide (y = q2)); [done|]. exact IH.
Qed.

(** What one open file does with its cursor leaves another open file
    of the same directory where it stands. *)
Lemma cursor_at_undisturbed dir p q1 q2 k2 f2 st st' :
  cursor_at dir p q2 k2 f2 st →
  cursor_moved p q1 st st' → q1 ≠ q2 →
  payloadless st q1 = true → q1 ∈ children st p →
  NoDup (children st' p) →
  cursor_at dir p q2 k2 f2 st'.
Proof.
  intros (Hen & Hpos & Hinv) [Hs Hun] Hne Hpl1 Hq1 Hnd'.
  pose proof Hen as (Hf & Hpd & Hfs & Hino & Hpino & Hpl & Hq & Hnd & Hl).
  pose proof Hs as [Hd _].
  assert (Hname1 : name_of st q1 = None) by (by apply name_of_payloadless).
  assert (HN : entry_names st' (children st' p)
               = entry_names st (children st p))
    by (by apply (entry_names_moved st st' p q1)).
  split; [|split; [done|]].
  - split; [done|]. split; [done|]. rewrite Hd.
    split; [done|]. split; [done|]. split; [done|].
    split; [by rewrite (same_nodes_payloadless _ _ _ Hs)|].
    split; [|split; [done|]].
    + assert (q2 ∈ unlink q1 (children st' p)) as [_ ?]%elem_of_unlink; [|done].
      rewrite Hun. by apply elem_of_unlink.
    + intros c Hc. apply (same_nodes_listable st); [done|]. apply Hl.
      by apply (elem_of_children_moved st st' p q1).
  - intros Hk. rewrite HN, <- (Hinv Hk).
    rewrite (same_nodes_entry_names _ _ _ Hs).
    rewrite <- (entry_names_unlink st q1 (after q2 (children st' p)) Hname1).
    rewrite <- (entry_names_unlink st q1 (after q2 (children st p)) Hname1).
    by rewrite <- !after_unlink, Hun by done.
Qed.

(** X18. Two open files of one directory, at positions below 2^32, do
    not disturb each other. While one of them enumerates or seeks, the
    other keeps its place in the listing: what it is told by its next
    call is what it would have been told had the first done nothing. *)
Theorem readers_do_not_disturb_each_other iu dir p q1 q2 (k1 k2 : nat)
    f1 f2 st room1 room2 offset :
  cursor_at dir p q1 k1 f1 st →
  cursor_at dir p q2 k2 f2 st →
  q1 ≠ q2 →
  Z.of_nat k1 < 2 ^ 32 → Z.of_nat k2 < 2 ^ 32 →
  0 ≤ offset →
  (∃ f1' buf1 st1 f2' buf2 st2,
     sysfs_readdir (filldir_room room1) iu f1 [] st
       = Some (0, f1', buf1, st1) ∧
     sysfs_readdir (filldir_room room2) iu f2 [] st1
       = Some (0, f2', buf2, st2) ∧
     de_name <$> buf2 = take room2 (drop k2 (listing st p))) ∧
  (∃ f1' st1 f2' buf2 st2,
     sysfs_dir_lseek f1 offset 0 st = Some (offset, f1', st1) ∧
     sysfs_readdir (filldir_room room2) iu f2 [] st1
       = Some (0, f2', buf2, st2) ∧
     de_name <$> buf2 = take room2 (drop k2 (listing st p))).
Proof.
  intros Hc1 Hc2 Hne Hk1 Hk2 Hoff.
  pose proof Hc1 as ((_ & _ & _ & _ & _ & Hpl1 & Hq1 & _) & _).
  split.
  - destruct (readdir_call iu dir p q1 k1 room1 f1 st Hc1 Hk1)
      as (f1' & buf1 & st1 & Hcall1 & _ & _ & Hlist & Hmv & Hc1').
    assert (Hc2' : cursor_at dir p q2 k2 f2 st1).
    { apply (cursor_at_undisturbed dir p q1 q2 k2 f2 st st1); try done.
      by destruct Hc1' as ((_ & _ & _ & _ & _ & _ & _ & ? & _) & _). }
    destruct (readdir_call iu dir p q2 k2 room2 f2 st1 Hc2' Hk2)
      as (f2' & buf2 & st2 & Hcall2 & Hrn & _).
    exists f1', buf1, st1, f2', buf2, st2. by rewrite Hrn, Hlist.
  - destruct (dir_lseek_places_cursor dir p q1 k1 f1 st offset Hc1 Hoff)
      as (f1' & st1 & Hseek & Hlist & Hmv & Hc1').
    assert (Hc2' : cursor_at dir p q2 k2 f2 st1).
    { apply (cursor_at_undisturbed dir p q1 q2 k2 f2 st st1); try done.
      by destruct Hc1' as ((_ & _ & _ & _ & _ & _ & _ & ? & _) & _). }
    destruct (readdir_call iu dir p q2 k2 room2 f2 st1 Hc2' Hk2)
      as (f2' & buf2 & st2 & Hcall2 & Hrn & _).
    exists f1', st1, f2', buf2, st2. by rewrite Hrn, Hlist.
Qed.

Lemma two_readers_cursors f1 f2 st :
  two_readers = Some (f1, f2, st) →
  cursor_at 0 0 3 0 f1 st ∧ cursor_at 0 0 4 0 f2 st.
Proof.
  intros H. vm_compute in H. injection H as <- <- <-.
  assert (Hch : ∀ s, children s 0 = from_option s_children [] (sds s !! 0%nat))
    by done.
  split.
  all: split; [|split; [reflexivity|intros ?; lia]].
  all: split; [reflexivity|]; split; [reflexivity|]; split; [reflexivity|].
  all: split; [by eexists|]; split; [by eexists|]; split; [reflexivity|].
  all: split; [rewrite Hch; vm_compute; set_solver|].
  all: split;
    [rewrite Hch; vm_compute;
     repeat (apply NoDup_cons; split;
             [intros Hin; repeat (apply elem_of_cons in Hin as [Hin|Hin];
                                  [discriminate|]);
              by apply elem_of_nil in Hin|]);
     apply NoDup_nil_2|].
  all: intros c Hc; rewrite Hch in Hc; vm_compute in Hc;
    repeat (apply elem_of_cons in Hc as [->|Hc];
            [eexists; split; [vm_compute; reflexivity|];
             vm_compute; intros Hel;
             first [done|split; [by eexists|by intros d [=]]]|]);
    by apply elem_of_nil in Hc.
Qed.

Lemma readers_do_not_disturb_each_other_witness :
  ∃ f1 f2 st f1' buf1 st1 f2' buf2 st2,
    two_readers = Some (f1, f2, st) ∧
    sysfs_readdir (filldir_room 3) sample_iunique f1 [] st
      = Some (0, f1', buf1, st1) ∧
    sysfs_readdir (filldir_room 9) sample_iunique f2 [] st1
      = Some (0, f2', buf2, st2) ∧
    de_name <$> buf2 = ["."; ".."; "b"; "a"].
Proof.
  eassert (two_readers = Some (_, _, _)) as Htwo by (vm_compute; reflexivity).
  destruct (two_readers_cursors _ _ _ Htwo) as [Hc1 Hc2].
  destruct (readers_do_not_disturb_each_other sample_iunique 0 0 3 4 0 0
              _ _ _ 3 9 0 Hc1 Hc2 ltac:(discriminate) ltac:(lia) ltac:(lia)
              ltac:(lia))
    as ((f1' & buf1 & st1 & f2' & buf2 & st2 & Hr1 & Hr2 & Hn) & _).
  eexists _, _, _, f1', buf1, st1, f2', buf2, st2.
  split; [exact Htwo|]. split; [exact Hr1|]. split; [exact Hr2|].
  rewrite Hn. vm_compute. reflexivity.
Defined.

(** ** The properties above on the sample trees *)

Lemma sample_root_unreferenced x : unreferenced sample_root x.
Proof.
  intros c sd Hsd. cbn in Hsd.
  apply lookup_singleton_Some in Hsd as [_ <-]. apply not_elem_of_nil.
Qed.

Lemma dir_open_close_restores_witness :
  ∃ filp' st',
    sysfs_dir_open (Some 3%nat) sample_dir sample_root = Some (0, filp', st') ∧
    children st' 0 = [3%nat] ∧
    sysfs_dir_close filp' st' = Some (0, sample_root).
Proof.
  eassert (sysfs_dir_open (Some 3%nat) sample_dir sample_root
           = Some (0, _, _)) as Hopen by (vm_compute; reflexivity).
  eexists _, _. split; [exact Hopen|]. split; [reflexivity|].
  apply (dir_open_close_restores 3 sample_dir sample_root 0 _ _ eq_refl
           (sample_root_unreferenced 3) Hopen).
Defined.

Lemma lookup_miss_changes_nothing_witness :
  sysfs_lookup 0 9 5 (two_dirs_after_lookup (negative "dev"))
  = Some (0, two_dirs_after_lookup (negative "dev")).
Proof.
  apply (lookup_miss_changes_nothing 0 9 5 _ (negative "dev") 0);
    [reflexivity|reflexivity|by eexists|].
  intros c Hc.
  assert (Hch : children (two_dirs_after_lookup (negative "dev")) 0
                = [2%nat; 1%nat]) by reflexivity.
  rewrite Hch in Hc.
  repeat (apply elem_of_cons in Hc as [->|Hc];
          [eexists; split; [vm_compute; reflexivity|];
           intros Hty; by vm_compute in Hty|]).
  by apply elem_of_nil in Hc.
Defined.

Lemma created_file_is_found_witness :
  ∃ st1 st2 i,
    sysfs_add_file (Some 1%nat) 0 attr_a SYSFS_KOBJ_ATTR
      (after_lookup (negative "a")) = Some (0, st1) ∧
    sysfs_lookup 0 9 5 st1 = Some (0, st2) ∧
    dentries st2 !! 5%nat ≫= d_inode = Some i ∧
    i_mode i = 33188 ∧ i_size i = PAGE_SIZE ∧
    dentries st2 !! 5%nat ≫= d_fsdata = Some 1%nat.
Proof.
  eassert (sysfs_add_file (Some 1%nat) 0 attr_a SYSFS_KOBJ_ATTR
             (after_lookup (negative "a")) = Some (0, _)) as Hadd
    by (vm_compute; reflexivity).
  destruct (created_file_is_found 0 0 (after_lookup (negative "a")) 1 attr_a
              SYSFS_KOBJ_ATTR _ 5 (negative "a") 9
              (after_lookup_ok _) eq_refl (or_introl eq_refl) Hadd
              eq_refl eq_refl eq_refl)
    as (st2 & i & Hlk & _ & Hd & Hmode & Hsize & _).
  eexists _, st2, i. split; [exact Hadd|]. split; [exact Hlk|].
  rewrite Hd. split; [reflexivity|]. split; [by rewrite Hmode|].
  split; [by apply Hsize|reflexivity].
Defined.

Lemma lookup_reference_is_returned_witness :
  ∃ st1 st2 st3 st4,
    sysfs_add_file (Some 1%nat) 0 attr_a SYSFS_KOBJ_ATTR
      (after_lookup (negative "a")) = Some (0, st1) ∧
    sysfs_lookup 0 9 5 st1 = Some (0, st2) ∧
    sysfs_d_iput 5 st2 = Some st3 ∧ sds st3 = sds st1 ∧
    sysfs_lookup (- ENOMEM) 9 5 st1 = Some (- ENOMEM, st4) ∧
    s_count <$> sds st4 !! 1%nat = Some 1.
Proof.
  eassert (sysfs_add_file (Some 1%nat) 0 attr_a SYSFS_KOBJ_ATTR
             (after_lookup (negative "a")) = Some (0, _)) as Hadd
    by (vm_compute; reflexivity).
  destruct (lookup_reference_is_returned 0 0 (after_lookup (negative "a")) 1
              attr_a SYSFS_KOBJ_ATTR _ 5 (negative "a") 9
              (after_lookup_ok _) eq_refl (or_introl eq_refl) Hadd
              eq_refl eq_refl eq_refl)
    as ((st2 & st3 & Hlk & Hput & Hsds) & Hfail).
  destruct (Hfail (- ENOMEM)) as (st4 & Hlk4 & Hsds4 & _); [done|].
  eexists _, st2, st3, st4. split; [exact Hadd|]. split; [exact Hlk|].
  split; [exact Hput|]. split; [exact Hsds|]. split; [exact Hlk4|].
  rewrite Hsds4, lookup_insert_eq. reflexivity.
Defined.

Lemma create_then_remove_dir_witness :
  ∃ st1 st2,
    create_dir (inr 5%nat) (Some 1%nat) 0 6 8 0 "dev"
               (after_lookup negative_dev) = Some (0, Some 5%nat, st1) ∧
    children st1 0 = [1%nat] ∧
    remove_dir true 5 st1 = Some st2 ∧
    sds st2 = sds (after_lookup negative_dev).
Proof.
  eassert (create_dir (inr 5%nat) (Some 1%nat) 0 6 8 0 "dev"
             (after_lookup negative_dev) = Some (0, Some 5%nat, _)) as Hcreate
    by (vm_compute; reflexivity).
  assert (Hfree : "dev" ∉ entry_names (after_lookup negative_dev)
                            (children (after_lookup negative_dev) 0))
    by (vm_compute; by intros ?%elem_of_nil).
  destruct (create_then_remove_dir 5 1 6 8 0 "dev" (after_lookup negative_dev)
              0 negative_dev true _ (after_lookup_ok _) Hfree eq_refl
              (after_lookup_unreferenced _ _) eq_refl ltac:(discriminate)
              Hcreate)
    as (Hch & st2 & Hrm & _ & Hsds & _).
  eexists _, st2. split; [exact Hcreate|]. split; [exact Hch|].
  split; [exact Hrm|exact Hsds].
Defined.

Lemma create_dir_binds_object_on_success_witness :
  ∃ st',
    sysfs_create_dir (Some 0%nat) (inr 5%nat) (Some 1%nat) 0 6 8
      with_new_object = Some (0, st') ∧
    kobjs st' !! 8%nat ≫= k_dentry = Some 5%nat.
Proof.
  eassert (sysfs_create_dir (Some 0%nat) (inr 5%nat) (Some 1%nat) 0 6 8
             with_new_object = Some (0, _)) as Hcreate
    by (vm_compute; reflexivity).
  destruct (create_dir_binds_object_on_success (Some 0%nat) (inr 5%nat)
              (Some 1%nat) 0 6 8 with_new_object 0 _ _ eq_refl
              ltac:(by intros ? [=]) Hcreate)
    as (_ & _ & Hbound).
  destruct (Hbound eq_refl) as (d & [= <-] & Hk).
  eexists. split; [exact Hcreate|]. rewrite Hk, lookup_insert_eq. reflexivity.
Defined.

Lemma rename_outcomes_witness :
  ∃ st',
    sysfs_rename_dir (inr 5%nat) 0 8 "usb" (two_dirs_after_lookup (negative "usb"))
      = Some (0, st') ∧
    name_of st' 1 = Some "usb" ∧
    sysfs_rename_dir (inl (- ENOMEM)) 0 8 "usb"
      (two_dirs_after_lookup (negative "usb"))
      = Some (0, two_dirs_after_lookup (negative "usb")).
Proof.
  destruct (rename_outcomes (inr 5%nat) 0 8 "usb"
              (two_dirs_after_lookup (negative "usb")) _ 7 0 eq_refl
              ltac:(discriminate) eq_refl eq_refl)
    as (_ & _ & Hok).
  destruct (Hok 5%nat (negative "usb") 10%nat eq_refl eq_refl eq_refl eq_refl
              eq_refl ltac:(by eexists))
    as (st' & Hren & _ & _ & _ & Hname).
  exists st'. split; [exact Hren|]. split.
  - eapply Hname; [reflexivity|reflexivity|discriminate|reflexivity].
  - destruct (rename_outcomes (inl (- ENOMEM)) 0 8 "usb"
                (two_dirs_after_lookup (negative "usb")) _ 7 0 eq_refl
                ltac:(discriminate) eq_refl eq_refl)
      as (Hswallow & _). by apply (Hswallow (- ENOMEM)).
Defined.

(** ** The type of an entry *)

Lemma shiftr_permission_bits m : Z.shiftr (Z.land m S_IALLUGO) 12 = 0.
Proof.
  change S_IALLUGO with (Z.ones 12). apply Z.bits_inj'. intros n Hn.
  rewrite Z.shiftr_spec, Z.land_spec, Z.ones_spec_high, andb_false_r by lia.
  by rewrite Z.bits_0.
Qed.

Lemma dt_type_file attr type cnt dn : dt_type (attr_node attr type cnt dn) = 8.
Proof.
  unfold dt_type, attr_node, file_mode. cbn [s_mode].
  by rewrite Z.shiftr_lor, shiftr_permission_bits.
Qed.

(** X19. The type an enumeration reports for an entry comes from the mode
    its maker gave the node: a file made by [sysfs_add_file] is reported
    as a regular file (8, [DT_REG]) whatever bits the attribute's mode
    has, also bits outside the permission bits, and a directory made by
    [create_dir] as a directory. *)
Theorem entries_are_typed_by_their_maker dir p st :
  dir_ok dir p st →
  (∀ x attr type st1,
     sds st !! x = None →
     sysfs_add_file (Some x) dir attr type st = Some (0, st1) →
     dt_type <$> sds st1 !! x = Some 8) ∧
  (∀ d x ino k n st1 de,
     sds st !! x = None →
     dentries st !! d = Some de → d ≠ dir →
     n ∉ entry_names st (children st p) →
     create_dir (inr d) (Some x) 0 ino k dir n st = Some (0, Some d, st1) →
     dt_type <$> sds st1 !! x = Some DT_DIR).
Proof.
  intros Hok. split.
  - intros x attr type st1 Hx Hadd.
    destruct (add_file_node _ _ _ _ _ _ _ Hok Hx Hadd) as (-> & _).
    cbn [fmap option_fmap option_map]. by rewrite dt_type_file.
  - intros d x ino k n st1 de Hx Hde Hd Hnin.
    rewrite (create_dir_linked d x 0 ino k dir n st p de Hok Hnin Hx Hde Hd).
    cbn [Z.eqb]. destruct (dentries st !! dir ≫= d_inode); [|done].
    cbn [mbind option_bind]. intros [= <-].
    pose proof Hok as (_ & Hp & _).
    destruct (linked_node x p d k st Hx Hp) as (Hx1 & _).
    change (sds (materialised ino d dir (linked x p d k st)))
      with (sds (linked x p d k st)).
    rewrite Hx1. reflexivity.
Qed.

Lemma entries_are_typed_by_their_maker_witness :
  ∃ st1,
    sysfs_add_file (Some 1%nat) 0
      (AttrPtr {| attr_name := "odd"; attr_mode := 16877 |}) SYSFS_KOBJ_ATTR
      sample_root = Some (0, st1) ∧
    s_mode <$> sds st1 !! 1%nat = Some 33261 ∧
    dt_type <$> sds st1 !! 1%nat = Some 8.
Proof.
  eassert (sysfs_add_file (Some 1%nat) 0
             (AttrPtr {| attr_name := "odd"; attr_mode := 16877 |})
             SYSFS_KOBJ_ATTR sample_root = Some (0, _)) as Hadd
    by (vm_compute; reflexivity).
  eexists. split; [exact Hadd|]. split; [reflexivity|].
  destruct (entries_are_typed_by_their_maker 0 0 sample_root sample_root_ok)
    as [Hfile _].
  eapply Hfile; [|exact Hadd]. reflexivity.
Defined.

(** ** The files of an object *)

Lemma create_dir_under_parent root lk a cr ino kobj st ko pdir :
  kobjs st !! kobj = Some ko →
  parent_dentry root ko st = Some pdir →
  sysfs_create_dir root lk a cr ino kobj st
  = '(error, dentry, st) ← create_dir lk a cr ino kobj pdir (k_name ko) st;
    if error =? 0 then
      Some (0, with_kobjs
                 (<[kobj := {| k_name := k_name ko; k_parent := k_parent ko;
                              k_dentry := dentry |}]>) st)
    else Some (error, st).
Proof.
  intros Hko Hpar. unfold sysfs_create_dir, parent_dentry in *. rewrite Hko.
  cbn [mbind option_bind]. destruct (k_parent ko) as [pk|].
  - by rewrite Hpar.
  - by rewrite Hpar.
Qed.

(** X20. An attribute file made for an object lands in the directory that
    [sysfs_create_dir] has made for that object: it is the one child of
    the new directory's node, under the attribute's name, and the
    directory of the parent has gained the new directory and nothing
    else. *)
Theorem file_lands_in_object_directory root d x y ino kobj ko st st1 attr
    pdir pp de :
  kobjs st !! kobj = Some ko →
  parent_dentry root ko st = Some pdir →
  dir_ok pdir pp st →
  k_name ko ∉ entry_names st (children st pp) →
  sds st !! x = None → dentries st !! d = Some de → d ≠ pdir →
  sysfs_create_dir root (inr d) (Some x) 0 ino kobj st = Some (0, st1) →
  sds st1 !! y = None →
  ∃ st2,
    sysfs_create_file (Some y) (Some kobj) (Some attr) st1 = Some (0, st2) ∧
    children st2 x = [y] ∧
    name_of st2 y = Some (attr_name (deref attr)) ∧
    children st2 pp = x :: children st pp.
Proof.
  intros Hko Hpar Hok Hnin Hx Hde Hd Hcreate Hy.
  rewrite (create_dir_under_parent _ _ _ _ _ _ _ _ _ Hko Hpar) in Hcreate.
  rewrite (create_dir_linked d x 0 ino kobj pdir _ st pp de Hok Hnin Hx Hde Hd)
    in Hcreate.
  cbn [Z.eqb] in Hcreate.
  destruct (dentries st !! pdir ≫= d_inode) as [pi|]; [|done].
  cbn [mbind option_bind Z.eqb] in Hcreate. injection Hcreate as <-.
  pose proof Hok as (_ & Hp & _).
  assert (x ≠ pp) as Hxp.
  { intros ->. destruct Hp as [? Hp]. rewrite Hx in Hp. done. }
  pose proof (linked_sds x pp d kobj st Hx Hp) as Hsds.
  destruct (linked_node x pp d kobj st Hx Hp) as (_ & _ & Hd1 & _).
  destruct Hp as [psd Hp].
  set (st1 := with_kobjs _ (materialised ino d pdir (linked x pp d kobj st)))
    in *.
  assert (Hsds1 : sds st1 = sds (linked x pp d kobj st)) by done.
  assert (Hdx : dentries st1 !! d ≫= d_fsdata = Some x).
  { subst st1. unfold materialised, sysfs_create.
    cbn [Z.eqb snd with_dentries with_kobjs dentries].
    rewrite lookup_alter_ne, lookup_alter_eq, Hd1, lookup_alter_eq, Hde by done.
    reflexivity. }
  assert (Hchx : children st1 x = []).
  { unfold children. by rewrite Hsds1, Hsds, lookup_insert_eq. }
  assert (Hokx : dir_ok d x st1).
  { split; [done|]. split.
    - rewrite Hsds1, Hsds, lookup_insert_eq. by eexists.
    - rewrite Hchx. split; [by intros ? ?%elem_of_nil|].
      unfold unique_names. rewrite Hchx. apply NoDup_nil_2. }
  unfold sysfs_create_file. cbn [mbind option_bind].
  assert (Hk1 : kobjs st1 !! kobj
                = Some {| k_name := k_name ko; k_parent := k_parent ko;
                          k_dentry := Some d |})
    by (subst st1; cbn [with_kobjs kobjs]; apply lookup_insert_eq).
  rewrite Hk1. cbn [mbind option_bind k_dentry].
  rewrite (add_file_spec _ _ _ _ _ x Hokx), Hchx.
  rewrite decide_False by (by intros ?%elem_of_nil).
  destruct (make_dirent_spec y x None (AttrEl attr)
              (Z.lor (Z.land (attr_mode (deref attr)) S_IALLUGO) S_IFREG)
              SYSFS_KOBJ_ATTR st1 Hy)
    as (st2 & Hmk & _); [by destruct Hokx as (_ & ? & _)|].
  rewrite Hmk. exists st2. split; [done|].
  assert (Hadd : sysfs_add_file (Some y) d attr SYSFS_KOBJ_ATTR st1
                 = Some (0, st2)).
  { rewrite (add_file_spec _ _ _ _ _ x Hokx), Hchx.
    rewrite decide_False by (by intros ?%elem_of_nil). by rewrite Hmk. }
  destruct (add_file_linked d x st1 y attr SYSFS_KOBJ_ATTR st2 Hokx Hy
              (or_introl eq_refl) Hadd) as (_ & Hch2 & Hname & _).
  split; [by rewrite Hch2, Hchx|]. split; [done|].
  destruct (add_file_node _ _ _ _ _ _ _ Hokx Hy Hadd) as (_ & Hrest & _).
  assert (Hpp1 : sds st1 !! pp = Some (set_children (cons x) psd)).
  { rewrite Hsds1, Hsds, lookup_insert_ne, lookup_alter_eq, Hp by done. done. }
  assert (pp ≠ y) as Hpy by congruence.
  unfold children. rewrite (Hrest pp Hpy), Hpp1, Hp.
  rewrite decide_False by done. done.
Qed.

Lemma file_lands_in_object_directory_witness :
  ∃ st1 st2,
    sysfs_create_dir (Some 0%nat) (inr 5%nat) (Some 1%nat) 0 6 8
      with_new_object = Some (0, st1) ∧
    sysfs_create_file (Some 2%nat) (Some 8%nat) (Some attr_a) st1
      = Some (0, st2) ∧
    children st2 1 = [2%nat] ∧ children st2 0 = [1%nat].
Proof.
  eassert (sysfs_create_dir (Some 0%nat) (inr 5%nat) (Some 1%nat) 0 6 8
             with_new_object = Some (0, _)) as Hcreate
    by (vm_compute; reflexivity).
  assert (Hok : dir_ok 0 0 with_new_object).
  { split; [reflexivity|]. split; [by eexists|]. split.
    - intros c Hc. by apply elem_of_nil in Hc.
    - apply NoDup_nil_2. }
  assert (Hfree : "dev" ∉ entry_names with_new_object
                            (children with_new_object 0))
    by (vm_compute; by intros ?%elem_of_nil).
  destruct (file_lands_in_object_directory (Some 0%nat) 5 1 2 6 8 _
              with_new_object _ attr_a 0 0 negative_dev eq_refl eq_refl Hok
              Hfree eq_refl eq_refl ltac:(discriminate) Hcreate eq_refl)
    as (st2 & Hfile & Hch & _ & Hpar).
  eexists _, st2. split; [exact Hcreate|]. split; [exact Hfile|].
  split; [exact Hch|exact Hpar].
Defined.

(** ** Changing the mode of an attribute file *)

(** X21. [sysfs_chmod_file] never changes the type of a file. Whatever mode
    is asked of it, the mode it hands to [notify_change] has the
    permission bits of the request and all other bits, the file type
    among them, from the inode; and the result of [notify_change] is
    its result. It answers [-ENOENT], without calling [notify_change],
    when the lookup fails or finds a dentry without an inode. *)
Theorem chmod_keeps_the_file_type lk nc kobj mode st r req :
  sysfs_chmod_file lk nc kobj mode st = Some (r, req) →
  (∀ victim ia_mode, req = Some (victim, ia_mode) →
     r = nc ∧ lk = inr victim ∧
     ∃ inode, dentries st !! victim ≫= d_inode = Some inode ∧
       Z.land ia_mode S_IALLUGO = Z.land mode S_IALLUGO ∧
       Z.land ia_mode (Z.lnot S_IALLUGO)
         = Z.land (i_mode inode) (Z.lnot S_IALLUGO)) ∧
  (req = None → r = - ENOENT) ∧
  ((∃ err, lk = inl err) ∨
   (∃ victim, lk = inr victim ∧ dentries st !! victim ≫= d_inode = None ∧
              is_Some (dentries st !! victim)) →
   r = - ENOENT ∧ req = None).
Proof.
  unfold sysfs_chmod_file. intros H.
  destruct (kobjs st !! kobj) as [ko|]; [|done]. cbn [mbind option_bind] in H.
  destruct (k_dentry ko) as [dir|]; [|done]. cbn [mbind option_bind] in H.
  destruct (dentries st !! dir ≫= d_inode) as [dino|]; [|done].
  cbn [mbind option_bind] in H.
  destruct lk as [err|victim].
  { injection H as <- <-. split; [done|]. split; [done|]. done. }
  destruct (dentries st !! victim) as [vde|] eqn:Hv; [|done].
  cbn [mbind option_bind] in H.
  destruct (d_inode vde) as [inode|] eqn:Hi.
  2:{ injection H as <- <-. split; [done|]. split; [done|]. done. }
  destruct (dentries st !! d_parent vde) as [pde|]; [|done].
  cbn [mbind option_bind] in H.
  destruct (bool_decide (d_inode pde = Some dino)).
  - injection H as <- <-. split; [|split; [done|]].
    + intros v m [= <- <-]. split; [done|]. split; [done|].
      exists inode. split; [by rewrite Hv|]. split.
      * apply Z.bits_inj'. intros n Hn.
        rewrite !Z.land_spec, Z.lor_spec, !Z.land_spec, Z.lnot_spec by done.
        destruct (Z.testbit mode n), (Z.testbit (i_mode inode) n),
          (Z.testbit S_IALLUGO n); done.
      * apply Z.bits_inj'. intros n Hn.
        rewrite !Z.land_spec, Z.lor_spec, !Z.land_spec, Z.lnot_spec by done.
        destruct (Z.testbit mode n), (Z.testbit (i_mode inode) n),
          (Z.testbit S_IALLUGO n); done.
    + intros [[err [=]]|(v & [= <-] & Hnone & _)].
      rewrite Hv in Hnone. cbn [mbind option_bind] in Hnone. congruence.
  - injection H as <- <-. split; [done|]. split; [done|]. done.
Qed.


Lemma chmod_keeps_the_file_type_witness :
  ∃ st, looked_up_file = Some st ∧
    sysfs_chmod_file (inr 5%nat) 0 7 256 st
    = Some (0, Some (5%nat, 33024)) ∧
    Z.land 33024 (Z.lnot S_IALLUGO) = Z.land 33188 (Z.lnot S_IALLUGO).
Proof.
  eassert (looked_up_file = Some _) as Hst by (vm_compute; reflexivity).
  eexists. split; [exact Hst|].
  match type of Hst with _ = Some ?s => set (st := s) in * end.
  assert (sysfs_chmod_file (inr 5%nat) 0 7 256 st
          = Some (0, Some (5%nat, 33024))) as H by (vm_compute; reflexivity).
  split; [exact H|].
  destruct (chmod_keeps_the_file_type _ _ _ _ _ _ _ H) as (Hreq & _).
  destruct (Hreq _ _ eq_refl) as (_ & _ & inode & Hi & _ & Hbits).
  vm_compute in Hi. injection Hi as <-. exact Hbits.
Defined.

(** ** Removing the directory of an object *)

Lemma remove_dir_loop_pinned sole l st :
  (∀ c, c ∈ l → ∃ sd, sds st !! c = Some sd ∧
      (s_element sd = None ∨ Z.land (s_type sd) SYSFS_NOT_PINNED = 0)) →
  remove_dir_loop sole l st = Some st.
Proof.
  induction l as [|c l IH]; intros H; [done|].
  destruct (H c) as (sd & Hc & Hp); [apply elem_of_cons; by left|].
  cbn [remove_dir_loop]. rewrite Hc. cbn [mbind option_bind].
  assert (bool_decide (s_element sd = None)
          || (Z.land (s_type sd) SYSFS_NOT_PINNED =? 0) = true) as ->.
  { destruct Hp as [-> | ->]; [done|]. by rewrite orb_true_r. }
  apply IH. intros c' Hc'. apply H. apply elem_of_cons. by right.
Qed.

(** What [remove_dir] and the [dput] after it do to a directory whose
    node has the two references of its creation. *)
Lemma remove_dir_tail last d x st nd de i :
  dentries st !! d = Some de → d_inode de = Some i → d_fsdata de = Some x →
  sds st !! x = Some nd → s_count nd = 2 → s_dentry nd = Some d →
  ∃ stA st',
    remove_dir false d st = Some stA ∧ dput last d stA = Some st' ∧
    sds st' = (if last then delete x (set_children (unlink x) <$> sds st)
               else <[x := set_count (λ c, c - 1)
                              (set_children (unlink x) nd)]>
                      (set_children (unlink x) <$> sds st)) ∧
    dentries st' = (if last then delete d (dentries st) else dentries st) ∧
    kobjs st' = kobjs st.
Proof.
  intros Hde Hi Hfs Hx Hcnt Hdn.
  unfold remove_dir, d_delete. rewrite Hde.
  cbn [mbind option_bind]. rewrite Hi. cbn [mbind option_bind].
  rewrite Hde. cbn [mbind option_bind]. rewrite Hfs. cbn [mbind option_bind].
  set (stA := sysfs_put x (list_del_init x st)).
  assert (HsA : sds stA
                = <[x := set_count (λ c, c - 1) (set_children (unlink x) nd)]>
                    (set_children (unlink x) <$> sds st)).
  { subst stA. unfold sysfs_put, list_del_init, list_del.
    rewrite (sds_with_sds (fmap (set_children (unlink x)))), lookup_fmap, Hx.
    cbn [fmap option_fmap option_map set_children s_count]. rewrite Hcnt.
    change (2 - 1 =? 0) with false. cbv iota.
    rewrite (sds_with_sds (alter (set_count (λ c, c - 1)) x)).
    rewrite (sds_with_sds (fmap (set_children (unlink x)))).
    apply alter_known. by rewrite lookup_fmap, Hx. }
  assert (HdA : dentries stA = dentries st)
    by (subst stA; by rewrite dentries_sysfs_put).
  assert (HkA : kobjs stA = kobjs st)
    by (subst stA; by rewrite kobjs_sysfs_put).
  exists stA. destruct last; cbn [dput].
  - rewrite HdA, Hde. cbn [mbind option_bind]. rewrite Hi.
    unfold sysfs_d_iput. rewrite HdA, Hde. cbn [mbind option_bind].
    rewrite Hfs, HsA, lookup_insert_eq. cbn [mbind option_bind].
    cbn [s_dentry set_count set_children]. rewrite Hdn.
    rewrite bool_decide_eq_true_2 by done. cbn [mbind option_bind].
    eexists. split; [done|]. split; [reflexivity|].
    cbn [with_dentries sds dentries kobjs].
    rewrite dentries_sysfs_put, kobjs_sysfs_put.
    cbn [with_sds sds dentries kobjs]. rewrite HdA, HkA.
    split; [|done]. unfold sysfs_put.
    rewrite (sds_with_sds (alter (set_dentry None) x)), HsA.
    rewrite alter_inserted, lookup_insert_eq.
    cbn [set_dentry set_count set_children s_count]. rewrite Hcnt.
    change (2 - 1 - 1 =? 0) with true. cbv iota.
    unfold release_sysfs_dirent.
    rewrite (sds_with_sds (delete x)).
    rewrite (sds_with_sds (alter (set_dentry None) x)), HsA.
    rewrite alter_inserted. by rewrite delete_insert_eq.
  - eexists. split; [done|]. split; [reflexivity|]. done.
Qed.

(** X22. [sysfs_remove_dir] does not descend. When the directory of an
    object holds nothing but subdirectories and cursors, the call
    passes over all of them: it succeeds, clears the object's dentry,
    unlinks the directory's own node (and frees it when the last
    reference to the dentry goes), and leaves every other node in
    memory as it was, the subdirectories included, which are then on
    the list of a node that no directory holds any more. *)
Theorem remove_dir_does_not_descend sole last kobj ko d de i x xsd st :
  kobjs st !! kobj = Some ko → k_dentry ko = Some d →
  dentries st !! d = Some de → d_inode de = Some i → d_fsdata de = Some x →
  sds st !! x = Some xsd → s_count xsd = 2 → s_dentry xsd = Some d →
  x ∉ s_children xsd →
  (∀ c, c ∈ s_children xsd → ∃ sd, sds st !! c = Some sd ∧
      (s_element sd = None ∨ Z.land (s_type sd) SYSFS_NOT_PINNED = 0)) →
  ∃ st',
    sysfs_remove_dir sole last kobj st = Some st' ∧
    kobjs st' !! kobj ≫= k_dentry = None ∧
    (last = true → sds st' !! x = None) ∧
    (∀ c, c ≠ x →
          sds st' !! c = set_children (unlink x) <$> sds st !! c) ∧
    (∀ c, c ∈ s_children xsd → is_Some (sds st' !! c)).
Proof.
  intros Hko Hkd Hde Hi Hfs Hx Hcnt Hdn Hself Hpinned.
  destruct (remove_dir_tail last d x st xsd de i Hde Hi Hfs Hx Hcnt Hdn)
    as (stA & st' & HrA & Hput & Hsds & _ & Hk).
  unfold sysfs_remove_dir. rewrite Hko. cbn [mbind option_bind].
  rewrite Hkd, Hde. cbn [mbind option_bind]. rewrite Hi, Hfs.
  cbn [mbind option_bind]. rewrite Hx. cbn [mbind option_bind].
  rewrite (remove_dir_loop_pinned _ _ _ Hpinned). cbn [mbind option_bind].
  rewrite HrA. cbn [mbind option_bind]. rewrite Hput.
  cbn [mbind option_bind]. eexists. split; [reflexivity|].
  cbn [with_kobjs sds kobjs].
  assert (Hothers : ∀ c, c ≠ x →
            sds st' !! c = set_children (unlink x) <$> sds st !! c).
  { intros c Hc. rewrite Hsds. destruct last.
    - by rewrite lookup_delete_ne, lookup_fmap.
    - by rewrite lookup_insert_ne, lookup_fmap. }
  split; [|split; [|split]].
  - rewrite lookup_alter_eq, Hk, Hko. done.
  - intros ->. rewrite Hsds. apply lookup_delete_eq.
  - exact Hothers.
  - intros c Hc. destruct (Hpinned c Hc) as (sd & Hsd & _).
    rewrite Hothers, Hsd by (intros ->; done). by eexists.
Qed.

Lemma made_sds y x nd (m1 m2 : gmap nat sysfs_dirent) :
  m2 !! y = Some nd →
  (∀ c, c ≠ y →
        m2 !! c = (if decide (x = c) then set_children (cons y) else id)
                    <$> m1 !! c) →
  m2 = <[y := nd]> (alter (set_children (cons y)) x m1).
Proof.
  intros Hy Hrest. apply map_eq. intros c.
  destruct (decide (c = y)) as [->|Hc].
  - by rewrite lookup_insert_eq.
  - rewrite lookup_insert_ne, Hrest, lookup_alter by done.
    destruct (decide (x = c)) as [->|]; by destruct (m1 !! c).
Qed.

Lemma unreferenced_linked x p nd st y :
  unreferenced st y → y ≠ x → s_children nd = [] →
  ∀ c sd, (<[x := nd]> (alter (set_children (cons x)) p (sds st))) !! c
          = Some sd → y ∉ s_children sd.
Proof.
  intros Hun Hyx Hnd c sd. destruct (decide (c = x)) as [->|Hc].
  - rewrite lookup_insert_eq. intros [= <-]. rewrite Hnd. apply not_elem_of_nil.
  - rewrite lookup_insert_ne, lookup_alter by done.
    destruct (decide (p = c)) as [->|].
    + destruct (sds st !! c) as [sd0|] eqn:Hsd0; [|done].
      intros [= <-]. cbn [set_children s_children].
      apply not_elem_of_cons. split; [done|]. by apply (Hun c sd0).
    + apply Hun.
Qed.

(** X23. The life of an object's directory. A directory made by
    [sysfs_create_dir], given one attribute file by [sysfs_create_file]
    that nobody has looked up, and then removed by [sysfs_remove_dir]:
    the file's node is unlinked and freed, the object's dentry is
    cleared, and the parent's children are what they were. When the
    last reference to the dentry goes with the call, all nodes are as
    they were before the directory was made; when somebody still holds
    the dentry, the directory's node stays in memory, on no list, with
    the one reference of the dentry. *)
Theorem remove_dir_undoes_creation root d x y ino kobj ko st st1 st2 attr
    pdir pp de sole last :
  kobjs st !! kobj = Some ko →
  parent_dentry root ko st = Some pdir →
  dir_ok pdir pp st →
  k_name ko ∉ entry_names st (children st pp) →
  sds st !! x = None → unreferenced st x →
  dentries st !! d = Some de → d ≠ pdir →
  sysfs_create_dir root (inr d) (Some x) 0 ino kobj st = Some (0, st1) →
  sds st1 !! y = None → unreferenced st y →
  sysfs_create_file (Some y) (Some kobj) (Some attr) st1 = Some (0, st2) →
  ∃ st3,
    sysfs_remove_dir sole last kobj st2 = Some st3 ∧
    sds st3 = (if last then sds st else <[x := leftover d kobj]> (sds st)) ∧
    children st3 pp = children st pp ∧
    kobjs st3 !! kobj ≫= k_dentry = None.
Proof.
  intros Hko Hpar Hok Hnin Hx Hunx Hde Hd Hcreate Hy Huny Hfile.
  rewrite (create_dir_under_parent _ _ _ _ _ _ _ _ _ Hko Hpar) in Hcreate.
  rewrite (create_dir_linked d x 0 ino kobj pdir _ st pp de Hok Hnin Hx Hde Hd)
    in Hcreate.
  cbn [Z.eqb] in Hcreate.
  destruct (dentries st !! pdir ≫= d_inode) as [pi|]; [|done].
  cbn [mbind option_bind Z.eqb] in Hcreate. injection Hcreate as <-.
  pose proof Hok as (_ & Hp & _).
  assert (x ≠ pp) as Hxp.
  { intros ->. destruct Hp as [? Hp]. rewrite Hx in Hp. done. }
  pose proof (linked_sds x pp d kobj st Hx Hp) as Hsds.
  destruct (linked_node x pp d kobj st Hx Hp) as (_ & _ & Hd1 & _).
  set (st1 := with_kobjs _ (materialised ino d pdir (linked x pp d kobj st)))
    in *.
  assert (Hsds1 : sds st1 = sds (linked x pp d kobj st)) by done.
  assert (Hdi : ∃ i, dentries st1 !! d
                     = Some (set_inode (Some i) (set_fsdata (Some x) de))).
  { eexists. subst st1. unfold materialised, sysfs_create.
    cbn [Z.eqb snd with_dentries with_kobjs dentries].
    rewrite lookup_alter_ne, lookup_alter_eq, Hd1, lookup_alter_eq, Hde by done.
    reflexivity. }
  destruct Hdi as [i Hdi].
  assert (Hchx : children st1 x = []).
  { unfold children. by rewrite Hsds1, Hsds, lookup_insert_eq. }
  assert (Hokx : dir_ok d x st1).
  { split; [by rewrite Hdi|]. split.
    - rewrite Hsds1, Hsds, lookup_insert_eq. by eexists.
    - rewrite Hchx. split; [by intros ? ?%elem_of_nil|].
      unfold unique_names. rewrite Hchx. apply NoDup_nil_2. }
  assert (Hk1 : kobjs st1 !! kobj
                = Some {| k_name := k_name ko; k_parent := k_parent ko;
                          k_dentry := Some d |})
    by (subst st1; cbn [with_kobjs kobjs]; apply lookup_insert_eq).
  unfold sysfs_create_file in Hfile. cbn [mbind option_bind] in Hfile.
  rewrite Hk1 in Hfile. cbn [mbind option_bind k_dentry] in Hfile.
  destruct (add_file_node _ _ _ _ _ _ _ Hokx Hy Hfile)
    as (Hy2 & Hrest & Hd2 & Hk2).
  assert (Hyx : y ≠ x).
  { intros ->. rewrite Hsds1, Hsds, lookup_insert_eq in Hy. done. }
  pose proof (made_sds y x _ (sds st1) (sds st2) Hy2 Hrest) as Hsds2.
  assert (Hx1 : sds st1 !! x = Some (set_count (λ c, c + 1) (leftover d kobj)))
    by (by rewrite Hsds1, Hsds, lookup_insert_eq).
  assert (Hx2 : sds st2 !! x
                = Some (set_children (cons y)
                          (set_count (λ c, c + 1) (leftover d kobj)))).
  { rewrite Hrest, Hx1 by done. by rewrite decide_True. }
  assert (Hun1 : unreferenced st1 y).
  { intros c sd. rewrite Hsds1, Hsds.
    by apply (unreferenced_linked x pp _ st y Huny Hyx). }
  (* the loop frees the file *)
  set (sA := sysfs_put y (list_del_init y st2)).
  assert (HsA : sds sA = sds st1).
  { subst sA. unfold sysfs_put, list_del_init, list_del.
    rewrite (sds_with_sds (fmap (set_children (unlink y)))), lookup_fmap, Hy2.
    cbn [fmap option_fmap option_map set_children s_count attr_node].
    change (1 - 1 =? 0) with true. cbv iota. unfold release_sysfs_dirent.
    rewrite (sds_with_sds (delete y)).
    rewrite (sds_with_sds (fmap (set_children (unlink y)))).
    rewrite Hsds2, (unlink_fresh y x _ st1 Hun1).
    by apply delete_insert_id. }
  assert (HdA : dentries sA = dentries st1)
    by (subst sA; by rewrite dentries_sysfs_put).
  assert (HkA : kobjs sA = kobjs st1)
    by (subst sA; by rewrite kobjs_sysfs_put).
  assert (Hloop : remove_dir_loop sole [y] st2 = Some sA).
  { cbn [remove_dir_loop]. rewrite Hy2. cbn [mbind option_bind].
    rewrite bool_decide_eq_false_2 by done.
    cbn [attr_node s_type orb].
    change (Z.land SYSFS_KOBJ_ATTR SYSFS_NOT_PINNED =? 0) with false.
    cbv iota. unfold sysfs_drop_dentry, list_del_init, list_del.
    rewrite (sds_with_sds (fmap (set_children (unlink y)))), lookup_fmap, Hy2.
    cbn [fmap option_fmap option_map mbind option_bind set_children s_dentry
         attr_node].
    reflexivity. }
  destruct (remove_dir_tail last d x sA
              (set_count (λ c, c + 1) (leftover d kobj))
              (set_inode (Some i) (set_fsdata (Some x) de)) i)
    as (stB & st3 & HrB & Hput & Hsds3 & _ & Hk3);
    [by rewrite HdA, Hdi|done|done|by rewrite HsA|done|done|].
  unfold sysfs_remove_dir. rewrite Hk2, Hk1. cbn [mbind option_bind k_dentry].
  rewrite Hd2, Hdi. cbn [mbind option_bind d_inode d_fsdata set_inode
                          set_fsdata].
  rewrite Hx2. cbn [mbind option_bind set_children s_children leftover
                     set_count].
  rewrite Hloop. cbn [mbind option_bind]. rewrite HrB.
  cbn [mbind option_bind]. rewrite Hput. cbn [mbind option_bind].
  eexists. split; [reflexivity|]. cbn [with_kobjs sds kobjs].
  assert (Hfin : sds st3 = (if last then sds st
                            else <[x := leftover d kobj]> (sds st))).
  { rewrite Hsds3, HsA, Hsds1, Hsds, (unlink_fresh x pp _ st Hunx).
    destruct last.
    - by apply delete_insert_id.
    - by rewrite insert_insert_eq. }
  split; [exact Hfin|]. split.
  - unfold children; cbn [with_kobjs sds]. rewrite Hfin.
    destruct last; [done|].
    by rewrite lookup_insert_ne.
  - rewrite lookup_alter_eq, Hk3, HkA, Hk1. done.
Qed.

Lemma remove_dir_does_not_descend_witness :
  ∃ st',
    sysfs_remove_dir (λ _, false) true 8 nested_dirs = Some st' ∧
    sds st' !! 1%nat = None ∧ is_Some (sds st' !! 2%nat).
Proof.
  assert (Hself : 1%nat ∉ [2%nat])
    by (intros ?%list_elem_of_singleton; discriminate).
  eassert (sds nested_dirs !! 2%nat = Some _) as H2 by reflexivity.
  destruct (remove_dir_does_not_descend (λ _, false) true 8 _ 10 _ _ 1 _
              nested_dirs eq_refl eq_refl eq_refl eq_refl eq_refl eq_refl
              eq_refl eq_refl Hself)
    as (st' & Hr & _ & Hx & _ & Hc).
  { intros c ->%list_elem_of_singleton. eexists. split; [exact H2|].
    right. reflexivity. }
  exists st'. split; [exact Hr|]. split; [by apply Hx|].
  apply Hc. by apply list_elem_of_singleton.
Defined.

Lemma remove_dir_undoes_creation_witness :
  ∃ st1 st2 st3,
    sysfs_create_dir (Some 0%nat) (inr 5%nat) (Some 1%nat) 0 6 8
      with_new_object = Some (0, st1) ∧
    sysfs_create_file (Some 2%nat) (Some 8%nat) (Some attr_a) st1
      = Some (0, st2) ∧
    sysfs_remove_dir (λ _, false) true 8 st2 = Some st3 ∧
    sds st3 = sds with_new_object.
Proof.
  eassert (sysfs_create_dir (Some 0%nat) (inr 5%nat) (Some 1%nat) 0 6 8
             with_new_object = Some (0, _)) as Hcreate
    by (vm_compute; reflexivity).
  match type of Hcreate with _ = Some (_, ?s) => set (st1 := s) in * end.
  eassert (sysfs_create_file (Some 2%nat) (Some 8%nat) (Some attr_a) st1
           = Some (0, _)) as Hfile
    by (vm_compute; reflexivity).
  assert (Hok : dir_ok 0 0 with_new_object).
  { split; [reflexivity|]. split; [by eexists|]. split.
    - intros c Hc. by apply elem_of_nil in Hc.
    - apply NoDup_nil_2. }
  assert (Hfree : "dev" ∉ entry_names with_new_object
                            (children with_new_object 0))
    by (vm_compute; by intros ?%elem_of_nil).
  destruct (remove_dir_undoes_creation (Some 0%nat) 5 1 2 6 8 _
              with_new_object _ _ attr_a 0 0 negative_dev (λ _, false) true
              eq_refl eq_refl Hok Hfree eq_refl (sample_root_unreferenced 1)
              eq_refl ltac:(discriminate) Hcreate eq_refl
              (sample_root_unreferenced 2) Hfile)
    as (st3 & Hremove & Hsds & _).
  eexists _, _, st3. split; [exact Hcreate|]. split; [exact Hfile|].
  split; [exact Hremove|exact Hsds].
Defined.
End DirProps.
